(** * DCF77RadioClock: the decoder core of [DCF77Decoder.cpp]

    A shallow embedding of the class [DCF77Decoder] (files
    [lib/DCF77Decoder/DCF77Decoder.h] and [DCF77Decoder.cpp]) and the
    properties of its synchronizer, bit accumulator, parity check and
    telegram decoding.

    Conventions of the embedding:
    - the target is the Arduino Uno R3 named in the file headers, so [int]
      is a 16-bit two's complement integer and [uint32_t] is what
      [millis()] returns; integers are [Z], narrowing conversions are
      written out ([to_uint32], [to_int]); the fields of [struct tm] are
      [int], as the comment of [DCF77Decoder.h] lists them;
    - the member variables of the class are the fields of the record
      [DCF77Decoder]; the referenced [struct tm] of the caller is the field
      [_dcf77Time]; the level of the indicator pin and what was printed on
      [Serial] are two more fields;
    - [millis()] and [digitalRead(_inputPin)] are inputs: the functions
      that call them take the value read as an argument;
    - what C++ leaves undefined (a store outside [_dcf77Bits], a read
      outside [_weekDay], overflow of a signed increment) is the outcome
      [Undefined]. *)

From Stdlib Require Import ZArith Ascii String Bool Lia List DecimalString.
From stdpp Require Import base list.

Open Scope Z_scope.

(** ** Machine integers *)

Definition INT_BITS : Z := 16.
Definition INT_MAX : Z := 2 ^ (INT_BITS - 1) - 1.
Definition INT_MIN : Z := - 2 ^ (INT_BITS - 1).

(** [uint32_t] arithmetic is modulo [2^32]. *)
Definition to_uint32 (z : Z) : Z := z mod 2 ^ 32.

(** Conversion of an integer value to [int] (modulo [2^INT_BITS], as gcc
    defines it). *)
Definition to_int (z : Z) : Z :=
  (z - INT_MIN) mod 2 ^ INT_BITS + INT_MIN.

(** [(int)c] for a [char] [c]; plain [char] is signed on this target. *)
Definition int_of_char (c : ascii) : Z :=
  let n := Z.of_N (N_of_ascii c) in
  if n <? 128 then n else n - 256.

(** ** Outcomes *)

Inductive undefined : Type :=
  | IndexOutOfRange (array : string) (i : Z)
  | SignedOverflow.

Inductive result (A : Type) : Type :=
  | Ok (a : A)
  | Undefined (u : undefined).

Arguments Ok {A} a.
Arguments Undefined {A} u.

Definition bind {A B : Type} (m : result A) (k : A -> result B) : result B :=
  match m with
  | Ok a => k a
  | Undefined u => Undefined u
  end.

Notation "'let?' x ':=' m 'in' k" := (bind m (fun x => k))
  (at level 10, x name, m at level 100, k at level 200, only parsing).

(** [x++] on an [int]. *)
Definition incr_int (x : Z) : result Z :=
  if x <? INT_MAX then Ok (x + 1) else Undefined SignedOverflow.

(** [for (int i = first; i < last; i++) acc = body i acc]. *)
Fixpoint for_loop {A : Type} (n : nat) (i : Z) (body : Z -> A -> A) (acc : A) : A :=
  match n with
  | O => acc
  | S n' => for_loop n' (i + 1) body (body i acc)
  end.

Definition for_range {A : Type} (first last : Z) (body : Z -> A -> A) (acc : A) : A :=
  for_loop (Z.to_nat (last - first)) first body acc.

(** ** Constants of [DCF77Decoder.h] *)

Definition HIGH : Z := 1.
Definition LOW : Z := 0.
Definition EDGE_RISING : Z := HIGH.
Definition EDGE_FALLING : Z := LOW.
Definition P0 : Z := 100.
Definition P1 : Z := 200.
Definition JITTER : Z := 35.
Definition MIN_SYNCGAP : Z := 1800.
Definition MAX_SYNCGAP : Z := 1900.

(** Declared size of [char _dcf77Bits[62]] and its initializer. *)
Definition DCF77BITS_SIZE : Z := 62.
Definition DCF77BITS_TEMPLATE : string :=
  "0--Meteo-Data--RazZA|mmmmmmmPhhhhhhPddddddwwwMMMMMyyyyyyyyP_".

Definition _bcdValue : list Z := [1; 2; 4; 8; 10; 20; 40; 80].
Definition _weekDay : list string :=
  ["--"; "Mo"; "Di"; "Mi"; "Do"; "Fr"; "Sa"; "So"]%string.
Definition _timeZone : list string := ["---"; "MESZ"; "MEZ"]%string.

(** ** State *)

Record tm : Type := mk_tm {
  tm_sec : Z;
  tm_min : Z;
  tm_hour : Z;
  tm_mday : Z;
  tm_mon : Z;
  tm_year : Z;
  tm_wday : Z;
  tm_yday : Z;
  tm_isdst : Z
}.

Definition set_tm_sec (v : Z) (t : tm) : tm :=
  mk_tm v (tm_min t) (tm_hour t) (tm_mday t) (tm_mon t) (tm_year t)
        (tm_wday t) (tm_yday t) (tm_isdst t).

Record DCF77Decoder : Type := mk_DCF77Decoder {
  _edgeMode : Z;
  _newEdge : bool;
  _startPulse : Z;
  _endPulse : Z;
  _widthPulse : Z;
  _widthPause : Z;
  _synchronized : bool;
  _verbose : bool;
  _seconds : Z;
  _z12 : Z;
  _dcf77Bits : list ascii;
  _dcf77TimeString : string;
  _dcf77Time : tm;
  indicatorPin : bool;
  Serial : list string
}.

Definition set_edgeMode (v : Z) (d : DCF77Decoder) : DCF77Decoder :=
  mk_DCF77Decoder v (_newEdge d) (_startPulse d) (_endPulse d) (_widthPulse d)
    (_widthPause d) (_synchronized d) (_verbose d) (_seconds d) (_z12 d)
    (_dcf77Bits d) (_dcf77TimeString d) (_dcf77Time d) (indicatorPin d) (Serial d).

Definition set_newEdge (v : bool) (d : DCF77Decoder) : DCF77Decoder :=
  mk_DCF77Decoder (_edgeMode d) v (_startPulse d) (_endPulse d) (_widthPulse d)
    (_widthPause d) (_synchronized d) (_verbose d) (_seconds d) (_z12 d)
    (_dcf77Bits d) (_dcf77TimeString d) (_dcf77Time d) (indicatorPin d) (Serial d).

Definition set_startPulse (v : Z) (d : DCF77Decoder) : DCF77Decoder :=
  mk_DCF77Decoder (_edgeMode d) (_newEdge d) v (_endPulse d) (_widthPulse d)
    (_widthPause d) (_synchronized d) (_verbose d) (_seconds d) (_z12 d)
    (_dcf77Bits d) (_dcf77TimeString d) (_dcf77Time d) (indicatorPin d) (Serial d).

Definition set_endPulse (v : Z) (d : DCF77Decoder) : DCF77Decoder :=
  mk_DCF77Decoder (_edgeMode d) (_newEdge d) (_startPulse d) v (_widthPulse d)
    (_widthPause d) (_synchronized d) (_verbose d) (_seconds d) (_z12 d)
    (_dcf77Bits d) (_dcf77TimeString d) (_dcf77Time d) (indicatorPin d) (Serial d).

Definition set_widthPulse (v : Z) (d : DCF77Decoder) : DCF77Decoder :=
  mk_DCF77Decoder (_edgeMode d) (_newEdge d) (_startPulse d) (_endPulse d) v
    (_widthPause d) (_synchronized d) (_verbose d) (_seconds d) (_z12 d)
    (_dcf77Bits d) (_dcf77TimeString d) (_dcf77Time d) (indicatorPin d) (Serial d).

Definition set_widthPause (v : Z) (d : DCF77Decoder) : DCF77Decoder :=
  mk_DCF77Decoder (_edgeMode d) (_newEdge d) (_startPulse d) (_endPulse d)
    (_widthPulse d) v (_synchronized d) (_verbose d) (_seconds d) (_z12 d)
    (_dcf77Bits d) (_dcf77TimeString d) (_dcf77Time d) (indicatorPin d) (Serial d).

Definition set_synchronized (v : bool) (d : DCF77Decoder) : DCF77Decoder :=
  mk_DCF77Decoder (_edgeMode d) (_newEdge d) (_startPulse d) (_endPulse d)
    (_widthPulse d) (_widthPause d) v (_verbose d) (_seconds d) (_z12 d)
    (_dcf77Bits d) (_dcf77TimeString d) (_dcf77Time d) (indicatorPin d) (Serial d).

Definition set_seconds (v : Z) (d : DCF77Decoder) : DCF77Decoder :=
  mk_DCF77Decoder (_edgeMode d) (_newEdge d) (_startPulse d) (_endPulse d)
    (_widthPulse d) (_widthPause d) (_synchronized d) (_verbose d) v (_z12 d)
    (_dcf77Bits d) (_dcf77TimeString d) (_dcf77Time d) (indicatorPin d) (Serial d).

Definition set_z12 (v : Z) (d : DCF77Decoder) : DCF77Decoder :=
  mk_DCF77Decoder (_edgeMode d) (_newEdge d) (_startPulse d) (_endPulse d)
    (_widthPulse d) (_widthPause d) (_synchronized d) (_verbose d) (_seconds d) v
    (_dcf77Bits d) (_dcf77TimeString d) (_dcf77Time d) (indicatorPin d) (Serial d).

Definition set_dcf77Bits (v : list ascii) (d : DCF77Decoder) : DCF77Decoder :=
  mk_DCF77Decoder (_edgeMode d) (_newEdge d) (_startPulse d) (_endPulse d)
    (_widthPulse d) (_widthPause d) (_synchronized d) (_verbose d) (_seconds d)
    (_z12 d) v (_dcf77TimeString d) (_dcf77Time d) (indicatorPin d) (Serial d).

Definition set_dcf77TimeString (v : string) (d : DCF77Decoder) : DCF77Decoder :=
  mk_DCF77Decoder (_edgeMode d) (_newEdge d) (_startPulse d) (_endPulse d)
    (_widthPulse d) (_widthPause d) (_synchronized d) (_verbose d) (_seconds d)
    (_z12 d) (_dcf77Bits d) v (_dcf77Time d) (indicatorPin d) (Serial d).

Definition set_dcf77Time (v : tm) (d : DCF77Decoder) : DCF77Decoder :=
  mk_DCF77Decoder (_edgeMode d) (_newEdge d) (_startPulse d) (_endPulse d)
    (_widthPulse d) (_widthPause d) (_synchronized d) (_verbose d) (_seconds d)
    (_z12 d) (_dcf77Bits d) (_dcf77TimeString d) v (indicatorPin d) (Serial d).

Definition set_indicatorPin (v : bool) (d : DCF77Decoder) : DCF77Decoder :=
  mk_DCF77Decoder (_edgeMode d) (_newEdge d) (_startPulse d) (_endPulse d)
    (_widthPulse d) (_widthPause d) (_synchronized d) (_verbose d) (_seconds d)
    (_z12 d) (_dcf77Bits d) (_dcf77TimeString d) (_dcf77Time d) v (Serial d).

Definition set_verbose (v : bool) (d : DCF77Decoder) : DCF77Decoder :=
  mk_DCF77Decoder (_edgeMode d) (_newEdge d) (_startPulse d) (_endPulse d)
    (_widthPulse d) (_widthPause d) (_synchronized d) v (_seconds d)
    (_z12 d) (_dcf77Bits d) (_dcf77TimeString d) (_dcf77Time d) (indicatorPin d)
    (Serial d).

(** [Serial.print(x)]: the text is appended to what was printed so far. *)
Definition Serial_print (x : string) (d : DCF77Decoder) : DCF77Decoder :=
  mk_DCF77Decoder (_edgeMode d) (_newEdge d) (_startPulse d) (_endPulse d)
    (_widthPulse d) (_widthPause d) (_synchronized d) (_verbose d) (_seconds d)
    (_z12 d) (_dcf77Bits d) (_dcf77TimeString d) (_dcf77Time d) (indicatorPin d)
    (Serial d ++ [x]).

Definition CRLF : string := String "013" (String "010" EmptyString).

Definition Serial_println (x : string) (d : DCF77Decoder) : DCF77Decoder :=
  Serial_print (x ++ CRLF)%string d.

(** The in-class member initializers; [myDCF77] and [dcf77Time] are globals,
    so the members without an initializer start zeroed. *)
Definition tm_zero : tm := mk_tm 0 0 0 0 0 0 0 0 0.

Definition DCF77Decoder_init : DCF77Decoder :=
  {| _edgeMode := -1;
     _newEdge := false;
     _startPulse := 0;
     _endPulse := 0;
     _widthPulse := 0;
     _widthPause := 0;
     _synchronized := false;
     _verbose := true;
     _seconds := 0;
     _z12 := 0;
     _dcf77Bits := list_ascii_of_string DCF77BITS_TEMPLATE ++ [zero; zero];
     _dcf77TimeString := EmptyString;
     _dcf77Time := tm_zero;
     indicatorPin := false;
     Serial := [] |}.

(** ** Array accesses *)

(** [_dcf77Bits[i]] as an rvalue. Every read in the class is at an index
    fixed in the code, between 17 and 58. *)
Definition bitsAt (d : DCF77Decoder) (i : Z) : ascii :=
  default zero (_dcf77Bits d !! Z.to_nat i).

(** [_dcf77Bits[i] = c]. *)
Definition store_dcf77Bits (i : Z) (c : ascii) (d : DCF77Decoder) : result DCF77Decoder :=
  if (0 <=? i) && (i <? DCF77BITS_SIZE)
  then Ok (set_dcf77Bits (<[Z.to_nat i := c]> (_dcf77Bits d)) d)
  else Undefined (IndexOutOfRange "_dcf77Bits" i).

(** [_bcdValue[k]], read at [k = i - firstBit] with [0 <= k < nbrBits <= 8]
    at every call. *)
Definition bcdValueAt (k : Z) : Z := default 0 (_bcdValue !! Z.to_nat k).

(** [_weekDay[i]]: the index is the decoded weekday. *)
Definition weekDayAt (i : Z) : result string :=
  if (0 <=? i) && (i <? 8)
  then Ok (default EmptyString (_weekDay !! Z.to_nat i))
  else Undefined (IndexOutOfRange "_weekDay" i).

Definition timeZoneAt (i : Z) : string :=
  default EmptyString (_timeZone !! Z.to_nat i).

Definition set_tm_min (v : Z) (t : tm) : tm :=
  mk_tm (tm_sec t) v (tm_hour t) (tm_mday t) (tm_mon t) (tm_year t)
        (tm_wday t) (tm_yday t) (tm_isdst t).
Definition set_tm_hour (v : Z) (t : tm) : tm :=
  mk_tm (tm_sec t) (tm_min t) v (tm_mday t) (tm_mon t) (tm_year t)
        (tm_wday t) (tm_yday t) (tm_isdst t).
Definition set_tm_mday (v : Z) (t : tm) : tm :=
  mk_tm (tm_sec t) (tm_min t) (tm_hour t) v (tm_mon t) (tm_year t)
        (tm_wday t) (tm_yday t) (tm_isdst t).
Definition set_tm_mon (v : Z) (t : tm) : tm :=
  mk_tm (tm_sec t) (tm_min t) (tm_hour t) (tm_mday t) v (tm_year t)
        (tm_wday t) (tm_yday t) (tm_isdst t).
Definition set_tm_year (v : Z) (t : tm) : tm :=
  mk_tm (tm_sec t) (tm_min t) (tm_hour t) (tm_mday t) (tm_mon t) v
        (tm_wday t) (tm_yday t) (tm_isdst t).
Definition set_tm_wday (v : Z) (t : tm) : tm :=
  mk_tm (tm_sec t) (tm_min t) (tm_hour t) (tm_mday t) (tm_mon t) (tm_year t)
        v (tm_yday t) (tm_isdst t).
Definition set_tm_isdst (v : Z) (t : tm) : tm :=
  mk_tm (tm_sec t) (tm_min t) (tm_hour t) (tm_mday t) (tm_mon t) (tm_year t)
        (tm_wday t) (tm_yday t) v.

(** ** [snprintf] with [DCF77TIMEFORMAT] *)

Fixpoint repeat_char (n : nat) (c : ascii) : string :=
  match n with
  | O => EmptyString
  | S n' => String c (repeat_char n' c)
  end.

Definition pad_left (width : nat) (c : ascii) (s : string) : string :=
  (repeat_char (width - String.length s) c ++ s)%string.

Definition decimal (z : Z) : string :=
  NilZero.string_of_uint (N.to_uint (Z.to_N z)).

(** [%3s], [%4s]: right-justified in the field width. *)
Definition fmt_s (width : nat) (s : string) : string := pad_left width " " s.

(** [%02d]: zero-padded to two characters, the sign counting as one. *)
Definition fmt_02d (z : Z) : string :=
  if z <? 0 then String "-" (pad_left 1 "0" (decimal (- z)))
  else pad_left 2 "0" (decimal z).

(** "%3s 20%02d-%02d-%02d %02d:%02d:%02d %4s DCF77" *)
Definition DCF77TIMEFORMAT (wd : string) (yy mo dd hh mi ss : Z) (tz : string) : string :=
  (fmt_s 3 wd ++ " 20" ++ fmt_02d yy ++ "-" ++ fmt_02d mo ++ "-" ++ fmt_02d dd
   ++ " " ++ fmt_02d hh ++ ":" ++ fmt_02d mi ++ ":" ++ fmt_02d ss
   ++ " " ++ fmt_s 4 tz ++ " DCF77")%string.

(** [snprintf(buf, size, ...)] keeps at most [size - 1] characters. *)
Definition snprintf (size : nat) (formatted : string) : string :=
  String.substring 0 (size - 1) formatted.

(** ** Member functions of [DCF77Decoder] *)

(** [handleInterrupt]: [level] is what [digitalRead(_inputPin)] returns. *)
Definition handleInterrupt (level : Z) (d : DCF77Decoder) : DCF77Decoder :=
  let d := set_edgeMode level d in
  set_newEdge true d.

(** The block of [collectBits] under [if (_edgeMode == EDGE_RISING)]:
    pulse begins and pause ends. The boolean tells whether the block left
    the function through [return (true)]. *)
Definition pulseBegins (now : Z) (d : DCF77Decoder) : bool * DCF77Decoder :=
  let d := set_startPulse now d in
  let d := set_widthPause (to_int (to_uint32 (_startPulse d - _endPulse d))) d in
  if (MIN_SYNCGAP - JITTER <? _widthPause d) && (_widthPause d <? MAX_SYNCGAP + JITTER)
  then
    let d := set_synchronized true d in
    let d := set_seconds 0 d in
    let d := set_dcf77Time (set_tm_sec 0 (_dcf77Time d)) d in
    (true, d)
  else (false, d).

(** The block of [collectBits] under [if (_edgeMode == EDGE_FALLING)]:
    pulse ends and pause begins. *)
Definition pulseEnds (now : Z) (d : DCF77Decoder) : result DCF77Decoder :=
  let d := set_endPulse now d in
  let d := set_widthPulse (to_int (to_uint32 (_endPulse d - _startPulse d))) d in
  if _synchronized d then
    let? d :=
      (if (P0 - JITTER <? _widthPulse d) && (_widthPulse d <? P0 + JITTER)
       then let? d := store_dcf77Bits (_seconds d) "0" d in
            Ok (if _verbose d then Serial_print "0" d else d)
       else Ok d) in
    let? d :=
      (if (P1 - JITTER <? _widthPulse d) && (_widthPulse d <? P1 + JITTER)
       then let? d := store_dcf77Bits (_seconds d) "1" d in
            Ok (if _verbose d then Serial_print "1" d else d)
       else Ok d) in
    let d := set_indicatorPin (negb (indicatorPin d)) d in
    let? s := incr_int (_seconds d) in
    let d := set_seconds s d in
    let? s := incr_int (tm_sec (_dcf77Time d)) in
    let d := set_dcf77Time (set_tm_sec s (_dcf77Time d)) d in
    Ok d
  else
    Ok (if _verbose d then Serial_print "*" d else d).

(** [collectBits]; [now] is what [millis()] returns in this call. *)
Definition collectBits (now : Z) (d : DCF77Decoder) : result (bool * DCF77Decoder) :=
  if _newEdge d then
    let d := set_newEdge false d in
    let '(returned, d) :=
      if _edgeMode d =? EDGE_RISING then pulseBegins now d else (false, d) in
    if returned then Ok (true, d)
    else if _edgeMode d =? EDGE_FALLING then
      let? d := pulseEnds now d in
      Ok (false, d)
    else Ok (false, d)
  else Ok (false, d).

Definition getValueFromBits (d : DCF77Decoder) (firstBit nbrBits : Z) : Z :=
  for_range firstBit (firstBit + nbrBits)
    (fun i value =>
       value + (int_of_char (bitsAt d i) - int_of_char "0") * bcdValueAt (i - firstBit))
    0.

Definition decodeBits (d : DCF77Decoder) : result DCF77Decoder :=
  let value := getValueFromBits d 17 2 in
  let d :=
    if value =? 2 then
      let d := set_z12 value d in
      set_dcf77Time (set_tm_isdst 0 (_dcf77Time d)) d
    else if value =? 1 then
      let d := set_z12 1 d in
      set_dcf77Time (set_tm_isdst 1 (_dcf77Time d)) d
    else
      let d := set_z12 0 d in
      set_dcf77Time (set_tm_isdst (-1) (_dcf77Time d)) d in
  let d := set_dcf77Time (set_tm_sec 0 (_dcf77Time d)) d in
  let d := set_dcf77Time (set_tm_min (getValueFromBits d 21 7) (_dcf77Time d)) d in
  let d := set_dcf77Time (set_tm_hour (getValueFromBits d 29 6) (_dcf77Time d)) d in
  let d := set_dcf77Time (set_tm_mday (getValueFromBits d 36 6) (_dcf77Time d)) d in
  let d := set_dcf77Time (set_tm_wday (getValueFromBits d 42 3) (_dcf77Time d)) d in
  let d := set_dcf77Time (set_tm_mon (getValueFromBits d 45 5 - 1) (_dcf77Time d)) d in
  let d := set_dcf77Time (set_tm_year (getValueFromBits d 50 8 + 100) (_dcf77Time d)) d in
  let t := _dcf77Time d in
  let? wd := weekDayAt (tm_wday t) in
  Ok (set_dcf77TimeString
        (snprintf 40
           (DCF77TIMEFORMAT wd (tm_year t - 100) (tm_mon t + 1) (tm_mday t)
              (tm_hour t) (tm_min t) (tm_sec t) (timeZoneAt (_z12 d))))
        d).

Definition parityOK (d : DCF77Decoder) : bool :=
  let sum := 0 in
  let sum := for_range 21 29   (* parity minutes *)
               (fun i sum => sum + (int_of_char (bitsAt d i) - int_of_char "0")) sum in
  let sum := for_range 29 36   (* parity hours *)
               (fun i sum => sum + (int_of_char (bitsAt d i) - int_of_char "0")) sum in
  let sum := for_range 36 59   (* parity date *)
               (fun i sum => sum + (int_of_char (bitsAt d i) - int_of_char "0")) sum in
  if Z.rem sum 2 =? 0 then true else false.

Definition printDateTime (d : DCF77Decoder) : DCF77Decoder :=
  Serial_println (_dcf77TimeString d) d.

Definition setVerbose (verbose : bool) (d : DCF77Decoder) : DCF77Decoder :=
  set_verbose verbose d.

Definition isReady (d : DCF77Decoder) : bool :=
  if Ascii.eqb (bitsAt d 58) "P" then false else true.

Definition loop (now : Z) (d : DCF77Decoder) : result DCF77Decoder :=
  let? rd := collectBits now d in
  let '(r, d) := rd in
  if r then
    if parityOK d then
      let? d := decodeBits d in
      Ok (if _verbose d then printDateTime d else d)
    else
      let d := Serial_println " Parity check failed, continue collecting time info..." d in
      let d := Serial_println "012345678901234567890123456789012345678901234567890123456789 " d in
      let d := Serial_println "0--Meteo-Data--RazZA|mmmmmmmPhhhhhhPddddddwwwMMMMMyyyyyyyyP_ " d in
      Ok d
  else Ok d.

(** ** Driving the decoder *)

(** One edge of the input signal: the interrupt handler records the level,
    then the polling [loop] runs and reads the clock. *)
Record edge : Type := mk_edge { edge_level : Z; edge_millis : Z }.

Definition step (d : DCF77Decoder) (e : edge) : result DCF77Decoder :=
  loop (edge_millis e) (handleInterrupt (edge_level e) d).

Fixpoint run (d : DCF77Decoder) (es : list edge) : result DCF77Decoder :=
  match es with
  | [] => Ok d
  | e :: es' => let? d' := step d e in run d' es'
  end.

(** ** Notions used to state the properties *)

(** What the two width tests of [collectBits] store for a pulse of width
    [w]: the character of the last test that holds, nothing when neither
    does. *)
Definition classify (w : Z) : option ascii :=
  let c := None in
  let c := if (P0 - JITTER <? w) && (w <? P0 + JITTER) then Some "0"%char else c in
  let c := if (P1 - JITTER <? w) && (w <? P1 + JITTER) then Some "1"%char else c in
  c.

(** The value [(int)_dcf77Bits[i] - (int)'0'] that [parityOK] and
    [getValueFromBits] read at slot [i]. *)
Definition bitValue (d : DCF77Decoder) (i : Z) : Z :=
  int_of_char (bitsAt d i) - int_of_char "0".

(** Sum of the slot values over [[first, last)]. *)
Definition rangeSum (d : DCF77Decoder) (first last : Z) : Z :=
  for_range first last (fun i sum => sum + bitValue d i) 0.

(** The check the DCF77 telegram defines: minutes, hours and date each carry
    their own even parity. *)
Definition parityPerField (d : DCF77Decoder) : bool :=
  Z.even (rangeSum d 21 29) && Z.even (rangeSum d 29 36) && Z.even (rangeSum d 36 59).

Definition isBit (c : ascii) : bool := Ascii.eqb c "0" || Ascii.eqb c "1".

(** A filled buffer: the 59 slots of a telegram all hold ['0'] or ['1']. *)
Definition filled (d : DCF77Decoder) : bool :=
  for_range 0 59 (fun i ok => ok && isBit (bitsAt d i)) true.

Definition flipChar (c : ascii) : ascii :=
  if Ascii.eqb c "0" then "1"%char else "0"%char.

(** The buffer with the bit of slot [i] inverted. *)
Definition flipBit (i : Z) (d : DCF77Decoder) : DCF77Decoder :=
  set_dcf77Bits (<[Z.to_nat i := flipChar (bitsAt d i)]> (_dcf77Bits d)) d.

(** Binary-coded decimal, least significant bit first: four bits of units,
    the remaining bits are the tens. *)
Definition binary (bits : list Z) : Z :=
  fold_right (fun b acc => b + 2 * acc) 0 bits.

Definition bcd (bits : list Z) : Z :=
  binary (take 4 bits) + 10 * binary (drop 4 bits).

(** The slot values of the field of [nbrBits] bits starting at [firstBit]. *)
Definition fieldBits (d : DCF77Decoder) (firstBit : Z) (nbrBits : nat) : list Z :=
  map (fun k => bitValue d (firstBit + Z.of_nat k)) (seq 0 nbrBits).

(** The decoded time: the caller's record without [tm_sec], which is the
    running second count of [collectBits], and the members [_z12] and
    [_dcf77TimeString] that [decodeBits] derives with it. *)
Definition decoded (d : DCF77Decoder) : list Z * string :=
  let t := _dcf77Time d in
  ([tm_min t; tm_hour t; tm_mday t; tm_mon t; tm_year t; tm_wday t; tm_yday t;
    tm_isdst t; _z12 d],
   _dcf77TimeString d).

(** What [loop] leaves when the parity check of a completed minute fails:
    the three lines on [Serial], nothing else. *)
Definition parityFailureReported (d : DCF77Decoder) : DCF77Decoder :=
  let d := Serial_println " Parity check failed, continue collecting time info..." d in
  let d := Serial_println "012345678901234567890123456789012345678901234567890123456789 " d in
  Serial_println "0--Meteo-Data--RazZA|mmmmmmmPhhhhhhPddddddwwwMMMMMyyyyyyyyP_ " d.

(** The edge [e] completes a minute in state [d] ([collectBits] returns
    true) and the parity check then fails, respectively succeeds. *)
Definition minuteFailed (d : DCF77Decoder) (e : edge) : bool :=
  match collectBits (edge_millis e) (handleInterrupt (edge_level e) d) with
  | Ok (true, dc) => negb (parityOK dc)
  | _ => false
  end.

Definition minuteValidated (d : DCF77Decoder) (e : edge) : bool :=
  match collectBits (edge_millis e) (handleInterrupt (edge_level e) d) with
  | Ok (true, dc) => parityOK dc
  | _ => false
  end.

(** No edge of [es], fed from state [d], completes a validated minute. *)
Fixpoint neverValidated (d : DCF77Decoder) (es : list edge) : bool :=
  match es with
  | [] => true
  | e :: es' =>
      negb (minuteValidated d e) &&
      match step d e with
      | Ok d' => neverValidated d' es'
      | Undefined _ => true
      end
  end.

(** ** Test signals *)

(** The pulse train of the seconds carrying [bits], the first pulse rising
    at [t]: 100 ms for a 0, 200 ms for a 1, one pulse per second. *)
Fixpoint pulses (bits : list ascii) (t : Z) : list edge :=
  match bits with
  | [] => []
  | b :: bs =>
      mk_edge HIGH t
      :: mk_edge LOW (t + (if Ascii.eqb b "1" then P1 else P0))
      :: pulses bs (t + 1000)
  end.

(** The example of the header of [dcf77RadioClock.cpp]. *)
Definition EXAMPLE : string :=
  "01001101001001000010110011100100100010100001111000011010001".

(** Power-up, a first falling edge at 100 ms, then the telegram [bits] from
    2000 ms on (its first rising edge ends a 1900 ms pause). *)
Definition minuteOf (bits : string) : list edge :=
  mk_edge LOW 100 :: pulses (list_ascii_of_string bits) 2000.

(** The rising edge of second 0 of the following minute. *)
Definition nextMinute : edge := mk_edge HIGH 62000.

(** A decoder whose buffer holds [bits] followed by the rest of the
    initial template. *)
Definition holding (bits : string) : DCF77Decoder :=
  set_dcf77Bits
    (list_ascii_of_string bits
     ++ drop (String.length bits) (_dcf77Bits DCF77Decoder_init))
    DCF77Decoder_init.

(** The decoder one second into its first minute: power-up, a falling
    edge at 100 ms, the rising edge at 2000 ms that ends a 1900 ms pause,
    a 100 ms pulse, and the rising edge of second 1 at 3000 ms. *)
Definition inSecond1 : DCF77Decoder :=
  match run DCF77Decoder_init
          [mk_edge LOW 100; mk_edge HIGH 2000; mk_edge LOW 2100; mk_edge HIGH 3000]
  with
  | Ok d => d
  | Undefined _ => DCF77Decoder_init
  end.

(** The example telegram with the bit of slot 21 lost: the minutes parity
    is wrong. *)
Definition CORRUPTED : string :=
  string_of_list_ascii (<[21%nat := "0"%char]> (list_ascii_of_string EXAMPLE)).

(** One pulse per second with the widths [ws], the first rising at [t]. *)
Fixpoint pulsesOfWidth (ws : list Z) (t : Z) : list edge :=
  match ws with
  | [] => []
  | w :: ws' => mk_edge HIGH t :: mk_edge LOW (t + w) :: pulsesOfWidth ws' (t + 1000)
  end.

(** A minute of poor reception after power-up: the pulses of seconds 0 to
    57 arrive 150 ms wide, which is neither bit, the pulse of second 58
    arrives 100 ms wide. *)
Definition POOR_RECEPTION : list edge :=
  mk_edge LOW 100 :: pulsesOfWidth (repeat 150 58 ++ [100]) 2000.

(** A minute with a leap second: a 60th pulse, a 0, follows the 59 bits. *)
Definition LEAP_SECOND_MINUTE : string := (EXAMPLE ++ "0")%string.

(** The decoder after the example telegram, decoded at 62000 ms, and the
    59 pulses of a following minute received with the wrong parity; the
    next rising edge is due at 122000 ms. *)
Definition afterCorruptedMinute : DCF77Decoder :=
  match run DCF77Decoder_init
          (minuteOf EXAMPLE ++ pulses (list_ascii_of_string CORRUPTED) 62000)
  with
  | Ok d => d
  | Undefined _ => DCF77Decoder_init
  end.

(** ** The DCF77 encoding, as the transmitter applies it *)

Definition bitChar (b : bool) : ascii := if b then "1"%char else "0"%char.

(** The BCD code of [v] on [nbrBits] bits, least significant bit first:
    the four bits of the units, then the bits of the tens. *)
Definition bcdBools (nbrBits : nat) (v : Z) : list bool :=
  take nbrBits (map (Z.testbit (v mod 10)) [0; 1; 2; 3]
                ++ map (Z.testbit (v / 10)) [0; 1; 2; 3]).

(** [v] has a BCD code on [nbrBits] bits. *)
Definition bcdFits (nbrBits : nat) (v : Z) : bool :=
  (0 <=? v)
  && (v mod 10 <? 2 ^ Z.of_nat (Nat.min nbrBits 4))
  && (v / 10 <? 2 ^ Z.of_nat (nbrBits - 4)).

(** The bit that makes the number of ones even. *)
Definition parityBit (bs : list bool) : bool := fold_right xorb false bs.

(** The bits of seconds 17 to 58 for a time: the zone bits (1,0 for MESZ,
    0,1 for MEZ), second 19 without information, the start bit of second
    20, then minutes, hours and the date, each group closed by its parity
    bit. *)
Definition timeBits (dst : bool) (minute hour day wday month year : Z) : list bool :=
  let minutes := bcdBools 7 minute in
  let hours := bcdBools 6 hour in
  let date := bcdBools 6 day ++ bcdBools 3 wday ++ bcdBools 5 month ++ bcdBools 8 year in
  [dst; negb dst] ++ [false; true]
  ++ minutes ++ [parityBit minutes]
  ++ hours ++ [parityBit hours]
  ++ date ++ [parityBit date].

(** The 59 bits of a telegram: the bits [other] of seconds 0 to 16, which
    carry no time, then the time. *)
Definition encodeTelegram (other : list bool) (dst : bool)
    (minute hour day wday month year : Z) : list bool :=
  take 17 (other ++ repeat false 17) ++ timeBits dst minute hour day wday month year.

(** The values a telegram can carry. *)
Definition encodable (minute hour day wday month year : Z) : bool :=
  bcdFits 7 minute && bcdFits 6 hour && bcdFits 6 day && bcdFits 3 wday
  && bcdFits 5 month && bcdFits 8 year.

(** The width of the pulse that [pulses] sends for the character [b]. *)
Definition pulseWidth (b : ascii) : Z := if Ascii.eqb b "1" then P1 else P0.

(** The decoder right after its first synchronization: power-up, a
    falling edge at 100 ms and the rising edge at 2000 ms that ends a
    1900 ms pause. *)
Definition atSecond0 : DCF77Decoder :=
  match run DCF77Decoder_init [mk_edge LOW 100; mk_edge HIGH 2000] with
  | Ok d => d
  | Undefined _ => DCF77Decoder_init
  end.

(** The decoder after power-up and the 59 pulses of the example telegram;
    the next rising edge is due at 62000 ms. *)
Definition afterExampleMinute : DCF77Decoder :=
  match run DCF77Decoder_init (minuteOf EXAMPLE) with
  | Ok d => d
  | Undefined _ => DCF77Decoder_init
  end.

(** ** The sketch: menu, print timer and main loop *)

Definition INT32_MAX : Z := 2 ^ 31 - 1.

Definition LF : string := String "010" EmptyString.
Definition CR : string := String "013" EmptyString.

(** The globals of the sketch; [msPrevious] is the static local of the main
    loop, not yet initialized before the first pass. *)
Record RadioClock : Type := mk_RadioClock
  { myDCF77 : DCF77Decoder;
    timeFromStruct_tm : bool;
    msEvery : Z;
    msPrevious : option Z }.

Definition RadioClock_init : RadioClock :=
  {| myDCF77 := DCF77Decoder_init;
     timeFromStruct_tm := false;
     msEvery := 5000;
     msPrevious := None |}.

Definition on_myDCF77 (f : DCF77Decoder -> DCF77Decoder) (s : RadioClock) : RadioClock :=
  mk_RadioClock (f (myDCF77 s)) (timeFromStruct_tm s) (msEvery s) (msPrevious s).

Definition set_timeFromStruct_tm (v : bool) (s : RadioClock) : RadioClock :=
  mk_RadioClock (myDCF77 s) v (msEvery s) (msPrevious s).

Definition set_msEvery (v : Z) (s : RadioClock) : RadioClock :=
  mk_RadioClock (myDCF77 s) (timeFromStruct_tm s) v (msPrevious s).

Definition set_msPrevious (v : Z) (s : RadioClock) : RadioClock :=
  mk_RadioClock (myDCF77 s) (timeFromStruct_tm s) (msEvery s) (Some v).

Definition CLEAR_LINE (s : RadioClock) : RadioClock :=
  on_myDCF77 (Serial_print (CR ++ repeat_char 120 " " ++ CR)) s.

(** [waitIsOver(msPrevious, msWait)]; [now] and [now'] are the two readings
    of [millis()], the second one taken only when the wait is over.  The
    result is paired with the new value of the referenced variable. *)
Definition waitIsOver (now now' : Z) (msPrevious msWait : Z) : bool * Z :=
  if msWait <=? to_uint32 (now - msPrevious) then (true, now') else (false, msPrevious).

Definition showTelegram (s : RadioClock) : RadioClock :=
  let s := on_myDCF77 (setVerbose true) s in
  set_timeFromStruct_tm false s.

Definition showDateTime (s : RadioClock) : RadioClock :=
  let s := on_myDCF77 (setVerbose false) s in
  set_timeFromStruct_tm true s.

(** [setPrintInterval()]; [parsed] lists what the calls of
    [Serial.parseInt()] return while input is available.  The product is
    computed in [int32_t]. *)
Definition setPrintInterval (parsed : list Z) (s : RadioClock) : result RadioClock :=
  let value := 0 in
  let value := fold_left (fun _ v => v) parsed value in
  let? ms := if value <? 1 then Ok 1000
             else if value * 1000 <=? INT32_MAX then Ok (value * 1000)
             else Undefined SignedOverflow in
  let s := set_msEvery (to_uint32 ms) s in
  let s := on_myDCF77 (Serial_print "Interval set to ") s in
  let s := on_myDCF77 (Serial_print (decimal (msEvery s / 1000))) s in
  let s := on_myDCF77 (Serial_print " sec") s in
  Ok (CLEAR_LINE s).

(** The menu table; the function references are kept as tags. *)
Inductive Action : Type :=
  | act_showTelegram
  | act_showDateTime
  | act_setPrintInterval
  | act_showMenu.

Record MenuItem : Type := mk_MenuItem
  { key : ascii; txt : string; action : Action }.

Definition menu : list MenuItem :=
  [ mk_MenuItem "s" "[s] Show received time telegram" act_showTelegram;
    mk_MenuItem "t" "[t] Show time from struct tm every interval sec" act_showDateTime;
    mk_MenuItem "i" "[i] Set print interval [sec]" act_setPrintInterval;
    mk_MenuItem "S" "[S] Show menu" act_showMenu ].

Definition showMenu (s : RadioClock) : RadioClock :=
  let s := on_myDCF77 (Serial_print (LF ++ "-----------------" ++ LF
                                        ++ "DCF77 Radio Clock" ++ LF
                                        ++ "-----------------" ++ LF)) s in
  let s := fold_left (fun s item => on_myDCF77 (Serial_println (txt item)) s) menu s in
  on_myDCF77 (Serial_print (LF ++ "Press a key: ")) s.

Definition call (a : Action) (parsed : list Z) (s : RadioClock) : result RadioClock :=
  match a with
  | act_showTelegram => Ok (showTelegram s)
  | act_showDateTime => Ok (showDateTime s)
  | act_setPrintInterval => setPrintInterval parsed s
  | act_showMenu => Ok (showMenu s)
  end.

(** The search loop of [doMenu]: the first item with the key is called and
    ends the loop. *)
Fixpoint doMenu_from (items : list MenuItem) (k : ascii) (parsed : list Z)
    (s : RadioClock) : result RadioClock :=
  match items with
  | [] => Ok s
  | item :: rest =>
      if Ascii.eqb k (key item) then call (action item) parsed s
      else doMenu_from rest k parsed s
  end.

(** [doMenu()]; [k] is the character [Serial.read()] returns. *)
Definition doMenu (k : ascii) (parsed : list Z) (s : RadioClock) : result RadioClock :=
  let s := CLEAR_LINE s in
  doMenu_from menu k parsed s.

Definition initDCF77Decoder (s : RadioClock) : RadioClock :=
  on_myDCF77 (setVerbose true) s.

Definition setup (s : RadioClock) : RadioClock :=
  let s := initDCF77Decoder s in
  showMenu s.

(** What one pass of the main loop meets: the levels read by the interrupt
    handler since the previous pass, the readings of [millis()] (for the
    static initializer, for the decoder and the two of [waitIsOver]), the
    text [strftime] leaves in [buf], and the pending key with the numbers
    [Serial.parseInt()] would return. *)
Record pass : Type := mk_pass
  { pass_isr : list Z;
    ms_static : Z;
    ms_decoder : Z;
    ms_wait : Z;
    ms_restart : Z;
    strftime_buf : string;
    pass_key : option (ascii * list Z) }.

Definition isr (level : Z) (s : RadioClock) : RadioClock :=
  on_myDCF77 (handleInterrupt level) s.

(** The main [loop()] of the sketch, after the interrupts that preceded
    the pass. *)
Definition sketch_loop (s : RadioClock) (p : pass) : result RadioClock :=
  let s := fold_left (fun s level => isr level s) (pass_isr p) s in
  let s := match msPrevious s with
           | Some _ => s
           | None => set_msPrevious (ms_static p) s
           end in
  let prev := match msPrevious s with Some m => m | None => 0 end in
  let? d := loop (ms_decoder p) (myDCF77 s) in
  let s := on_myDCF77 (fun _ => d) s in
  let '(over, prev) := waitIsOver (ms_wait p) (ms_restart p) prev (msEvery s) in
  let s := set_msPrevious prev s in
  let s := if over && isReady (myDCF77 s) && timeFromStruct_tm s
           then on_myDCF77 (Serial_println (strftime_buf p)) s
           else s in
  match pass_key p with
  | Some (k, parsed) => doMenu k parsed s
  | None => Ok s
  end.

Fixpoint sketch_run (s : RadioClock) (ps : list pass) : result RadioClock :=
  match ps with
  | [] => Ok s
  | p :: ps' => let? s' := sketch_loop s p in sketch_run s' ps'
  end.

(** A pass in which nothing happens but the key [k] being pressed. *)
Definition keyPass (k : ascii) (parsed : list Z) : pass :=
  mk_pass [] 0 0 0 0 "" (Some (k, parsed)).

(** The sketch in date and time mode: after [setup] and the key [t]. *)
Definition dateTimeMode : RadioClock :=
  match sketch_run (setup RadioClock_init) [keyPass "t" []] with
  | Ok s => s
  | Undefined _ => RadioClock_init
  end.

(** The two print modes exclude each other. *)
Definition oneMode (s : RadioClock) : Prop :=
  _verbose (myDCF77 s) = negb (timeFromStruct_tm s).

(** The print interval is a whole number of seconds, at least one. *)
Definition wholeSeconds (s : RadioClock) : Prop :=
  1000 <= msEvery s <= INT32_MAX /\ msEvery s mod 1000 = 0.

(** * Properties *)

(** Boolean comparisons in hypotheses, as propositions. *)
Ltac zbool :=
  repeat match goal with
    | H : (_ && _) = true |- _ => apply andb_true_iff in H; destruct H
    | H : (_ && _) = false |- _ => apply andb_false_iff in H; destruct H
    | H : (_ <? _) = true |- _ => apply Z.ltb_lt in H
    | H : (_ <? _) = false |- _ => apply Z.ltb_ge in H
    | H : (_ <=? _) = true |- _ => apply Z.leb_le in H
    | H : (_ <=? _) = false |- _ => apply Z.leb_gt in H
    | H : (_ =? _) = true |- _ => apply Z.eqb_eq in H
    | H : (_ =? _) = false |- _ => apply Z.eqb_neq in H
    end.

(** Projections of updated records, and [bind] on a known outcome. *)
Ltac fields :=
  cbn [bind
       _edgeMode _newEdge _startPulse _endPulse _widthPulse _widthPause
       _synchronized _verbose _seconds _z12 _dcf77Bits _dcf77TimeString
       _dcf77Time indicatorPin Serial
       set_edgeMode set_newEdge set_startPulse set_endPulse set_widthPulse
       set_widthPause set_synchronized set_verbose set_seconds set_z12
       set_dcf77Bits set_dcf77TimeString set_dcf77Time set_indicatorPin
       Serial_print Serial_println
       tm_sec tm_min tm_hour tm_mday tm_mon tm_year tm_wday tm_yday tm_isdst
       set_tm_sec set_tm_min set_tm_hour set_tm_mday set_tm_mon set_tm_year
       set_tm_wday set_tm_isdst] in *.

(** ** The counting loops *)

Section Loops.

Variable f : Z -> Z.

Lemma for_loop_sum_acc (n : nat) (i acc : Z) :
  for_loop n i (fun i sum => sum + f i) acc
  = acc + for_loop n i (fun i sum => sum + f i) 0.
Proof.
  revert i acc. induction n as [|n IH]; intros i acc; simpl.
  - lia.
  - rewrite IH. rewrite (IH (i + 1) (0 + f i)). lia.
Qed.

Lemma for_loop_sum_step (n : nat) (i : Z) :
  for_loop (S n) i (fun i sum => sum + f i) 0
  = f i + for_loop n (i + 1) (fun i sum => sum + f i) 0.
Proof. simpl. rewrite for_loop_sum_acc. lia. Qed.

End Loops.

(** Changing one summand by [delta] changes the sum by [delta] when the
    index lies in the range, and not at all otherwise. *)
Lemma for_loop_sum_update (f g : Z -> Z) (j delta : Z) (n : nat) (i : Z) :
  (forall k, i <= k < i + Z.of_nat n -> k <> j -> g k = f k) ->
  g j = f j + delta ->
  for_loop n i (fun i sum => sum + g i) 0
  = for_loop n i (fun i sum => sum + f i) 0
    + (if (i <=? j) && (j <? i + Z.of_nat n) then delta else 0).
Proof.
  intros Hne Hj. revert i Hne. induction n as [|n IH]; intros i Hne.
  - simpl for_loop.
    destruct ((i <=? j) && (j <? i + Z.of_nat 0)) eqn:E; zbool; lia.
  - rewrite !for_loop_sum_step, IH by (intros k Hk; apply Hne; lia).
    destruct (Z.eq_dec i j) as [->|Hij].
    + rewrite Hj.
      destruct ((j + 1 <=? j) && (j <? j + 1 + Z.of_nat n)) eqn:E1;
        destruct ((j <=? j) && (j <? j + Z.of_nat (S n))) eqn:E2; zbool; lia.
    + rewrite (Hne i) by lia.
      destruct ((i + 1 <=? j) && (j <? i + 1 + Z.of_nat n)) eqn:E1;
        destruct ((i <=? j) && (j <? i + Z.of_nat (S n))) eqn:E2; zbool; lia.
Qed.

Lemma for_loop_sum_ext (f g : Z -> Z) (n : nat) (i : Z) :
  (forall k, i <= k < i + Z.of_nat n -> g k = f k) ->
  for_loop n i (fun i sum => sum + g i) 0 = for_loop n i (fun i sum => sum + f i) 0.
Proof.
  revert i. induction n as [|n IH]; intros i H; [reflexivity|].
  rewrite !for_loop_sum_step. rewrite H by lia. rewrite IH; [reflexivity|].
  intros k Hk. apply H. lia.
Qed.

Lemma for_loop_and (p : Z -> bool) (n : nat) (i : Z) (acc : bool) :
  for_loop n i (fun i ok => ok && p i) acc = true
  <-> acc = true /\ forall k, i <= k < i + Z.of_nat n -> p k = true.
Proof.
  revert i acc. induction n as [|n IH]; intros i acc; simpl for_loop.
  - split; [intros ->; split; [reflexivity|intros; lia] | tauto].
  - rewrite IH. rewrite andb_true_iff. split.
    + intros [[Ha Hp] H]. split; [exact Ha|].
      intros k Hk. destruct (Z.eq_dec k i) as [->|]; [exact Hp|apply H; lia].
    + intros [Ha H]. repeat split; [exact Ha|apply H; lia|].
      intros k Hk. apply H. lia.
Qed.

(** ** Reading the buffer *)

Lemma bitsAt_set_dcf77Bits (l : list ascii) (d : DCF77Decoder) (i : Z) :
  bitsAt (set_dcf77Bits l d) i = default zero (l !! Z.to_nat i).
Proof. reflexivity. Qed.

Lemma bitsAt_store_eq (d : DCF77Decoder) (i : Z) (c : ascii) :
  (Z.to_nat i < length (_dcf77Bits d))%nat ->
  bitsAt (set_dcf77Bits (<[Z.to_nat i := c]> (_dcf77Bits d)) d) i = c.
Proof.
  intros H. rewrite bitsAt_set_dcf77Bits.
  rewrite list_lookup_insert_eq by exact H. reflexivity.
Qed.

Lemma bitsAt_store_ne (d : DCF77Decoder) (i j : Z) (c : ascii) :
  0 <= i -> 0 <= j -> i <> j ->
  bitsAt (set_dcf77Bits (<[Z.to_nat i := c]> (_dcf77Bits d)) d) j = bitsAt d j.
Proof.
  intros Hi Hj Hij. rewrite bitsAt_set_dcf77Bits.
  rewrite list_lookup_insert_ne by lia. reflexivity.
Qed.

Lemma isBit_cases (c : ascii) :
  isBit c = true <-> c = "0"%char \/ c = "1"%char.
Proof.
  unfold isBit. rewrite orb_true_iff, !Ascii.eqb_eq. reflexivity.
Qed.

Lemma filled_spec (d : DCF77Decoder) :
  filled d = true <-> forall i, 0 <= i < 59 -> isBit (bitsAt d i) = true.
Proof.
  unfold filled, for_range. rewrite for_loop_and. split.
  - intros [_ H] i Hi. apply H. lia.
  - intros H. split; [reflexivity|]. intros k Hk. apply H. lia.
Qed.

Lemma isBit_in_buffer (d : DCF77Decoder) (i : Z) :
  isBit (bitsAt d i) = true -> (Z.to_nat i < length (_dcf77Bits d))%nat.
Proof.
  unfold bitsAt. intros H.
  destruct (_dcf77Bits d !! Z.to_nat i) eqn:E.
  - apply lookup_lt_Some in E. exact E.
  - discriminate H.
Qed.

Lemma bitValue_bit (d : DCF77Decoder) (i : Z) :
  isBit (bitsAt d i) = true -> bitValue d i = 0 \/ bitValue d i = 1.
Proof.
  intros H. apply isBit_cases in H. unfold bitValue.
  destruct H as [-> | ->]; [left | right]; reflexivity.
Qed.

(** ** The parity check *)

Lemma rem2_even (s : Z) : (Z.rem s 2 =? 0) = Z.even s.
Proof.
  pose proof (Z.quot_rem' s 2) as H.
  destruct (Z.rem s 2 =? 0) eqn:E; zbool; symmetry.
  - apply Z.even_spec. exists (s ÷ 2). lia.
  - apply not_true_is_false. intros He.
    apply Z.even_spec in He. destruct He as [k ->].
    apply E. rewrite Z.mul_comm. apply Z.rem_mul. lia.
Qed.

(** [parityOK] adds the three ranges into one sum and tests that sum. *)
Lemma parityOK_sum (d : DCF77Decoder) :
  parityOK d = Z.even (rangeSum d 21 29 + rangeSum d 29 36 + rangeSum d 36 59).
Proof.
  unfold parityOK, rangeSum, for_range.
  fold (bitValue d).
  change (fun i sum : Z => sum + (int_of_char (bitsAt d i) - int_of_char "0"))
    with (fun i sum : Z => sum + bitValue d i).
  rewrite (for_loop_sum_acc _ (Z.to_nat (59 - 36))).
  rewrite (for_loop_sum_acc _ (Z.to_nat (36 - 29))).
  rewrite rem2_even.
  destruct (Z.even _); reflexivity.
Qed.

(** Even parity of each field implies the combined test. *)
Lemma parityPerField_parityOK (d : DCF77Decoder) :
  parityPerField d = true -> parityOK d = true.
Proof.
  unfold parityPerField. rewrite parityOK_sum, !andb_true_iff.
  intros [[H1 H2] H3]. rewrite !Z.even_add, H1, H2, H3. reflexivity.
Qed.

Lemma bitValue_flipBit_other (d : DCF77Decoder) (i k : Z) :
  0 <= i -> 0 <= k -> k <> i -> bitValue (flipBit i d) k = bitValue d k.
Proof.
  intros Hi Hk Hki. unfold bitValue, flipBit.
  rewrite bitsAt_store_ne by lia. reflexivity.
Qed.

Lemma bitValue_flipBit (d : DCF77Decoder) (i : Z) :
  isBit (bitsAt d i) = true ->
  bitValue (flipBit i d) i = 1 - bitValue d i.
Proof.
  intros H. pose proof (isBit_in_buffer d i H) as Hlen.
  unfold bitValue, flipBit. rewrite bitsAt_store_eq by exact Hlen.
  apply isBit_cases in H. destruct H as [-> | ->]; reflexivity.
Qed.

Lemma rangeSum_flipBit (d : DCF77Decoder) (i first last : Z) :
  0 <= first -> 0 <= i ->
  isBit (bitsAt d i) = true ->
  rangeSum (flipBit i d) first last
  = rangeSum d first last
    + (if (first <=? i) && (i <? last) then 1 - 2 * bitValue d i else 0).
Proof.
  intros Hf Hi Hb. unfold rangeSum, for_range.
  destruct (Z.le_gt_cases first last) as [Hle | Hgt].
  - assert (Hupd :
      for_loop (Z.to_nat (last - first)) first
        (fun i0 sum => sum + bitValue (flipBit i d) i0) 0
      = for_loop (Z.to_nat (last - first)) first
          (fun i0 sum => sum + bitValue d i0) 0
        + (if (first <=? i) && (i <? first + Z.of_nat (Z.to_nat (last - first)))
           then 1 - 2 * bitValue d i else 0)).
    { destruct (Z.lt_ge_cases i first) as [Hlt | Hge].
      - rewrite (for_loop_sum_ext (bitValue d)).
        + destruct ((first <=? i) && _) eqn:E; zbool; lia.
        + intros k Hk. apply bitValue_flipBit_other; lia.
      - apply for_loop_sum_update.
        + intros k Hk Hki. apply bitValue_flipBit_other; lia.
        + rewrite bitValue_flipBit by exact Hb. lia. }
    rewrite Hupd. replace (first + Z.of_nat (Z.to_nat (last - first))) with last by lia.
    reflexivity.
  - replace (Z.to_nat (last - first)) with O by lia. simpl.
    destruct ((first <=? i) && (i <? last)) eqn:E; zbool; lia.
Qed.

(** C8. For every filled buffer that [parityOK] accepts, inverting the bit
    of any single slot of the parity-protected ranges [21,29), [29,36) and
    [36,59) gives a buffer that [parityOK] rejects. *)
Theorem parity_single_flip (d : DCF77Decoder) (i : Z) :
  filled d = true ->
  parityOK d = true ->
  21 <= i < 59 ->
  parityOK (flipBit i d) = false.
Proof.
  intros Hf Hp Hi.
  assert (Hb : isBit (bitsAt d i) = true) by (apply filled_spec; [exact Hf | lia]).
  rewrite parityOK_sum in Hp |- *.
  rewrite !rangeSum_flipBit by (try lia; exact Hb).
  set (total := rangeSum d 21 29 + rangeSum d 29 36 + rangeSum d 36 59) in *.
  assert (Hone : forall delta, delta = 1 \/ delta = -1 -> Z.even (total + delta) = false).
  { intros delta [-> | ->]; rewrite Z.even_add, Hp; reflexivity. }
  destruct (bitValue_bit d i Hb) as [E | E]; rewrite E;
    destruct ((21 <=? i) && (i <? 29)) eqn:E1;
    destruct ((29 <=? i) && (i <? 36)) eqn:E2;
    destruct ((36 <=? i) && (i <? 59)) eqn:E3; zbool; try lia;
    match goal with
    | |- Z.even ?x = false =>
        first [ replace x with (total + 1) by (subst total; lia)
              | replace x with (total + -1) by (subst total; lia) ]
    end; apply Hone; auto.
Qed.

Lemma parity_single_flip_witness :
  parityOK (flipBit 21 (holding EXAMPLE)) = false.
Proof.
  apply parity_single_flip; [reflexivity | reflexivity | lia].
Defined.

(** C1. [parityOK] does not check the three ranges independently: the
    example telegram with one bit of the minutes and one bit of the hours
    inverted is a filled buffer whose minutes range and hours range both
    have an odd sum, yet [parityOK] accepts it, and [decodeBits] then
    yields 08:38 for the 09:39 that was sent. *)
Theorem parityOK_accepts_two_odd_fields :
  let d := flipBit 29 (flipBit 21 (holding EXAMPLE)) in
  filled d = true
  /\ Z.even (rangeSum d 21 29) = false
  /\ Z.even (rangeSum d 29 36) = false
  /\ Z.even (rangeSum d 36 59) = true
  /\ parityPerField d = false
  /\ parityOK d = true
  /\ exists d', decodeBits d = Ok d'
       /\ _dcf77TimeString d' = " Sa 2016-03-05 08:38:00  MEZ DCF77"%string.
Proof.
  repeat split; try reflexivity.
  eexists. split; [vm_compute; reflexivity | reflexivity].
Qed.

(** ** Decoding *)

Lemma getValueFromBits_ext (d d' : DCF77Decoder) (firstBit nbrBits : Z) :
  (forall i, firstBit <= i < firstBit + nbrBits -> bitsAt d' i = bitsAt d i) ->
  getValueFromBits d' firstBit nbrBits = getValueFromBits d firstBit nbrBits.
Proof.
  intros H. unfold getValueFromBits, for_range.
  apply (for_loop_sum_ext
           (fun i => (int_of_char (bitsAt d i) - int_of_char "0") * bcdValueAt (i - firstBit))
           (fun i => (int_of_char (bitsAt d' i) - int_of_char "0") * bcdValueAt (i - firstBit))).
  intros k Hk. rewrite H by lia. reflexivity.
Qed.

Lemma rangeSum_ext (d d' : DCF77Decoder) (first last : Z) :
  (forall i, first <= i < last -> bitsAt d' i = bitsAt d i) ->
  rangeSum d' first last = rangeSum d first last.
Proof.
  intros H. unfold rangeSum, for_range. apply for_loop_sum_ext.
  intros k Hk. unfold bitValue. rewrite H by lia. reflexivity.
Qed.

Lemma parityOK_ext (d d' : DCF77Decoder) :
  (forall i, 21 <= i < 59 -> bitsAt d' i = bitsAt d i) ->
  parityOK d' = parityOK d.
Proof.
  intros H. rewrite !parityOK_sum.
  rewrite !(rangeSum_ext d d') by (intros; apply H; lia). reflexivity.
Qed.

(** The telegram part of two buffers is the same. *)
Lemma same_telegram (d d' : DCF77Decoder) :
  take 59 (_dcf77Bits d') = take 59 (_dcf77Bits d) ->
  forall i, 0 <= i < 59 -> bitsAt d' i = bitsAt d i.
Proof.
  intros H i Hi. unfold bitsAt.
  rewrite <- (lookup_take_lt (_dcf77Bits d') 59) by lia.
  rewrite <- (lookup_take_lt (_dcf77Bits d) 59) by lia.
  rewrite H. reflexivity.
Qed.

Lemma weekDayAt_in_range (i : Z) :
  0 <= i < 8 -> weekDayAt i = Ok (default EmptyString (_weekDay !! Z.to_nat i)).
Proof.
  intros H. unfold weekDayAt.
  destruct ((0 <=? i) && (i <? 8)) eqn:E; [reflexivity | zbool; lia].
Qed.

(** [decodeBits] in one piece: the members it assigns, as functions of the
    buffer. *)
Lemma decodeBits_eq (d : DCF77Decoder) :
  decodeBits d =
  let value := getValueFromBits d 17 2 in
  let z12 := if value =? 2 then 2 else if value =? 1 then 1 else 0 in
  let isdst := if value =? 2 then 0 else if value =? 1 then 1 else -1 in
  let t := mk_tm 0 (getValueFromBits d 21 7) (getValueFromBits d 29 6)
             (getValueFromBits d 36 6) (getValueFromBits d 45 5 - 1)
             (getValueFromBits d 50 8 + 100) (getValueFromBits d 42 3)
             (tm_yday (_dcf77Time d)) isdst in
  let? wd := weekDayAt (tm_wday t) in
  Ok (set_dcf77TimeString
        (snprintf 40
           (DCF77TIMEFORMAT wd (tm_year t - 100) (tm_mon t + 1) (tm_mday t)
              (tm_hour t) (tm_min t) (tm_sec t) (timeZoneAt z12)))
        (set_dcf77Time t (set_z12 z12 d))).
Proof.
  unfold decodeBits. cbv zeta.
  destruct (getValueFromBits d 17 2 =? 2) eqn:E2.
  - zbool. rewrite E2. reflexivity.
  - destruct (getValueFromBits d 17 2 =? 1); reflexivity.
Qed.

(** C7. When the buffer holds the bits of the example telegram, the parity
    check passes and [decodeBits] yields Saturday 2016-03-05 09:39:00 with
    the zone flag of standard time, MEZ. *)
Theorem example_telegram_decodes (d : DCF77Decoder) :
  take 59 (_dcf77Bits d) = list_ascii_of_string EXAMPLE ->
  parityOK d = true
  /\ exists d', decodeBits d = Ok d'
       /\ _dcf77Time d' = mk_tm 0 39 9 5 2 116 6 (tm_yday (_dcf77Time d)) 0
       /\ default EmptyString (_weekDay !! Z.to_nat (tm_wday (_dcf77Time d'))) = "Sa"%string
       /\ getValueFromBits d 17 2 = 2
       /\ _z12 d' = 2
       /\ timeZoneAt (_z12 d') = "MEZ"%string
       /\ _dcf77TimeString d' = " Sa 2016-03-05 09:39:00  MEZ DCF77"%string.
Proof.
  intros H.
  assert (Hs : forall i, 0 <= i < 59 -> bitsAt d i = bitsAt (holding EXAMPLE) i).
  { apply same_telegram. rewrite H. reflexivity. }
  assert (Hv : forall firstBit nbrBits, 0 <= firstBit -> firstBit + nbrBits <= 59 ->
               getValueFromBits d firstBit nbrBits
               = getValueFromBits (holding EXAMPLE) firstBit nbrBits).
  { intros. apply getValueFromBits_ext. intros. apply Hs. lia. }
  split.
  - rewrite (parityOK_ext (holding EXAMPLE) d) by (intros; apply Hs; lia).
    reflexivity.
  - rewrite decodeBits_eq. rewrite !Hv by lia.
    vm_compute (getValueFromBits (holding EXAMPLE) 17 2).
    vm_compute (getValueFromBits (holding EXAMPLE) 21 7).
    vm_compute (getValueFromBits (holding EXAMPLE) 29 6).
    vm_compute (getValueFromBits (holding EXAMPLE) 36 6).
    vm_compute (getValueFromBits (holding EXAMPLE) 42 3).
    vm_compute (getValueFromBits (holding EXAMPLE) 45 5).
    vm_compute (getValueFromBits (holding EXAMPLE) 50 8).
    eexists. split; [reflexivity|]. repeat split; reflexivity.
Qed.

Lemma example_telegram_decodes_witness :
  parityOK (holding EXAMPLE) = true
  /\ exists d', decodeBits (holding EXAMPLE) = Ok d'
       /\ _dcf77Time d' = mk_tm 0 39 9 5 2 116 6 0 0
       /\ default EmptyString (_weekDay !! Z.to_nat (tm_wday (_dcf77Time d'))) = "Sa"%string
       /\ getValueFromBits (holding EXAMPLE) 17 2 = 2
       /\ _z12 d' = 2
       /\ timeZoneAt (_z12 d') = "MEZ"%string
       /\ _dcf77TimeString d' = " Sa 2016-03-05 09:39:00  MEZ DCF77"%string.
Proof.
  apply (example_telegram_decodes (holding EXAMPLE)). reflexivity.
Defined.

(** The same telegram received as a signal: after power-up, the pulses of
    the example and the first edge of the next minute, the decoder has
    printed the decoded time. *)
Lemma example_signal_decodes :
  exists d, run DCF77Decoder_init (minuteOf EXAMPLE ++ [nextMinute]) = Ok d
    /\ take 59 (_dcf77Bits d) = list_ascii_of_string EXAMPLE
    /\ _dcf77Time d = mk_tm 0 39 9 5 2 116 6 0 0
    /\ _dcf77TimeString d = " Sa 2016-03-05 09:39:00  MEZ DCF77"%string
    /\ last (Serial d) = Some (" Sa 2016-03-05 09:39:00  MEZ DCF77" ++ CRLF)%string.
Proof.
  eexists. split; [vm_compute; reflexivity|]. repeat split; reflexivity.
Qed.

(** The weighted sums of [getValueFromBits] over the three fields whose
    conventions differ between DCF77 and [struct tm]. *)
Lemma getValueFromBits_wday (d : DCF77Decoder) :
  getValueFromBits d 42 3
  = 0 + bitValue d 42 * 1 + bitValue d 43 * 2 + bitValue d 44 * 4.
Proof. reflexivity. Qed.

Lemma getValueFromBits_mon (d : DCF77Decoder) :
  getValueFromBits d 45 5
  = 0 + bitValue d 45 * 1 + bitValue d 46 * 2 + bitValue d 47 * 4
    + bitValue d 48 * 8 + bitValue d 49 * 10.
Proof. reflexivity. Qed.

Lemma getValueFromBits_year (d : DCF77Decoder) :
  getValueFromBits d 50 8
  = 0 + bitValue d 50 * 1 + bitValue d 51 * 2 + bitValue d 52 * 4
    + bitValue d 53 * 8 + bitValue d 54 * 10 + bitValue d 55 * 20
    + bitValue d 56 * 40 + bitValue d 57 * 80.
Proof. reflexivity. Qed.

Lemma bcd_wday (d : DCF77Decoder) :
  bcd (fieldBits d 42 3)
  = bitValue d 42 + 2 * (bitValue d 43 + 2 * (bitValue d 44 + 2 * 0)) + 10 * 0.
Proof. reflexivity. Qed.

Lemma bcd_mon (d : DCF77Decoder) :
  bcd (fieldBits d 45 5)
  = bitValue d 45
    + 2 * (bitValue d 46 + 2 * (bitValue d 47 + 2 * (bitValue d 48 + 2 * 0)))
    + 10 * (bitValue d 49 + 2 * 0).
Proof. reflexivity. Qed.

Lemma bcd_year (d : DCF77Decoder) :
  bcd (fieldBits d 50 8)
  = bitValue d 50
    + 2 * (bitValue d 51 + 2 * (bitValue d 52 + 2 * (bitValue d 53 + 2 * 0)))
    + 10 * (bitValue d 54
            + 2 * (bitValue d 55 + 2 * (bitValue d 56 + 2 * (bitValue d 57 + 2 * 0)))).
Proof. reflexivity. Qed.

(** C10. After [decodeBits] ran on a filled buffer, [tm_mon] is the BCD
    month of the telegram minus 1 and [tm_year] its BCD two-digit year plus
    100, as [struct tm] counts them, while [tm_wday] is the DCF77 weekday
    code as sent, 1 = Monday to 7 = Sunday: a Sunday (bits 1,1,1) is stored
    as 7 and not as the 0 of [struct tm]. *)
Theorem decodeBits_tm_conventions (d : DCF77Decoder) :
  filled d = true ->
  exists d', decodeBits d = Ok d'
    /\ tm_mon (_dcf77Time d') = bcd (fieldBits d 45 5) - 1
    /\ tm_year (_dcf77Time d') = bcd (fieldBits d 50 8) + 100
    /\ tm_wday (_dcf77Time d') = bcd (fieldBits d 42 3)
    /\ 0 <= tm_wday (_dcf77Time d') <= 7
    /\ (fieldBits d 42 3 = [1; 1; 1] -> tm_wday (_dcf77Time d') = 7).
Proof.
  intros Hf. rewrite filled_spec in Hf.
  assert (Hb : forall i, 0 <= i < 59 -> bitValue d i = 0 \/ bitValue d i = 1).
  { intros i Hi. apply bitValue_bit. apply Hf. exact Hi. }
  assert (Hw : 0 <= getValueFromBits d 42 3 <= 7).
  { rewrite getValueFromBits_wday.
    pose proof (Hb 42 ltac:(lia)) as H42.
    pose proof (Hb 43 ltac:(lia)) as H43.
    pose proof (Hb 44 ltac:(lia)) as H44.
    lia. }
  rewrite decodeBits_eq. cbv zeta. cbn [tm_wday].
  rewrite weekDayAt_in_range by lia.
  eexists. split; [reflexivity|]. simpl.
  repeat split.
  - rewrite getValueFromBits_mon, bcd_mon. lia.
  - rewrite getValueFromBits_year, bcd_year. lia.
  - rewrite getValueFromBits_wday, bcd_wday. lia.
  - lia.
  - lia.
  - intros Hsun.
    assert (E : getValueFromBits d 42 3 = bcd (fieldBits d 42 3))
      by (rewrite getValueFromBits_wday, bcd_wday; lia).
    rewrite E, Hsun. reflexivity.
Qed.

Lemma decodeBits_tm_conventions_witness :
  exists d', decodeBits (flipBit 42 (holding EXAMPLE)) = Ok d'
    /\ tm_mon (_dcf77Time d') = bcd (fieldBits (flipBit 42 (holding EXAMPLE)) 45 5) - 1
    /\ tm_year (_dcf77Time d') = bcd (fieldBits (flipBit 42 (holding EXAMPLE)) 50 8) + 100
    /\ tm_wday (_dcf77Time d') = bcd (fieldBits (flipBit 42 (holding EXAMPLE)) 42 3)
    /\ 0 <= tm_wday (_dcf77Time d') <= 7
    /\ (fieldBits (flipBit 42 (holding EXAMPLE)) 42 3 = [1; 1; 1]
        -> tm_wday (_dcf77Time d') = 7).
Proof.
  apply (decodeBits_tm_conventions (flipBit 42 (holding EXAMPLE))). reflexivity.
Defined.

(** A Sunday as [decodeBits] leaves it in the caller's record. *)
Lemma sunday_is_stored_as_7 :
  exists d', decodeBits (flipBit 42 (holding EXAMPLE)) = Ok d'
    /\ tm_wday (_dcf77Time d') = 7
    /\ _dcf77TimeString d' = " So 2016-03-05 09:39:00  MEZ DCF77"%string.
Proof. eexists. split; [vm_compute; reflexivity|]. split; reflexivity. Qed.

(** ** [collectBits], edge by edge *)

Lemma collectBits_idle (now : Z) (d : DCF77Decoder) :
  _newEdge d = false -> collectBits now d = Ok (false, d).
Proof. intros H. unfold collectBits. rewrite H. reflexivity. Qed.

(** The rising edge, with the measured pause [g]. *)
Lemma pulseBegins_eq (now : Z) (d : DCF77Decoder) :
  let g := to_int (to_uint32 (now - _endPulse d)) in
  let d1 := set_widthPause g (set_startPulse now d) in
  pulseBegins now d =
  if (MIN_SYNCGAP - JITTER <? g) && (g <? MAX_SYNCGAP + JITTER)
  then (true, set_dcf77Time (set_tm_sec 0 (_dcf77Time d))
                (set_seconds 0 (set_synchronized true d1)))
  else (false, d1).
Proof. reflexivity. Qed.

Lemma collectBits_rising (now : Z) (d : DCF77Decoder) :
  _newEdge d = true -> _edgeMode d = EDGE_RISING ->
  collectBits now d = Ok (pulseBegins now (set_newEdge false d)).
Proof.
  intros Hn He. unfold collectBits. rewrite Hn.
  cbv zeta. cbn [_edgeMode set_newEdge]. rewrite He.
  change (EDGE_RISING =? EDGE_RISING) with true. cbv iota.
  rewrite pulseBegins_eq. cbv zeta.
  destruct (_ && _); cbn [_edgeMode set_newEdge set_widthPause set_startPulse];
    [reflexivity | rewrite He; reflexivity].
Qed.

Lemma collectBits_falling (now : Z) (d : DCF77Decoder) :
  _newEdge d = true -> _edgeMode d = EDGE_FALLING ->
  collectBits now d =
  let? d' := pulseEnds now (set_newEdge false d) in Ok (false, d').
Proof.
  intros Hn He. unfold collectBits. rewrite Hn.
  cbv zeta. cbn [_edgeMode set_newEdge]. rewrite He.
  change (EDGE_FALLING =? EDGE_RISING) with false. cbv iota.
  cbn [_edgeMode set_newEdge]. rewrite He. reflexivity.
Qed.

Lemma collectBits_other (now : Z) (d : DCF77Decoder) :
  _newEdge d = true -> _edgeMode d <> EDGE_RISING -> _edgeMode d <> EDGE_FALLING ->
  collectBits now d = Ok (false, set_newEdge false d).
Proof.
  intros Hn Hr Hf. unfold collectBits. rewrite Hn.
  cbv zeta. cbn [_edgeMode set_newEdge].
  apply Z.eqb_neq in Hr, Hf. rewrite Hr. cbv iota.
  cbn [_edgeMode set_newEdge]. rewrite Hf. reflexivity.
Qed.

(** ** The synchronizer *)

(** C6, as amended. At a rising edge with measured pause [g] (the value
    left in [_widthPause]), [collectBits] reports the start of a minute if
    and only if [1765 < g < 1935], the bounds 1765 and 1935 excluded; it
    then sets [_synchronized], resets [_seconds] to 0 and [tm_sec] to 0;
    otherwise [_synchronized], [_seconds], the caller's record and the
    buffer are left as they were. *)
Theorem sync_gap_detection (now : Z) (d : DCF77Decoder) :
  _newEdge d = true ->
  _edgeMode d = EDGE_RISING ->
  exists r d', collectBits now d = Ok (r, d')
    /\ _widthPause d' = to_int (to_uint32 (now - _endPulse d))
    /\ (r = true <-> 1765 < _widthPause d' < 1935)
    /\ (r = true ->
        _synchronized d' = true /\ _seconds d' = 0 /\ tm_sec (_dcf77Time d') = 0)
    /\ (r = false ->
        _synchronized d' = _synchronized d /\ _seconds d' = _seconds d
        /\ _dcf77Time d' = _dcf77Time d /\ _dcf77Bits d' = _dcf77Bits d).
Proof.
  intros Hn He. rewrite (collectBits_rising now d Hn He), pulseBegins_eq.
  cbv zeta. cbn [_endPulse set_newEdge].
  set (g := to_int (to_uint32 (now - _endPulse d))).
  change (MIN_SYNCGAP - JITTER) with 1765. change (MAX_SYNCGAP + JITTER) with 1935.
  destruct ((1765 <? g) && (g <? 1935)) eqn:E; zbool;
    eexists; eexists; (split; [reflexivity|]); cbn;
    repeat split; try reflexivity; try discriminate; try lia; intros; try lia.
Qed.

Lemma sync_gap_detection_witness :
  exists r d', collectBits 1800 (handleInterrupt HIGH DCF77Decoder_init) = Ok (r, d')
    /\ _widthPause d' = to_int (to_uint32 (1800 - 0))
    /\ (r = true <-> 1765 < _widthPause d' < 1935)
    /\ (r = true ->
        _synchronized d' = true /\ _seconds d' = 0 /\ tm_sec (_dcf77Time d') = 0)
    /\ (r = false ->
        _synchronized d' = false /\ _seconds d' = 0
        /\ _dcf77Time d' = tm_zero
        /\ _dcf77Bits d' = _dcf77Bits DCF77Decoder_init).
Proof.
  apply (sync_gap_detection 1800 (handleInterrupt HIGH DCF77Decoder_init));
    reflexivity.
Defined.

(** C6 as stated fails on the boundary: a pause of exactly 1765 ms is not
    taken for the sync gap. *)
Lemma sync_gap_boundary_excluded :
  ~ (forall now d r d',
        _newEdge d = true -> _edgeMode d = EDGE_RISING ->
        collectBits now d = Ok (r, d') ->
        1765 <= _widthPause d' <= 1935 -> r = true).
Proof.
  intros H.
  pose (d := handleInterrupt HIGH DCF77Decoder_init).
  assert (E : exists d', collectBits 1765 d = Ok (false, d') /\ _widthPause d' = 1765)
    by (eexists; split; [vm_compute; reflexivity | reflexivity]).
  destruct E as (d' & E & Hw).
  assert (Hr : false = true)
    by (apply (H 1765 d false d' eq_refl eq_refl E); rewrite Hw; lia).
  discriminate Hr.
Qed.

(** ** The bit accumulator *)

(** The two windows of [collectBits], in numbers. *)
Lemma classify_cases (w : Z) :
  (classify w = Some "0"%char <-> 65 < w < 135)
  /\ (classify w = Some "1"%char <-> 165 < w < 235)
  /\ (classify w = None <-> ~ 65 < w < 135 /\ ~ 165 < w < 235).
Proof.
  unfold classify. cbv zeta.
  change (P0 - JITTER) with 65. change (P0 + JITTER) with 135.
  change (P1 - JITTER) with 165. change (P1 + JITTER) with 235.
  destruct ((65 <? w) && (w <? 135)) eqn:E0;
    destruct ((165 <? w) && (w <? 235)) eqn:E1; zbool;
    repeat split; intros; try discriminate; try lia; try reflexivity.
Qed.

(** The falling edge while synchronized, with the measured pulse [w]: the
    slot [_seconds] receives what [classify w] gives, then the indicator
    toggles and both second counters advance. *)
Lemma pulseEnds_synchronized (now : Z) (d : DCF77Decoder) :
  _synchronized d = true ->
  let w := to_int (to_uint32 (now - _startPulse d)) in
  let d1 := set_widthPulse w (set_endPulse now d) in
  pulseEnds now d =
  let? d2 :=
    match classify w with
    | Some c =>
        let? d2 := store_dcf77Bits (_seconds d) c d1 in
        Ok (if _verbose d then Serial_print (String c EmptyString) d2 else d2)
    | None => Ok d1
    end in
  let? s := incr_int (_seconds d) in
  let? t := incr_int (tm_sec (_dcf77Time d)) in
  Ok (set_dcf77Time (set_tm_sec t (_dcf77Time d))
        (set_seconds s (set_indicatorPin (negb (indicatorPin d)) d2))).
Proof.
  intros Hs. cbv zeta. unfold pulseEnds, classify. cbv zeta. fields.
  rewrite Hs.
  set (w := to_int (to_uint32 (now - _startPulse d))). clearbody w.
  change (P0 - JITTER) with 65. change (P0 + JITTER) with 135.
  change (P1 - JITTER) with 165. change (P1 + JITTER) with 235.
  unfold store_dcf77Bits, incr_int.
  destruct ((65 <? w) && (w <? 135)) eqn:E0;
    destruct ((165 <? w) && (w <? 235)) eqn:E1;
    try (exfalso; zbool; lia);
    fields;
    destruct ((0 <=? _seconds d) && (_seconds d <? DCF77BITS_SIZE));
    fields; rewrite ?E1; try reflexivity;
    destruct (_verbose d); fields; rewrite ?E1; fields;
    destruct (_seconds d <? INT_MAX); fields; try reflexivity;
    destruct (tm_sec (_dcf77Time d) <? INT_MAX); reflexivity.
Qed.

Lemma pulseEnds_acquiring (now : Z) (d : DCF77Decoder) :
  _synchronized d = false ->
  let w := to_int (to_uint32 (now - _startPulse d)) in
  let d1 := set_widthPulse w (set_endPulse now d) in
  pulseEnds now d = Ok (if _verbose d then Serial_print "*" d1 else d1).
Proof.
  intros Hs. unfold pulseEnds. cbv zeta.
  cbn [_synchronized _verbose set_endPulse set_widthPulse]. rewrite Hs. reflexivity.
Qed.

Lemma incr_int_below (x : Z) : x < INT_MAX -> incr_int x = Ok (x + 1).
Proof.
  intros H. unfold incr_int.
  destruct (x <? INT_MAX) eqn:E; [reflexivity | zbool; lia].
Qed.

Lemma store_dcf77Bits_inside (i : Z) (c : ascii) (d : DCF77Decoder) :
  0 <= i < DCF77BITS_SIZE ->
  store_dcf77Bits i c d = Ok (set_dcf77Bits (<[Z.to_nat i := c]> (_dcf77Bits d)) d).
Proof.
  intros H. unfold store_dcf77Bits.
  destruct ((0 <=? i) && (i <? DCF77BITS_SIZE)) eqn:E; [reflexivity | zbool; lia].
Qed.

(** The state a falling edge leaves while synchronized, when nothing
    undefined happens on the way. *)
Lemma collectBits_falling_synchronized (now : Z) (d : DCF77Decoder) :
  _newEdge d = true ->
  _edgeMode d = EDGE_FALLING ->
  _synchronized d = true ->
  let w := to_int (to_uint32 (now - _startPulse d)) in
  (classify w = None \/ 0 <= _seconds d < DCF77BITS_SIZE) ->
  _seconds d < INT_MAX ->
  tm_sec (_dcf77Time d) < INT_MAX ->
  let d1 := set_widthPulse w (set_endPulse now (set_newEdge false d)) in
  let d2 :=
    match classify w with
    | Some c =>
        let d2 := set_dcf77Bits (<[Z.to_nat (_seconds d) := c]> (_dcf77Bits d)) d1 in
        if _verbose d then Serial_print (String c EmptyString) d2 else d2
    | None => d1
    end in
  collectBits now d =
  Ok (false,
      set_dcf77Time (set_tm_sec (tm_sec (_dcf77Time d) + 1) (_dcf77Time d))
        (set_seconds (_seconds d + 1)
           (set_indicatorPin (negb (indicatorPin d)) d2))).
Proof.
  intros Hn He Hs w Hstore Hsec Htm. cbv zeta.
  rewrite (collectBits_falling now d Hn He).
  rewrite pulseEnds_synchronized by exact Hs.
  cbv zeta. fields. fold w.
  rewrite (incr_int_below _ Hsec), (incr_int_below _ Htm).
  destruct (classify w) as [c|] eqn:Ec.
  - destruct Hstore as [Hnone | Hin]; [discriminate Hnone|].
    rewrite store_dcf77Bits_inside by (fields; exact Hin).
    fields. reflexivity.
  - reflexivity.
Qed.

(** C5, as amended. For a falling edge while synchronized, with measured
    pulse width [w] (the value left in [_widthPulse]): the pulse is taken
    for a 0 if and only if [65 < w < 135] and for a 1 if and only if
    [165 < w < 235], the bounds 65, 135, 165 and 235 excluded, and is not
    recognized otherwise; a recognized bit is stored in slot [_seconds] and
    echoed on [Serial] when verbose, an unrecognized pulse stores and
    echoes nothing. *)
Theorem pulse_classification (now : Z) (d : DCF77Decoder) :
  _newEdge d = true ->
  _edgeMode d = EDGE_FALLING ->
  _synchronized d = true ->
  0 <= _seconds d < DCF77BITS_SIZE ->
  tm_sec (_dcf77Time d) < INT_MAX ->
  exists d', collectBits now d = Ok (false, d')
    /\ _widthPulse d' = to_int (to_uint32 (now - _startPulse d))
    /\ (classify (_widthPulse d') = Some "0"%char <-> 65 < _widthPulse d' < 135)
    /\ (classify (_widthPulse d') = Some "1"%char <-> 165 < _widthPulse d' < 235)
    /\ (classify (_widthPulse d') = None
        <-> ~ 65 < _widthPulse d' < 135 /\ ~ 165 < _widthPulse d' < 235)
    /\ _dcf77Bits d' =
         match classify (_widthPulse d') with
         | Some c => <[Z.to_nat (_seconds d) := c]> (_dcf77Bits d)
         | None => _dcf77Bits d
         end
    /\ Serial d' =
         Serial d ++
         match classify (_widthPulse d') with
         | Some c => if _verbose d then [String c EmptyString] else []
         | None => []
         end.
Proof.
  intros Hn He Hs Hsec Htm.
  assert (Hmax : _seconds d < INT_MAX)
    by (change DCF77BITS_SIZE with 62 in Hsec; change INT_MAX with 32767; lia).
  pose proof (collectBits_falling_synchronized now d Hn He Hs
                (or_intror Hsec) Hmax Htm) as Hc.
  cbv zeta in Hc.
  set (w := to_int (to_uint32 (now - _startPulse d))) in *. clearbody w.
  destruct (classify_cases w) as (H0 & H1 & Hnone).
  destruct (classify w) as [c|] eqn:Ec; [destruct (_verbose d) eqn:Ev|];
    eexists; (split; [exact Hc|]); fields; rewrite Ec;
    (split; [reflexivity|]); (split; [exact H0|]); (split; [exact H1|]);
    (split; [exact Hnone|]); (split; [reflexivity|]);
    rewrite ?app_nil_r; reflexivity.
Qed.

Lemma pulse_classification_witness :
  exists d', collectBits 3100 (handleInterrupt LOW inSecond1) = Ok (false, d')
    /\ _widthPulse d' = to_int (to_uint32 (3100 - 3000))
    /\ (classify (_widthPulse d') = Some "0"%char <-> 65 < _widthPulse d' < 135)
    /\ (classify (_widthPulse d') = Some "1"%char <-> 165 < _widthPulse d' < 235)
    /\ (classify (_widthPulse d') = None
        <-> ~ 65 < _widthPulse d' < 135 /\ ~ 165 < _widthPulse d' < 235)
    /\ _dcf77Bits d' =
         match classify (_widthPulse d') with
         | Some c => <[Z.to_nat 1 := c]> (_dcf77Bits inSecond1)
         | None => _dcf77Bits inSecond1
         end
    /\ Serial d' =
         Serial inSecond1 ++
         match classify (_widthPulse d') with
         | Some c => [String c EmptyString]
         | None => []
         end.
Proof.
  apply (pulse_classification 3100 (handleInterrupt LOW inSecond1));
    try reflexivity.
  split; [apply Z.leb_le | apply Z.ltb_lt]; reflexivity.
Defined.

(** C5 as stated fails on the boundary: a pulse of exactly 65 ms, ending
    in second 1, is not taken for a 0; slot 1 keeps the ['-'] of the
    template. *)
Lemma pulse_boundary_excluded :
  ~ (forall now d r d',
        _newEdge d = true -> _edgeMode d = EDGE_FALLING -> _synchronized d = true ->
        collectBits now d = Ok (r, d') ->
        65 <= _widthPulse d' <= 135 -> bitsAt d' (_seconds d) = "0"%char).
Proof.
  intros H.
  pose (d := handleInterrupt LOW inSecond1).
  assert (E : exists d', collectBits 3065 d = Ok (false, d')
                /\ _widthPulse d' = 65 /\ bitsAt d' 1 = "-"%char)
    by (eexists; split; [vm_compute; reflexivity | split; reflexivity]).
  destruct E as (d' & E & Hw & Hslot).
  assert (Hbit : bitsAt d' (_seconds d) = "0"%char)
    by (apply (H 3065 d false d' eq_refl eq_refl eq_refl E); rewrite Hw; lia).
  change (_seconds d) with 1 in Hbit. rewrite Hslot in Hbit.
  discriminate Hbit.
Qed.

(** C2, as amended. A falling edge while synchronized whose measured width
    [w] lies outside both windows stores nothing in the buffer and echoes
    nothing on [Serial], but the pulse still counts for a second:
    [_seconds] and [tm_sec] both advance by one and the indicator
    toggles. *)
Theorem unrecognized_pulse_counts_a_second (now : Z) (d : DCF77Decoder) :
  _newEdge d = true ->
  _edgeMode d = EDGE_FALLING ->
  _synchronized d = true ->
  ~ 65 < to_int (to_uint32 (now - _startPulse d)) < 135 ->
  ~ 165 < to_int (to_uint32 (now - _startPulse d)) < 235 ->
  _seconds d < INT_MAX ->
  tm_sec (_dcf77Time d) < INT_MAX ->
  exists d', collectBits now d = Ok (false, d')
    /\ _widthPulse d' = to_int (to_uint32 (now - _startPulse d))
    /\ _dcf77Bits d' = _dcf77Bits d
    /\ Serial d' = Serial d
    /\ _seconds d' = _seconds d + 1
    /\ tm_sec (_dcf77Time d') = tm_sec (_dcf77Time d) + 1
    /\ indicatorPin d' = negb (indicatorPin d).
Proof.
  intros Hn He Hs H0 H1 Hsec Htm.
  assert (Ec : classify (to_int (to_uint32 (now - _startPulse d))) = None)
    by (apply classify_cases; split; assumption).
  pose proof (collectBits_falling_synchronized now d Hn He Hs
                (or_introl Ec) Hsec Htm) as Hc.
  cbv zeta in Hc. rewrite Ec in Hc.
  eexists. split; [exact Hc|]. fields. repeat split; reflexivity.
Qed.

Lemma unrecognized_pulse_counts_a_second_witness :
  exists d', collectBits 3150 (handleInterrupt LOW inSecond1) = Ok (false, d')
    /\ _widthPulse d' = to_int (to_uint32 (3150 - 3000))
    /\ _dcf77Bits d' = _dcf77Bits inSecond1
    /\ Serial d' = Serial inSecond1
    /\ _seconds d' = 1 + 1
    /\ tm_sec (_dcf77Time d') = 1 + 1
    /\ indicatorPin d' = negb true.
Proof.
  apply (unrecognized_pulse_counts_a_second 3150 (handleInterrupt LOW inSecond1));
    try reflexivity.
  - change (to_int (to_uint32 (3150 - _startPulse (handleInterrupt LOW inSecond1))))
      with 150. lia.
  - change (to_int (to_uint32 (3150 - _startPulse (handleInterrupt LOW inSecond1))))
      with 150. lia.
Defined.

(** C2 as stated fails: after a pulse of 150 ms in second 1 the second
    counter is 2. *)
Lemma unrecognized_pulse_advances_seconds :
  ~ (forall now d r d',
        _newEdge d = true -> _edgeMode d = EDGE_FALLING -> _synchronized d = true ->
        collectBits now d = Ok (r, d') ->
        ~ 65 <= _widthPulse d' <= 135 ->
        ~ 165 <= _widthPulse d' <= 235 ->
        _dcf77Bits d' = _dcf77Bits d /\ _seconds d' = _seconds d).
Proof.
  intros H.
  pose (d := handleInterrupt LOW inSecond1).
  assert (E : exists d', collectBits 3150 d = Ok (false, d')
                /\ _widthPulse d' = 150 /\ _seconds d' = 2)
    by (eexists; split; [vm_compute; reflexivity | split; reflexivity]).
  destruct E as (d' & E & Hw & Hsec).
  destruct (H 3150 d false d' eq_refl eq_refl eq_refl E) as [_ Hsame];
    try (rewrite Hw; lia).
  rewrite Hsec in Hsame. discriminate Hsame.
Qed.

(** ** What one edge can change *)

Lemma bind_Ok {A B : Type} (m : result A) (k : A -> result B) (b : B) :
  bind m k = Ok b -> exists a, m = Ok a /\ k a = Ok b.
Proof. destruct m as [a|u]; simpl; [eauto | discriminate]. Qed.

Lemma classify_isBit (w : Z) (c : ascii) : classify w = Some c -> isBit c = true.
Proof.
  unfold classify. cbv zeta.
  destruct ((P1 - JITTER <? w) && (w <? P1 + JITTER));
    [|destruct ((P0 - JITTER <? w) && (w <? P0 + JITTER))];
    intros H; inversion H; reflexivity.
Qed.

(** [collectBits] stores at most one character, a bit, and only in the
    slot [_seconds] on a falling edge while synchronized; it leaves what
    [decodeBits] computed as it was. *)
Lemma collectBits_effect (now : Z) (d : DCF77Decoder) (r : bool) (d' : DCF77Decoder) :
  collectBits now d = Ok (r, d') ->
  decoded d' = decoded d
  /\ (_dcf77Bits d' = _dcf77Bits d
      \/ exists c, isBit c = true
           /\ _newEdge d = true /\ _edgeMode d = EDGE_FALLING
           /\ _synchronized d = true
           /\ 0 <= _seconds d < DCF77BITS_SIZE
           /\ _dcf77Bits d' = <[Z.to_nat (_seconds d) := c]> (_dcf77Bits d)).
Proof.
  destruct (_newEdge d) eqn:Hn; [|rewrite collectBits_idle by exact Hn;
    intros H; inversion H; subst; split; [reflexivity | left; reflexivity]].
  destruct (Z.eq_dec (_edgeMode d) EDGE_RISING) as [Hr | Hr].
  { rewrite (collectBits_rising now d Hn Hr), pulseBegins_eq. cbv zeta.
    destruct (_ && _); intros H; inversion H; subst;
      (split; [reflexivity | left; reflexivity]). }
  destruct (Z.eq_dec (_edgeMode d) EDGE_FALLING) as [Hf | Hf];
    [|rewrite (collectBits_other now d Hn Hr Hf);
      intros H; inversion H; subst; split; [reflexivity | left; reflexivity]].
  rewrite (collectBits_falling now d Hn Hf).
  destruct (_synchronized d) eqn:Hs.
  - rewrite pulseEnds_synchronized by exact Hs. cbv zeta. fields.
    set (w := to_int (to_uint32 (now - _startPulse d))). clearbody w.
    unfold incr_int, store_dcf77Bits. fields.
    destruct (classify w) as [c|] eqn:Ec.
    + destruct ((0 <=? _seconds d) && (_seconds d <? DCF77BITS_SIZE)) eqn:Ei;
        [|discriminate].
      destruct (_verbose d); fields;
        (destruct (_seconds d <? INT_MAX); [|discriminate]);
        (destruct (tm_sec (_dcf77Time d) <? INT_MAX); [|discriminate]);
        fields; intros H; inversion H; subst;
        (split; [reflexivity|]); right; exists c; fields;
        (split; [exact (classify_isBit w c Ec)|]);
        zbool; repeat split; auto.
    + destruct (_seconds d <? INT_MAX); [|discriminate].
      destruct (tm_sec (_dcf77Time d) <? INT_MAX); [|discriminate].
      fields. intros H. inversion H; subst.
      split; [reflexivity | left; reflexivity].
  - rewrite pulseEnds_acquiring by exact Hs. cbv zeta. fields.
    destruct (_verbose d); intros H; inversion H; subst;
      (split; [reflexivity | left; reflexivity]).
Qed.

Lemma decodeBits_buffer (d d' : DCF77Decoder) :
  decodeBits d = Ok d' -> _dcf77Bits d' = _dcf77Bits d.
Proof.
  rewrite decodeBits_eq. cbv zeta. intros H.
  apply bind_Ok in H. destruct H as (wd & _ & H). inversion H. reflexivity.
Qed.

(** [loop], by the outcome of [collectBits]. *)
Lemma loop_eq (now : Z) (d : DCF77Decoder) :
  loop now d =
  let? rd := collectBits now d in
  if fst rd then
    if parityOK (snd rd) then
      let? d2 := decodeBits (snd rd) in
      Ok (if _verbose d2 then printDateTime d2 else d2)
    else Ok (parityFailureReported (snd rd))
  else Ok (snd rd).
Proof.
  unfold loop. destruct (collectBits now d) as [[r dc]|u]; reflexivity.
Qed.

Lemma loop_buffer (now : Z) (d d' : DCF77Decoder) :
  loop now d = Ok d' ->
  _dcf77Bits d' = _dcf77Bits d
  \/ exists c, isBit c = true
       /\ _newEdge d = true /\ _edgeMode d = EDGE_FALLING
       /\ _synchronized d = true
       /\ 0 <= _seconds d < DCF77BITS_SIZE
       /\ _dcf77Bits d' = <[Z.to_nat (_seconds d) := c]> (_dcf77Bits d).
Proof.
  rewrite loop_eq. intros H. apply bind_Ok in H.
  destruct H as ([r dc] & Hc & H). cbn [fst snd] in H.
  destruct (collectBits_effect now d r dc Hc) as [_ Hbuf].
  assert (E : _dcf77Bits d' = _dcf77Bits dc).
  { destruct r; [|inversion H; reflexivity].
    destruct (parityOK dc); [|inversion H; reflexivity].
    apply bind_Ok in H. destruct H as (d2 & Hd & H).
    apply decodeBits_buffer in Hd. rewrite <- Hd.
    destruct (_verbose d2); inversion H; reflexivity. }
  rewrite E. exact Hbuf.
Qed.

Lemma step_buffer (d : DCF77Decoder) (e : edge) (d' : DCF77Decoder) :
  step d e = Ok d' ->
  _dcf77Bits d' = _dcf77Bits d
  \/ exists c, isBit c = true
       /\ edge_level e = EDGE_FALLING
       /\ _synchronized d = true
       /\ 0 <= _seconds d < DCF77BITS_SIZE
       /\ _dcf77Bits d' = <[Z.to_nat (_seconds d) := c]> (_dcf77Bits d).
Proof.
  unfold step. intros H. apply loop_buffer in H.
  destruct H as [H | (c & Hc & _ & He & Hs & Hsec & H)]; [left; exact H|].
  right. exists c. repeat split; auto; apply Hsec.
Qed.

(** ** No store beyond the telegram *)

(** The second counter after [collectBits]: kept, reset or advanced. *)
Lemma collectBits_seconds (now : Z) (d : DCF77Decoder) (r : bool) (d' : DCF77Decoder) :
  collectBits now d = Ok (r, d') ->
  _seconds d' = _seconds d \/ _seconds d' = 0 \/ _seconds d' = _seconds d + 1.
Proof.
  destruct (_newEdge d) eqn:Hn; [|rewrite collectBits_idle by exact Hn;
    intros H; inversion H; subst; left; reflexivity].
  destruct (Z.eq_dec (_edgeMode d) EDGE_RISING) as [Hr | Hr].
  { rewrite (collectBits_rising now d Hn Hr), pulseBegins_eq. cbv zeta.
    destruct (_ && _); intros H; inversion H; subst;
      [right; left; reflexivity | left; reflexivity]. }
  destruct (Z.eq_dec (_edgeMode d) EDGE_FALLING) as [Hf | Hf];
    [|rewrite (collectBits_other now d Hn Hr Hf);
      intros H; inversion H; subst; left; reflexivity].
  rewrite (collectBits_falling now d Hn Hf).
  destruct (_synchronized d) eqn:Hs.
  - rewrite pulseEnds_synchronized by exact Hs. cbv zeta. fields.
    intros H0. apply bind_Ok in H0. destruct H0 as (d1 & H & H0).
    inversion H0; subst. clear H0.
    apply bind_Ok in H. destruct H as (d2 & _ & H).
    apply bind_Ok in H. destruct H as (s & Hs1 & H).
    apply bind_Ok in H. destruct H as (t & _ & H).
    inversion H; subst. fields. right; right.
    unfold incr_int in Hs1. destruct (_seconds d <? INT_MAX); inversion Hs1.
    reflexivity.
  - rewrite pulseEnds_acquiring by exact Hs. cbv zeta. fields.
    destruct (_verbose d); intros H; inversion H; subst; left; reflexivity.
Qed.

Lemma decodeBits_seconds (d d' : DCF77Decoder) :
  decodeBits d = Ok d' -> _seconds d' = _seconds d.
Proof.
  rewrite decodeBits_eq. cbv zeta. intros H.
  apply bind_Ok in H. destruct H as (wd & _ & H). inversion H. reflexivity.
Qed.

Lemma step_seconds_nonneg (d : DCF77Decoder) (e : edge) (d' : DCF77Decoder) :
  step d e = Ok d' -> 0 <= _seconds d -> 0 <= _seconds d'.
Proof.
  unfold step. rewrite loop_eq. intros H Hd.
  apply bind_Ok in H. destruct H as ([r dc] & Hc & H). cbn [fst snd] in H.
  apply collectBits_seconds in Hc.
  change (_seconds (handleInterrupt (edge_level e) d)) with (_seconds d) in Hc.
  assert (E : _seconds d' = _seconds dc).
  { destruct r; [|inversion H; reflexivity].
    destruct (parityOK dc); [|inversion H; reflexivity].
    apply bind_Ok in H. destruct H as (d2 & Hd2 & H).
    apply decodeBits_seconds in Hd2. rewrite <- Hd2.
    destruct (_verbose d2); inversion H; reflexivity. }
  lia.
Qed.

(** [collectBits] leaves the array only on a falling edge while
    synchronized, with the second counter outside of it. *)
Lemma collectBits_undefined (now : Z) (d : DCF77Decoder) (i : Z) :
  collectBits now d = Undefined (IndexOutOfRange "_dcf77Bits" i) ->
  _edgeMode d = EDGE_FALLING /\ ~ 0 <= _seconds d < DCF77BITS_SIZE.
Proof.
  destruct (_newEdge d) eqn:Hn; [|rewrite collectBits_idle by exact Hn; discriminate].
  destruct (Z.eq_dec (_edgeMode d) EDGE_RISING) as [Hr | Hr];
    [rewrite (collectBits_rising now d Hn Hr); discriminate|].
  destruct (Z.eq_dec (_edgeMode d) EDGE_FALLING) as [Hf | Hf];
    [|rewrite (collectBits_other now d Hn Hr Hf); discriminate].
  rewrite (collectBits_falling now d Hn Hf).
  destruct (_synchronized d) eqn:Hs.
  - rewrite pulseEnds_synchronized by exact Hs. cbv zeta. fields.
    unfold store_dcf77Bits, incr_int. fields.
    destruct ((0 <=? _seconds d) && (_seconds d <? DCF77BITS_SIZE)) eqn:Ei.
    + destruct (classify _); [destruct (_verbose d)|]; fields;
        (destruct (_seconds d <? INT_MAX); [|discriminate]);
        (destruct (tm_sec (_dcf77Time d) <? INT_MAX); discriminate).
    + intros _. split; [exact Hf|]. zbool; lia.
  - rewrite pulseEnds_acquiring by exact Hs. discriminate.
Qed.

Lemma step_undefined (d : DCF77Decoder) (e : edge) (i : Z) :
  step d e = Undefined (IndexOutOfRange "_dcf77Bits" i) ->
  edge_level e = EDGE_FALLING /\ ~ 0 <= _seconds d < DCF77BITS_SIZE.
Proof.
  unfold step. rewrite loop_eq.
  destruct (collectBits (edge_millis e) (handleInterrupt (edge_level e) d))
    as [[r dc]|u] eqn:Hc; cbn [bind fst snd].
  - destruct r; [|discriminate]. destruct (parityOK dc); [|discriminate].
    rewrite decodeBits_eq. cbv zeta. unfold weekDayAt.
    destruct (_ && _); cbn [bind]; [destruct (_verbose _)|]; discriminate.
  - intros H. inversion H; subst. apply collectBits_undefined in Hc. exact Hc.
Qed.

(** [collectBits] has no guard on [_seconds]. In a minute with a leap
    second the 60th pulse arrives with the counter at 59 and its bit is
    stored in slot 59, over the ['_'] of the template: the slots from 59
    on do not stay as they were. *)
Lemma bit_stored_at_index_59 :
  ~ (forall es d',
        run DCF77Decoder_init es = Ok d' ->
        drop 59 (_dcf77Bits d') = drop 59 (_dcf77Bits DCF77Decoder_init)).
Proof.
  intros H.
  assert (E : exists d', run DCF77Decoder_init (minuteOf LEAP_SECOND_MINUTE) = Ok d'
                /\ _dcf77Bits d' !! 59%nat = Some "0"%char)
    by (eexists; split; [vm_compute; reflexivity | reflexivity]).
  destruct E as (d' & Hrun & Hslot).
  specialize (H _ d' Hrun).
  assert (Hd : drop 59 (_dcf77Bits d') !! 0%nat = Some "0"%char)
    by (rewrite lookup_drop; exact Hslot).
  rewrite H in Hd. discriminate Hd.
Qed.

(** Three more pulses without a sync gap and the store leaves the array. *)
Lemma store_outside_the_array :
  run DCF77Decoder_init (minuteOf (LEAP_SECOND_MINUTE ++ "000"))
  = Undefined (IndexOutOfRange "_dcf77Bits" 62).
Proof. vm_compute. reflexivity. Qed.

(** ** [isReady] *)

Lemma isReady_spec (d : DCF77Decoder) :
  isReady d = true <-> bitsAt d 58 <> "P"%char.
Proof.
  unfold isReady. destruct (Ascii.eqb_spec (bitsAt d 58) "P"); split;
    intros H; try discriminate; try reflexivity; congruence.
Qed.

(** Slot 58 holds the ['P'] of the template until a bit is stored there and
    a bit from then on. *)
Lemma step_slot_58 (d : DCF77Decoder) (e : edge) (d' : DCF77Decoder) :
  step d e = Ok d' ->
  bitsAt d' 58 = bitsAt d 58 \/ isBit (bitsAt d' 58) = true.
Proof.
  intros H. unfold bitsAt.
  destruct (step_buffer d e d' H) as [E | (c & Hc & _ & _ & Hsec & E)];
    rewrite E; [left; reflexivity|].
  destruct (Z.eq_dec (_seconds d) 58) as [H58 | H58].
  - rewrite H58.
    destruct (Nat.lt_ge_cases (Z.to_nat 58) (length (_dcf77Bits d))) as [Hl | Hl].
    + right. rewrite list_lookup_insert_eq by exact Hl. exact Hc.
    + left. rewrite list_insert_ge by exact Hl. reflexivity.
  - left. rewrite list_lookup_insert_ne by lia. reflexivity.
Qed.

Lemma isBit_not_P (c : ascii) : isBit c = true -> c <> "P"%char.
Proof. intros H ->. discriminate H. Qed.

Lemma run_slot_58 (es : list edge) (d d' : DCF77Decoder) :
  run d es = Ok d' ->
  bitsAt d' 58 = bitsAt d 58 \/ isBit (bitsAt d' 58) = true.
Proof.
  revert d. induction es as [|e es IH]; intros d Hrun.
  - inversion Hrun. left. reflexivity.
  - cbn [run] in Hrun. apply bind_Ok in Hrun. destruct Hrun as (d1 & Hstep & Hrun).
    destruct (IH d1 Hrun) as [E | Hb]; [|right; exact Hb].
    rewrite E. apply (step_slot_58 d e d1 Hstep).
Qed.

(** C4, as amended. For a decoder run from power-up, [isReady] returns
    true if and only if slot 58 holds a received bit in place of the ['P']
    of the initial template, that is once a bit has been stored in second
    58; from then on it returns true after every further edge, whatever
    [parityOK] says of the buffer: it does not return to false. *)
Theorem isReady_latches (es es' : list edge) (d d' : DCF77Decoder) :
  run DCF77Decoder_init es = Ok d ->
  run d es' = Ok d' ->
  (isReady d = true <-> isBit (bitsAt d 58) = true)
  /\ (isReady d = true -> isReady d' = true).
Proof.
  intros Hrun Hrun'. split.
  - rewrite isReady_spec.
    destruct (run_slot_58 es _ d Hrun) as [E | Hb].
    + rewrite E. change (bitsAt DCF77Decoder_init 58) with "P"%char.
      split; [congruence | discriminate].
    + split; [intros _; exact Hb | intros _; apply isBit_not_P; exact Hb].
  - rewrite !isReady_spec. intros Hd.
    destruct (run_slot_58 es' d d' Hrun') as [E | Hb].
    + rewrite E. exact Hd.
    + apply isBit_not_P. exact Hb.
Qed.

Lemma isReady_latches_witness :
  exists d d',
    run DCF77Decoder_init (minuteOf CORRUPTED ++ [nextMinute]) = Ok d
    /\ run d (pulses (list_ascii_of_string EXAMPLE) 63000) = Ok d'
    /\ (isReady d = true <-> isBit (bitsAt d 58) = true)
    /\ (isReady d = true -> isReady d' = true).
Proof.
  eexists. eexists.
  split; [vm_compute; reflexivity|].
  split; [vm_compute; reflexivity|].
  apply (isReady_latches (minuteOf CORRUPTED ++ [nextMinute])
           (pulses (list_ascii_of_string EXAMPLE) 63000));
    vm_compute; reflexivity.
Defined.

(** C4 as stated fails: after a minute received with a wrong parity,
    [isReady] returns true although [parityOK] rejects the buffer and
    nothing was decoded. *)
Lemma isReady_true_on_parity_failure :
  ~ (forall es d,
        run DCF77Decoder_init es = Ok d ->
        isReady d = true -> parityOK d = true).
Proof.
  intros H.
  assert (E : exists d,
             run DCF77Decoder_init (minuteOf CORRUPTED ++ [nextMinute]) = Ok d
             /\ isReady d = true /\ parityOK d = false
             /\ _dcf77TimeString d = EmptyString)
    by (eexists; split; [vm_compute; reflexivity | repeat split; reflexivity]).
  destruct E as (d & Hrun & Hready & Hparity & _).
  specialize (H _ d Hrun Hready). rewrite Hparity in H. discriminate H.
Qed.

(** A bit in slot 58 is all [isReady] looks at: after a minute in which
    only the pulse of second 58 was recognized, [isReady] returns true
    while the slots 0 to 57 still hold the template. *)
Lemma isReady_true_on_single_bit :
  exists d,
    run DCF77Decoder_init POOR_RECEPTION = Ok d
    /\ isReady d = true
    /\ filled d = false
    /\ take 58 (_dcf77Bits d) = take 58 (_dcf77Bits DCF77Decoder_init).
Proof.
  eexists. split; [vm_compute; reflexivity|]. repeat split.
Qed.

(** ** A minute that fails the parity check *)

(** [collectBits] returns true only from the sync branch. *)
Lemma collectBits_true (now : Z) (d dc : DCF77Decoder) :
  collectBits now d = Ok (true, dc) ->
  _synchronized dc = true /\ _seconds dc = 0 /\ tm_sec (_dcf77Time dc) = 0
  /\ _dcf77Bits dc = _dcf77Bits d.
Proof.
  destruct (_newEdge d) eqn:Hn;
    [|rewrite collectBits_idle by exact Hn; discriminate].
  destruct (Z.eq_dec (_edgeMode d) EDGE_RISING) as [Hr | Hr].
  - rewrite (collectBits_rising now d Hn Hr), pulseBegins_eq. cbv zeta.
    destruct (_ && _); intros H; inversion H; subst. repeat split.
  - destruct (Z.eq_dec (_edgeMode d) EDGE_FALLING) as [Hf | Hf].
    + rewrite (collectBits_falling now d Hn Hf).
      destruct (pulseEnds now (set_newEdge false d)); discriminate.
    + rewrite (collectBits_other now d Hn Hr Hf). discriminate.
Qed.

Lemma decoded_parityFailureReported (d : DCF77Decoder) :
  decoded (parityFailureReported d) = decoded d.
Proof. reflexivity. Qed.

(** Unless the edge completes a minute that passes the parity check, what
    [decodeBits] computed stays as it was. *)
Lemma step_decoded (d : DCF77Decoder) (e : edge) (d' : DCF77Decoder) :
  step d e = Ok d' ->
  minuteValidated d e = false ->
  decoded d' = decoded d.
Proof.
  unfold step, minuteValidated. rewrite loop_eq. intros H Hv.
  apply bind_Ok in H. destruct H as ([r dc] & Hc & H).
  rewrite Hc in Hv. cbn [fst snd] in H.
  destruct (collectBits_effect _ _ r dc Hc) as [Hdec _].
  change (decoded (handleInterrupt (edge_level e) d)) with (decoded d) in Hdec.
  rewrite <- Hdec.
  destruct r; [|inversion H; reflexivity].
  rewrite Hv in H. inversion H. reflexivity.
Qed.

Lemma run_decoded (es : list edge) (d d' : DCF77Decoder) :
  run d es = Ok d' ->
  neverValidated d es = true ->
  decoded d' = decoded d.
Proof.
  revert d. induction es as [|e es IH]; intros d Hrun Hnever.
  - inversion Hrun. reflexivity.
  - cbn [run] in Hrun. apply bind_Ok in Hrun. destruct Hrun as (d1 & Hstep & Hrun).
    cbn [neverValidated] in Hnever. rewrite Hstep in Hnever.
    apply andb_true_iff in Hnever. destruct Hnever as [Hnow Hlater].
    apply negb_true_iff in Hnow.
    rewrite (IH d1 Hrun Hlater). apply (step_decoded d e d1 Hstep Hnow).
Qed.

(** C9. When an edge completes a minute and the parity check fails, [loop]
    returns without calling [decodeBits]: it leaves the state of
    [collectBits] with the failure reported on [Serial]. The caller's
    record, [_z12] and the time string keep the values decoded before
    ([tm_sec], the running second count, is at the 0 of the new minute),
    and they keep them over all later edges until a minute passes the
    parity check. *)
Theorem parity_failure_keeps_decoded_time (d : DCF77Decoder) (e : edge) :
  minuteFailed d e = true ->
  exists dc d1,
    collectBits (edge_millis e) (handleInterrupt (edge_level e) d) = Ok (true, dc)
    /\ parityOK dc = false
    /\ step d e = Ok d1
    /\ d1 = parityFailureReported dc
    /\ decoded d1 = decoded d
    /\ tm_sec (_dcf77Time d1) = 0
    /\ forall es d2,
         run d1 es = Ok d2 -> neverValidated d1 es = true ->
         decoded d2 = decoded d.
Proof.
  unfold minuteFailed. intros Hf.
  destruct (collectBits (edge_millis e) (handleInterrupt (edge_level e) d))
    as [[r dc]|u] eqn:Hc; [|discriminate].
  destruct r; [|discriminate]. apply negb_true_iff in Hf.
  assert (Hstep : step d e = Ok (parityFailureReported dc)).
  { unfold step. rewrite loop_eq, Hc. cbn [bind fst snd]. rewrite Hf. reflexivity. }
  assert (Hdec : decoded (parityFailureReported dc) = decoded d).
  { apply (step_decoded d e _ Hstep). unfold minuteValidated. rewrite Hc. exact Hf. }
  exists dc, (parityFailureReported dc).
  repeat split; auto.
  - apply (collectBits_true _ _ dc Hc).
  - intros es d2 Hrun Hnever. rewrite <- Hdec. apply (run_decoded es _ d2 Hrun Hnever).
Qed.

Lemma parity_failure_keeps_decoded_time_witness :
  exists dc d1,
    collectBits 122000 (handleInterrupt HIGH afterCorruptedMinute) = Ok (true, dc)
    /\ parityOK dc = false
    /\ step afterCorruptedMinute (mk_edge HIGH 122000) = Ok d1
    /\ d1 = parityFailureReported dc
    /\ decoded d1 = decoded afterCorruptedMinute
    /\ tm_sec (_dcf77Time d1) = 0
    /\ forall es d2,
         run d1 es = Ok d2 -> neverValidated d1 es = true ->
         decoded d2 = decoded afterCorruptedMinute.
Proof.
  apply (parity_failure_keeps_decoded_time afterCorruptedMinute (mk_edge HIGH 122000)).
  vm_compute. reflexivity.
Defined.

(** The record of the caller after that failed minute: still the time of
    the example, with the seconds at 0. *)
Lemma stale_time_after_parity_failure :
  exists d1, step afterCorruptedMinute (mk_edge HIGH 122000) = Ok d1
    /\ _dcf77Time d1 = mk_tm 0 39 9 5 2 116 6 0 0
    /\ _dcf77TimeString d1 = " Sa 2016-03-05 09:39:00  MEZ DCF77"%string
    /\ take 59 (_dcf77Bits d1) = list_ascii_of_string CORRUPTED.
Proof. eexists. split; [vm_compute; reflexivity|]. repeat split; reflexivity. Qed.

(** ** Measured widths *)

(** A width below [2^15] ms is measured exactly, also when [millis()]
    wrapped around between the two edges. *)
Lemma measured_width (later earlier : Z) :
  0 <= (later - earlier) mod 2 ^ 32 < 2 ^ 15 ->
  to_int (to_uint32 (later - earlier)) = (later - earlier) mod 2 ^ 32.
Proof.
  intros H. unfold to_int, to_uint32.
  change INT_MIN with (- 2 ^ 15). change INT_BITS with 16.
  rewrite Z.mod_small; lia.
Qed.

Lemma measured_width_after_wrap :
  to_int (to_uint32 (1700 - (2 ^ 32 - 100))) = 1800.
Proof. reflexivity. Qed.

(** The measured width is the elapsed time modulo [2^16]: a pause of
    67336 ms reads as 1800 ms. *)
Lemma measured_width_truncated :
  to_int (to_uint32 (67336 - 0)) = 1800.
Proof. reflexivity. Qed.

(** * Further properties of the decoder *)

(** ** What an edge keeps *)

(** The members [collectBits] never assigns, the flag it clears, and what
    it keeps under a condition: the synchronized state once reached, the
    agreement of the two second counters, everything it accumulates while
    still acquiring, and [Serial] when not verbose. *)
Lemma collectBits_frame (now : Z) (d : DCF77Decoder) (r : bool) (d' : DCF77Decoder) :
  collectBits now d = Ok (r, d') ->
  _verbose d' = _verbose d
  /\ decoded d' = decoded d
  /\ (_newEdge d = true -> _newEdge d' = false)
  /\ (_synchronized d = true -> _synchronized d' = true)
  /\ (tm_sec (_dcf77Time d) = _seconds d -> tm_sec (_dcf77Time d') = _seconds d')
  /\ (_synchronized d' = false ->
      r = false /\ _dcf77Bits d' = _dcf77Bits d /\ _seconds d' = _seconds d
      /\ _dcf77Time d' = _dcf77Time d /\ indicatorPin d' = indicatorPin d)
  /\ (_verbose d = false -> Serial d' = Serial d).
Proof.
  destruct (_newEdge d) eqn:Hn; [|rewrite collectBits_idle by exact Hn;
    intros H; inversion H; subst; repeat split; auto; discriminate].
  destruct (Z.eq_dec (_edgeMode d) EDGE_RISING) as [Hr | Hr].
  { rewrite (collectBits_rising now d Hn Hr), pulseBegins_eq. cbv zeta.
    destruct (_ && _); intros H; inversion H; subst; fields;
      repeat split; auto; discriminate. }
  destruct (Z.eq_dec (_edgeMode d) EDGE_FALLING) as [Hf | Hf];
    [|rewrite (collectBits_other now d Hn Hr Hf);
      intros H; inversion H; subst; repeat split; auto].
  rewrite (collectBits_falling now d Hn Hf).
  destruct (_synchronized d) eqn:Hs.
  - rewrite pulseEnds_synchronized by exact Hs. cbv zeta. fields.
    set (w := to_int (to_uint32 (now - _startPulse d))). clearbody w.
    unfold incr_int, store_dcf77Bits. fields.
    destruct (classify w) as [c|];
      [destruct ((0 <=? _seconds d) && (_seconds d <? DCF77BITS_SIZE));
       [|discriminate]; destruct (_verbose d) eqn:Hv|]; fields;
      (destruct (_seconds d <? INT_MAX); [|discriminate]);
      (destruct (tm_sec (_dcf77Time d) <? INT_MAX); [|discriminate]);
      fields; intros H; inversion H; subst; fields;
      repeat split; auto; intros; try discriminate; try congruence; lia.
  - rewrite pulseEnds_acquiring by exact Hs. cbv zeta. fields.
    destruct (_verbose d) eqn:Hv; intros H; inversion H; subst; fields;
      repeat split; auto; discriminate.
Qed.

(** [decodeBits] assigns the caller's record, [_z12] and the time string,
    nothing else, and leaves [tm_sec] at 0. *)
Lemma decodeBits_frame (d d' : DCF77Decoder) :
  decodeBits d = Ok d' ->
  exists s t z,
    d' = set_dcf77TimeString s (set_dcf77Time t (set_z12 z d)) /\ tm_sec t = 0.
Proof.
  rewrite decodeBits_eq. cbv zeta. intros H.
  apply bind_Ok in H. destruct H as (wd & _ & H). inversion H.
  eexists. eexists. eexists. split; reflexivity.
Qed.

Lemma step_frame (d : DCF77Decoder) (e : edge) (d' : DCF77Decoder) :
  step d e = Ok d' ->
  _verbose d' = _verbose d
  /\ _newEdge d' = false
  /\ (_synchronized d = true -> _synchronized d' = true)
  /\ (tm_sec (_dcf77Time d) = _seconds d -> tm_sec (_dcf77Time d') = _seconds d')
  /\ (_synchronized d' = false ->
      _dcf77Bits d' = _dcf77Bits d /\ _seconds d' = _seconds d
      /\ _dcf77Time d' = _dcf77Time d /\ indicatorPin d' = indicatorPin d)
  /\ (_verbose d = false ->
      Serial d' = Serial d
      \/ minuteFailed d e = true /\ Serial d' = Serial (parityFailureReported d)).
Proof.
  unfold step, minuteFailed. rewrite loop_eq. intros H.
  apply bind_Ok in H. destruct H as ([r dc] & Hc & H). cbn [fst snd] in H.
  rewrite Hc.
  destruct (collectBits_frame _ _ r dc Hc) as (Hv & _ & Hn & Hs & Hsec & Hacq & Hser).
  unfold handleInterrupt in Hv, Hn, Hs, Hsec, Hacq, Hser. fields.
  specialize (Hn eq_refl).
  destruct r.
  - pose proof (collectBits_true _ _ dc Hc) as (Hsync & Hzero & Htm & _).
    destruct (parityOK dc) eqn:Hp.
    + apply bind_Ok in H. destruct H as (d2 & Hd & H).
      apply decodeBits_frame in Hd. destruct Hd as (s & t & z & -> & Ht).
      fields. rewrite Hv in H.
      destruct (_verbose d) eqn:Hvd; inversion H; subst;
        unfold printDateTime; fields;
        repeat split; auto; congruence.
    + inversion H; subst. unfold parityFailureReported. fields.
      repeat split; auto; try congruence.
      intros Hq. right. split; [reflexivity|]. rewrite (Hser Hq). reflexivity.
  - inversion H; subst. repeat split; auto; try apply Hacq; auto.
Qed.

(** ** Invariants of a run *)

(** X1. The decoder never leaves the synchronized state: once
    [_synchronized] is set it stays set over every further edge. And as
    long as a run ends unsynchronized, nothing was accumulated: the buffer,
    the second counter, the caller's record and the indicator are as they
    were. *)
Theorem synchronized_is_kept (es : list edge) (d d' : DCF77Decoder) :
  run d es = Ok d' ->
  (_synchronized d = true -> _synchronized d' = true)
  /\ (_synchronized d' = false ->
      _dcf77Bits d' = _dcf77Bits d /\ _seconds d' = _seconds d
      /\ _dcf77Time d' = _dcf77Time d /\ indicatorPin d' = indicatorPin d).
Proof.
  revert d. induction es as [|e es IH]; intros d Hrun.
  - inversion Hrun. subst. split; [auto | intros; repeat split].
  - cbn [run] in Hrun. apply bind_Ok in Hrun. destruct Hrun as (d1 & Hstep & Hrun).
    destruct (IH d1 Hrun) as [Hkeep Hacq].
    destruct (step_frame d e d1 Hstep) as (_ & _ & Hkeep1 & _ & Hacq1 & _).
    split; [auto|]. intros Hoff.
    assert (Hoff1 : _synchronized d1 = false).
    { destruct (_synchronized d1) eqn:E; [|reflexivity].
      rewrite (Hkeep eq_refl) in Hoff. discriminate Hoff. }
    destruct (Hacq Hoff) as (-> & -> & -> & ->). apply Hacq1. exact Hoff1.
Qed.

Lemma synchronized_is_kept_witness :
  exists d',
    run inSecond1 (pulses (list_ascii_of_string "0110") 4000) = Ok d'
    /\ (_synchronized inSecond1 = true -> _synchronized d' = true)
    /\ (_synchronized d' = false ->
        _dcf77Bits d' = _dcf77Bits inSecond1 /\ _seconds d' = _seconds inSecond1
        /\ _dcf77Time d' = _dcf77Time inSecond1
        /\ indicatorPin d' = indicatorPin inSecond1).
Proof.
  eexists. split; [vm_compute; reflexivity|].
  apply (synchronized_is_kept (pulses (list_ascii_of_string "0110") 4000) inSecond1).
  vm_compute. reflexivity.
Defined.

(** X2. The seconds of the caller's record follow the second counter: if
    [tm_sec] equals [_seconds] before a run, as at power-up, it does so
    after it, and the counter does not become negative. *)
Theorem tm_sec_follows_seconds (es : list edge) (d d' : DCF77Decoder) :
  run d es = Ok d' ->
  tm_sec (_dcf77Time d) = _seconds d ->
  0 <= _seconds d ->
  tm_sec (_dcf77Time d') = _seconds d' /\ 0 <= _seconds d'.
Proof.
  revert d. induction es as [|e es IH]; intros d Hrun Heq Hpos.
  - inversion Hrun. subst. split; assumption.
  - cbn [run] in Hrun. apply bind_Ok in Hrun. destruct Hrun as (d1 & Hstep & Hrun).
    destruct (step_frame d e d1 Hstep) as (_ & _ & _ & Hsec & _).
    apply (IH d1 Hrun (Hsec Heq)). apply (step_seconds_nonneg d e d1 Hstep Hpos).
Qed.

Lemma tm_sec_follows_seconds_witness :
  exists d',
    run DCF77Decoder_init (minuteOf EXAMPLE) = Ok d'
    /\ tm_sec (_dcf77Time d') = _seconds d' /\ 0 <= _seconds d'.
Proof.
  eexists. split; [vm_compute; reflexivity|].
  apply (tm_sec_follows_seconds (minuteOf EXAMPLE) DCF77Decoder_init).
  - vm_compute. reflexivity.
  - reflexivity.
  - apply Z.leb_le. reflexivity.
Defined.

(** X3. The accumulator stores nothing but the characters ['0'] and ['1']
    and never changes the size of the buffer: after any run every slot
    holds what it held before or a bit. *)
Theorem only_bits_are_stored (es : list edge) (d d' : DCF77Decoder) :
  run d es = Ok d' ->
  length (_dcf77Bits d') = length (_dcf77Bits d)
  /\ forall (i : nat) (c : ascii),
       _dcf77Bits d' !! i = Some c ->
       _dcf77Bits d !! i = Some c \/ isBit c = true.
Proof.
  revert d. induction es as [|e es IH]; intros d Hrun.
  - inversion Hrun. subst. split; [reflexivity | auto].
  - cbn [run] in Hrun. apply bind_Ok in Hrun. destruct Hrun as (d1 & Hstep & Hrun).
    destruct (IH d1 Hrun) as [Hlen Hslots]. rewrite Hlen.
    destruct (step_buffer d e d1 Hstep) as [E | (b & Hb & _ & _ & _ & E)]; rewrite E in *.
    + split; [reflexivity | exact Hslots].
    + split; [apply length_insert|].
      intros i c Hi. destruct (Hslots i c Hi) as [Hold | Hbit]; [|right; exact Hbit].
      destruct (Nat.eq_dec (Z.to_nat (_seconds d)) i) as [<- | Hne].
      * right. apply list_lookup_insert_Some in Hold.
        destruct Hold as [(_ & <- & _) | (Hne & _)]; [exact Hb | congruence].
      * left. rewrite list_lookup_insert_ne in Hold by exact Hne. exact Hold.
Qed.

Lemma only_bits_are_stored_witness :
  exists d',
    run DCF77Decoder_init (minuteOf EXAMPLE) = Ok d'
    /\ length (_dcf77Bits d') = length (_dcf77Bits DCF77Decoder_init)
    /\ forall (i : nat) (c : ascii),
         _dcf77Bits d' !! i = Some c ->
         _dcf77Bits DCF77Decoder_init !! i = Some c \/ isBit c = true.
Proof.
  eexists. split; [vm_compute; reflexivity|].
  apply (only_bits_are_stored (minuteOf EXAMPLE) DCF77Decoder_init).
  vm_compute. reflexivity.
Defined.

(** ** Polling *)

(** X9. [loop] consumes the edge flag: after an edge was handled, polling
    [loop] again without a new interrupt changes nothing, whatever the
    clock reads. *)
Theorem loop_without_edge_is_idle (d : DCF77Decoder) (e : edge) (d' : DCF77Decoder)
    (now : Z) :
  step d e = Ok d' ->
  _newEdge d' = false /\ loop now d' = Ok d'.
Proof.
  intros Hstep.
  destruct (step_frame d e d' Hstep) as (_ & Hn & _).
  split; [exact Hn|].
  rewrite loop_eq, (collectBits_idle now d' Hn). reflexivity.
Qed.

Lemma loop_without_edge_is_idle_witness :
  exists d',
    step inSecond1 (mk_edge LOW 3200) = Ok d'
    /\ _newEdge d' = false /\ loop 3777 d' = Ok d'.
Proof.
  eexists. split; [vm_compute; reflexivity|].
  apply (loop_without_edge_is_idle inSecond1 (mk_edge LOW 3200)).
  vm_compute. reflexivity.
Defined.

(** With [_verbose] off, what an edge prints is decided by
    [minuteFailed] alone. *)
Lemma step_serial_quiet (d : DCF77Decoder) (e : edge) (d' : DCF77Decoder) :
  _verbose d = false ->
  step d e = Ok d' ->
  Serial d' = Serial (if minuteFailed d e then parityFailureReported d else d).
Proof.
  unfold step, minuteFailed. rewrite loop_eq. intros Hq H.
  apply bind_Ok in H. destruct H as ([r dc] & Hc & H). cbn [fst snd] in H.
  rewrite Hc.
  destruct (collectBits_frame _ _ r dc Hc) as (Hv & _ & _ & _ & _ & _ & Hser).
  unfold handleInterrupt in Hv, Hser. fields. specialize (Hser Hq).
  destruct r.
  - destruct (parityOK dc) eqn:Hp; cbn [negb].
    + apply bind_Ok in H. destruct H as (d2 & Hd & H).
      apply decodeBits_frame in Hd. destruct Hd as (x & t & z & -> & _).
      fields. rewrite Hv, Hq in H. inversion H; subst. fields. exact Hser.
    + inversion H; subst. unfold parityFailureReported. fields.
      rewrite Hser. reflexivity.
  - inversion H; subst. exact Hser.
Qed.

(** X10. With [_verbose] off, what an edge prints on [Serial] is fixed:
    when it completes a minute that fails the parity check, exactly the
    three lines of the failure report are printed all the same, and in
    every other case nothing is printed. [_verbose] itself is not changed
    by an edge. *)
Theorem quiet_unless_parity_fails (d : DCF77Decoder) (e : edge) (d' : DCF77Decoder) :
  _verbose d = false ->
  step d e = Ok d' ->
  _verbose d' = false
  /\ Serial d' =
     Serial d ++
     (if minuteFailed d e
      then [(" Parity check failed, continue collecting time info..." ++ CRLF)%string;
            ("012345678901234567890123456789012345678901234567890123456789 " ++ CRLF)%string;
            ("0--Meteo-Data--RazZA|mmmmmmmPhhhhhhPddddddwwwMMMMMyyyyyyyyP_ " ++ CRLF)%string]
      else []).
Proof.
  intros Hq Hstep.
  destruct (step_frame d e d' Hstep) as (Hv & _).
  split; [congruence|].
  rewrite (step_serial_quiet d e d' Hq Hstep).
  destruct (minuteFailed d e).
  - unfold parityFailureReported. fields. rewrite <- !app_assoc. reflexivity.
  - rewrite app_nil_r. reflexivity.
Qed.

Lemma quiet_unless_parity_fails_witness :
  exists d',
    step (setVerbose false afterCorruptedMinute) (mk_edge HIGH 122000) = Ok d'
    /\ minuteFailed (setVerbose false afterCorruptedMinute) (mk_edge HIGH 122000) = true
    /\ _verbose d' = false
    /\ Serial d' =
       Serial (setVerbose false afterCorruptedMinute) ++
       (if minuteFailed (setVerbose false afterCorruptedMinute) (mk_edge HIGH 122000)
        then [(" Parity check failed, continue collecting time info..." ++ CRLF)%string;
              ("012345678901234567890123456789012345678901234567890123456789 " ++ CRLF)%string;
              ("0--Meteo-Data--RazZA|mmmmmmmPhhhhhhPddddddwwwMMMMMyyyyyyyyP_ " ++ CRLF)%string]
        else []).
Proof.
  eexists. split; [vm_compute; reflexivity|].
  split; [vm_compute; reflexivity|].
  apply (quiet_unless_parity_fails (setVerbose false afterCorruptedMinute)
           (mk_edge HIGH 122000));
    vm_compute; reflexivity.
Defined.

(** ** The clock wraps around *)

(** X11. The pause before a rising edge is measured with unsigned
    subtraction, so it is right across a wrap of [millis()]: when the
    previous falling edge was at [_endPulse] and [g] milliseconds below
    [2^15] have passed since, the clock reading [(_endPulse + g) mod 2^32]
    leaves [g] in [_widthPause], and the start of a minute is reported
    exactly when [1765 < g < 1935]. *)
Theorem pause_measured_across_wrap (d : DCF77Decoder) (g : Z) :
  _newEdge d = true ->
  _edgeMode d = EDGE_RISING ->
  0 <= g < 2 ^ 15 ->
  exists r d',
    collectBits (to_uint32 (_endPulse d + g)) d = Ok (r, d')
    /\ _widthPause d' = g
    /\ (r = true <-> 1765 < g < 1935).
Proof.
  intros Hn He Hg.
  rewrite (collectBits_rising _ d Hn He), pulseBegins_eq. cbv zeta. fields.
  assert (Hw : to_int (to_uint32 (to_uint32 (_endPulse d + g) - _endPulse d)) = g).
  { assert (E : (to_uint32 (_endPulse d + g) - _endPulse d) mod 2 ^ 32 = g).
    { unfold to_uint32. rewrite Zminus_mod_idemp_l.
      replace (_endPulse d + g - _endPulse d) with g by lia.
      apply Z.mod_small. lia. }
    rewrite measured_width; rewrite E; [reflexivity | exact Hg]. }
  rewrite Hw.
  change (MIN_SYNCGAP - JITTER) with 1765. change (MAX_SYNCGAP + JITTER) with 1935.
  destruct ((1765 <? g) && (g <? 1935)) eqn:E; zbool;
    eexists; eexists; (split; [reflexivity|]); fields;
    (split; [reflexivity|]); split; intros; try discriminate; try reflexivity; lia.
Qed.

Lemma pause_measured_across_wrap_witness :
  exists r d',
    collectBits (to_uint32 (2 ^ 32 - 100 + 1800))
      (set_endPulse (2 ^ 32 - 100) (handleInterrupt HIGH DCF77Decoder_init))
    = Ok (r, d')
    /\ _widthPause d' = 1800
    /\ (r = true <-> 1765 < 1800 < 1935).
Proof.
  apply (pause_measured_across_wrap
           (set_endPulse (2 ^ 32 - 100) (handleInterrupt HIGH DCF77Decoder_init)) 1800);
    try reflexivity.
  split; [apply Z.leb_le | apply Z.ltb_lt]; reflexivity.
Defined.

(** ** Binary-coded decimals *)

(** A counting loop that starts at [i] is the loop from 0 over the shifted
    index. *)
Lemma for_loop_shift (g : Z -> Z) (n : nat) (i : Z) :
  for_loop n i (fun j sum => sum + g j) 0
  = for_loop n 0 (fun k sum => sum + g (i + k)) 0.
Proof.
  revert g i. induction n as [|n IH]; intros g i; [reflexivity|].
  rewrite (for_loop_sum_step g), (for_loop_sum_step (fun k => g (i + k))).
  rewrite (IH g (i + 1)), (IH (fun k => g (i + k)) (0 + 1)).
  rewrite Z.add_0_r. f_equal.
  apply (for_loop_sum_ext (fun k => g (i + (0 + 1 + k))) (fun k => g (i + 1 + k))).
  intros k _. f_equal. lia.
Qed.

(** [getValueFromBits] computes the BCD value of the bits of the field. *)
Lemma getValueFromBits_bcd (d : DCF77Decoder) (firstBit : Z) (nbrBits : nat) :
  (nbrBits <= 8)%nat ->
  getValueFromBits d firstBit (Z.of_nat nbrBits) = bcd (fieldBits d firstBit nbrBits).
Proof.
  intros Hn. unfold getValueFromBits, for_range.
  replace (firstBit + Z.of_nat nbrBits - firstBit) with (Z.of_nat nbrBits) by lia.
  rewrite Nat2Z.id.
  rewrite (for_loop_shift
             (fun i => (int_of_char (bitsAt d i) - int_of_char "0")
                       * bcdValueAt (i - firstBit))).
  rewrite (for_loop_sum_ext
             (fun k => bitValue d (firstBit + k) * bcdValueAt k)
             (fun k => (int_of_char (bitsAt d (firstBit + k)) - int_of_char "0")
                       * bcdValueAt (firstBit + k - firstBit)))
    by (intros k _; unfold bitValue; f_equal; f_equal; lia).
  unfold fieldBits.
  set (bv := fun k => bitValue d (firstBit + k)).
  change (fun i sum : Z => sum + bitValue d (firstBit + i) * bcdValueAt i)
    with (fun i sum : Z => sum + bv i * bcdValueAt i).
  change (fun k : nat => bitValue d (firstBit + Z.of_nat k))
    with (fun k : nat => bv (Z.of_nat k)).
  clearbody bv.
  do 9 (destruct nbrBits as [|nbrBits];
        [cbn [for_loop map seq Z.of_nat Pos.of_succ_nat Pos.succ];
         change (0 + 1 + 1 + 1 + 1 + 1 + 1 + 1) with 7;
         change (0 + 1 + 1 + 1 + 1 + 1 + 1) with 6;
         change (0 + 1 + 1 + 1 + 1 + 1) with 5;
         change (0 + 1 + 1 + 1 + 1) with 4;
         change (0 + 1 + 1 + 1) with 3;
         change (0 + 1 + 1) with 2;
         change (0 + 1) with 1;
         change (bcdValueAt 0) with 1; change (bcdValueAt 1) with 2;
         change (bcdValueAt 2) with 4; change (bcdValueAt 3) with 8;
         change (bcdValueAt 4) with 10; change (bcdValueAt 5) with 20;
         change (bcdValueAt 6) with 40; change (bcdValueAt 7) with 80;
         change (Z.of_nat 0) with 0; change (Z.of_nat 1) with 1;
         change (Z.of_nat 2) with 2; change (Z.of_nat 3) with 3;
         change (Z.of_nat 4) with 4; change (Z.of_nat 5) with 5;
         change (Z.of_nat 6) with 6; change (Z.of_nat 7) with 7;
         unfold bcd, binary; cbn [take drop firstn skipn fold_right]; lia|]).
  lia.
Qed.

Lemma fieldBits_S (d : DCF77Decoder) (firstBit : Z) (n : nat) :
  fieldBits d firstBit (S n) = bitValue d firstBit :: fieldBits d (firstBit + 1) n.
Proof.
  unfold fieldBits. cbn [seq map]. rewrite Z.add_0_r. f_equal.
  rewrite <- seq_shift, map_map. apply map_ext. intros k. f_equal. lia.
Qed.

Lemma bitValue_bitChar (d : DCF77Decoder) (i : Z) (b : bool) :
  bitsAt d i = bitChar b -> bitValue d i = Z.b2z b.
Proof. unfold bitValue. intros ->. destruct b; reflexivity. Qed.

(** The values of a field whose slots hold the characters of [bs]. *)
Lemma fieldBits_of_chars (d : DCF77Decoder) (bs : list bool) (firstBit : nat) :
  take (length bs) (drop firstBit (_dcf77Bits d)) = map bitChar bs ->
  fieldBits d (Z.of_nat firstBit) (length bs) = map Z.b2z bs.
Proof.
  revert firstBit. induction bs as [|b bs IH]; intros firstBit H; [reflexivity|].
  cbn [length map] in *. rewrite fieldBits_S.
  destruct (drop firstBit (_dcf77Bits d)) as [|c rest] eqn:E; [discriminate H|].
  cbn [take firstn] in H. inversion H as [[Hc Hrest]].
  assert (Hslot : _dcf77Bits d !! firstBit = Some c).
  { rewrite <- (Nat.add_0_r firstBit), <- lookup_drop, E. reflexivity. }
  assert (Hdrop : drop (S firstBit) (_dcf77Bits d) = rest).
  { rewrite <- (Nat.add_1_r firstBit), <- drop_drop, E. reflexivity. }
  f_equal.
  - apply bitValue_bitChar. unfold bitsAt. rewrite Nat2Z.id, Hslot. exact Hc.
  - replace (Z.of_nat firstBit + 1) with (Z.of_nat (S firstBit)) by lia.
    apply IH. rewrite Hdrop. exact Hrest.
Qed.

Lemma length_bcdBools (nbrBits : nat) (v : Z) :
  (nbrBits <= 8)%nat -> length (bcdBools nbrBits v) = nbrBits.
Proof.
  intros H. unfold bcdBools. rewrite length_take. cbn [map app length]. lia.
Qed.

(** Decoding the BCD code of a value gives the value back: checked for
    every width up to 8 bits and every value that fits. *)
Lemma bcd_bcdBools (nbrBits : nat) (v : Z) :
  (nbrBits <= 8)%nat ->
  bcdFits nbrBits v = true ->
  bcd (map Z.b2z (bcdBools nbrBits v)) = v.
Proof.
  intros Hn Hfit.
  assert (Hall :
    forallb (fun n =>
      forallb (fun m =>
        implb (bcdFits n (Z.of_nat m))
              (bcd (map Z.b2z (bcdBools n (Z.of_nat m))) =? Z.of_nat m))
        (seq 0 160))
      (seq 0 9) = true) by (vm_compute; reflexivity).
  rewrite forallb_forall in Hall.
  assert (Hin : In nbrBits (seq 0 9)) by (apply in_seq; lia).
  specialize (Hall nbrBits Hin). rewrite forallb_forall in Hall.
  assert (Hv : 0 <= v < 160).
  { unfold bcdFits in Hfit. zbool.
    assert (Hp : 2 ^ Z.of_nat (nbrBits - 4) <= 2 ^ 4)
      by (apply Z.pow_le_mono_r; lia).
    pose proof (Z.div_mod v 10 ltac:(lia)) as Hdm.
    pose proof (Z.mod_pos_bound v 10 ltac:(lia)) as Hm.
    change (2 ^ 4) with 16 in Hp. lia. }
  assert (Hm : In (Z.to_nat v) (seq 0 160)) by (apply in_seq; lia).
  specialize (Hall (Z.to_nat v) Hm).
  rewrite Z2Nat.id in Hall by lia. rewrite Hfit in Hall.
  apply Z.eqb_eq. exact Hall.
Qed.

(** A field that holds the BCD code of [v] is read as [v]. *)
Lemma getValueFromBits_encoded (d : DCF77Decoder) (firstBit nbrBits : nat) (v : Z) :
  (nbrBits <= 8)%nat ->
  bcdFits nbrBits v = true ->
  take nbrBits (drop firstBit (_dcf77Bits d)) = map bitChar (bcdBools nbrBits v) ->
  getValueFromBits d (Z.of_nat firstBit) (Z.of_nat nbrBits) = v.
Proof.
  intros Hn Hfit Hslots.
  rewrite getValueFromBits_bcd by exact Hn.
  rewrite <- (length_bcdBools nbrBits v Hn) at 1.
  rewrite fieldBits_of_chars
    by (rewrite (length_bcdBools nbrBits v Hn); exact Hslots).
  apply bcd_bcdBools; assumption.
Qed.

(** X5. Round trip of a BCD field: after the BCD code of a value, least
    significant bit first, is written into the slots of a field of up to 8
    bits anywhere in the buffer, [getValueFromBits] reads that value
    back. *)
Theorem bcd_round_trip (d : DCF77Decoder) (firstBit nbrBits : nat) (v : Z) :
  (nbrBits <= 8)%nat ->
  bcdFits nbrBits v = true ->
  (firstBit + nbrBits <= length (_dcf77Bits d))%nat ->
  getValueFromBits
    (set_dcf77Bits
       (take firstBit (_dcf77Bits d)
        ++ map bitChar (bcdBools nbrBits v)
        ++ drop (firstBit + nbrBits) (_dcf77Bits d))
       d)
    (Z.of_nat firstBit) (Z.of_nat nbrBits)
  = v.
Proof.
  intros Hn Hfit Hlen.
  apply getValueFromBits_encoded; [exact Hn | exact Hfit |].
  cbn [_dcf77Bits set_dcf77Bits].
  assert (Hl : length (take firstBit (_dcf77Bits d)) = firstBit)
    by (rewrite length_take; lia).
  rewrite <- Hl at 1. rewrite drop_app_length.
  assert (Hm : length (map bitChar (bcdBools nbrBits v)) = nbrBits)
    by (rewrite length_map; apply length_bcdBools; exact Hn).
  rewrite <- Hm at 1. apply take_app_length.
Qed.

Lemma bcd_round_trip_witness :
  getValueFromBits
    (set_dcf77Bits
       (take 50 (_dcf77Bits DCF77Decoder_init)
        ++ map bitChar (bcdBools 8 99)
        ++ drop (50 + 8) (_dcf77Bits DCF77Decoder_init))
       DCF77Decoder_init)
    (Z.of_nat 50) (Z.of_nat 8)
  = 99.
Proof.
  apply (bcd_round_trip DCF77Decoder_init 50 8 99).
  - apply Nat.leb_le. reflexivity.
  - reflexivity.
  - apply Nat.leb_le. reflexivity.
Defined.

(** ** A telegram that carries a time *)

Lemma rangeSum_fieldBits (d : DCF77Decoder) (first : Z) (n : nat) :
  rangeSum d first (first + Z.of_nat n) = fold_right Z.add 0 (fieldBits d first n).
Proof.
  unfold rangeSum, for_range.
  replace (first + Z.of_nat n - first) with (Z.of_nat n) by lia.
  rewrite Nat2Z.id. revert first.
  induction n as [|n IH]; intros first; [reflexivity|].
  rewrite (for_loop_sum_step (bitValue d)), fieldBits_S. cbn [fold_right].
  rewrite IH. reflexivity.
Qed.

(** The parity bit is the oddness of the number of ones. *)
Lemma odd_sum_parityBit (bs : list bool) :
  Z.odd (fold_right Z.add 0 (map Z.b2z bs)) = parityBit bs.
Proof.
  induction bs as [|b bs IH]; [reflexivity|].
  cbn [map fold_right parityBit]. rewrite Z.odd_add. fold (parityBit bs).
  rewrite IH. destruct b; reflexivity.
Qed.

Lemma even_with_parityBit (bs : list bool) :
  Z.even (fold_right Z.add 0 (map Z.b2z (bs ++ [parityBit bs]))) = true.
Proof.
  rewrite map_app, fold_right_app. cbn [map fold_right].
  rewrite <- Z.negb_odd.
  assert (E : forall (l : list Z) (a : Z),
             fold_right Z.add a l = fold_right Z.add 0 l + a).
  { induction l as [|x l IH]; intros a; cbn [fold_right]; [lia|].
    rewrite IH. lia. }
  rewrite E, Z.odd_add, odd_sum_parityBit, Z.add_0_r.
  destruct (parityBit bs); reflexivity.
Qed.

(** A group of slots closed by its parity bit has an even sum. *)
Lemma group_parity (d : DCF77Decoder) (first : nat) (bs : list bool) :
  take (S (length bs)) (drop first (_dcf77Bits d)) = map bitChar (bs ++ [parityBit bs]) ->
  Z.even (rangeSum d (Z.of_nat first) (Z.of_nat first + Z.of_nat (S (length bs)))) = true.
Proof.
  intros H. rewrite rangeSum_fieldBits.
  replace (S (length bs)) with (length (bs ++ [parityBit bs])) in *
    by (rewrite length_app; cbn [length]; lia).
  rewrite fieldBits_of_chars by exact H.
  apply even_with_parityBit.
Qed.

(** A part of the time bits, as a part of the buffer. *)
Lemma telegram_slice (d : DCF77Decoder) (tb : list bool) (first n : nat) :
  take 42 (drop 17 (_dcf77Bits d)) = map bitChar tb ->
  (first + n <= 42)%nat ->
  take n (drop (17 + first) (_dcf77Bits d)) = map bitChar (take n (drop first tb)).
Proof.
  intros H Hle.
  rewrite <- firstn_map, <- skipn_map, <- H.
  rewrite skipn_firstn_comm, take_take, drop_drop.
  f_equal. lia.
Qed.

(** The parity of the three groups of an encoded time. *)
Lemma timeBits_parity (d : DCF77Decoder) (dst : bool)
    (minute hour day wday month year : Z) :
  take 42 (drop 17 (_dcf77Bits d))
  = map bitChar (timeBits dst minute hour day wday month year) ->
  parityPerField d = true.
Proof.
  intros Htg.
  pose proof (fun first n => telegram_slice d _ first n Htg) as Hslice.
  unfold parityPerField. rewrite !andb_true_iff. repeat split.
  - apply (group_parity d 21 (bcdBools 7 minute)).
    apply (Hslice 4%nat 8%nat). lia.
  - apply (group_parity d 29 (bcdBools 6 hour)).
    apply (Hslice 12%nat 7%nat). lia.
  - apply (group_parity d 36
             (bcdBools 6 day ++ bcdBools 3 wday ++ bcdBools 5 month ++ bcdBools 8 year)).
    apply (Hslice 19%nat 23%nat). lia.
Qed.

(** What [getValueFromBits] reads in the fields of an encoded time. *)
Lemma timeBits_fields (d : DCF77Decoder) (dst : bool)
    (minute hour day wday month year : Z) :
  encodable minute hour day wday month year = true ->
  take 42 (drop 17 (_dcf77Bits d))
  = map bitChar (timeBits dst minute hour day wday month year) ->
  getValueFromBits d 17 2 = (if dst then 1 else 2)
  /\ getValueFromBits d 21 7 = minute
  /\ getValueFromBits d 29 6 = hour
  /\ getValueFromBits d 36 6 = day
  /\ getValueFromBits d 42 3 = wday
  /\ getValueFromBits d 45 5 = month
  /\ getValueFromBits d 50 8 = year
  /\ 0 <= wday < 8.
Proof.
  intros Hfit Htg. unfold encodable in Hfit.
  rewrite !andb_true_iff in Hfit.
  destruct Hfit as (((((Hf1 & Hf2) & Hf3) & Hf4) & Hf5) & Hf6).
  pose proof (fun first n => telegram_slice d _ first n Htg) as Hslice.
  split.
  { change 17 with (Z.of_nat 17). change 2 with (Z.of_nat 2) at 1.
    rewrite getValueFromBits_bcd by lia.
    change 2%nat with (length [dst; negb dst]).
    rewrite fieldBits_of_chars by (apply (Hslice 0%nat 2%nat); lia).
    destruct dst; reflexivity. }
  split; [apply (getValueFromBits_encoded d 21 7); [lia | assumption |];
          apply (Hslice 4%nat 7%nat); lia|].
  split; [apply (getValueFromBits_encoded d 29 6); [lia | assumption |];
          apply (Hslice 12%nat 6%nat); lia|].
  split; [apply (getValueFromBits_encoded d 36 6); [lia | assumption |];
          apply (Hslice 19%nat 6%nat); lia|].
  split; [apply (getValueFromBits_encoded d 42 3); [lia | assumption |];
          apply (Hslice 25%nat 3%nat); lia|].
  split; [apply (getValueFromBits_encoded d 45 5); [lia | assumption |];
          apply (Hslice 28%nat 5%nat); lia|].
  split; [apply (getValueFromBits_encoded d 50 8); [lia | assumption |];
          apply (Hslice 33%nat 8%nat); lia|].
  unfold bcdFits in Hf4. zbool.
  change (2 ^ Z.of_nat (Nat.min 3 4)) with 8 in *.
  change (2 ^ Z.of_nat (3 - 4)) with 1 in *.
  pose proof (Z.div_mod wday 10 ltac:(lia)). lia.
Qed.

(** X12. Round trip of a telegram: when slots 17 to 58 of the buffer hold
    the DCF77 encoding of a time (zone bits 1,0 for MESZ and 0,1 for MEZ,
    BCD fields, each group closed by its even parity bit), every group
    passes its own parity check, [parityOK] accepts the buffer and
    [decodeBits] leaves exactly that time in the caller's record: minute,
    hour and day as sent, the month minus 1, the year plus 100, the weekday
    as sent, [tm_isdst] 1 for MESZ and 0 for MEZ. *)
Theorem encoded_time_is_decoded (d : DCF77Decoder) (dst : bool)
    (minute hour day wday month year : Z) :
  encodable minute hour day wday month year = true ->
  take 42 (drop 17 (_dcf77Bits d))
  = map bitChar (timeBits dst minute hour day wday month year) ->
  parityPerField d = true
  /\ parityOK d = true
  /\ exists d', decodeBits d = Ok d'
       /\ _dcf77Time d'
          = mk_tm 0 minute hour day (month - 1) (year + 100) wday
              (tm_yday (_dcf77Time d)) (if dst then 1 else 0)
       /\ timeZoneAt (_z12 d') = (if dst then "MESZ" else "MEZ")%string.
Proof.
  intros Hfit Htg.
  pose proof (timeBits_parity d dst minute hour day wday month year Htg) as Hparity.
  destruct (timeBits_fields d dst minute hour day wday month year Hfit Htg)
    as (Hzone & Hmin & Hhour & Hday & Hwday & Hmon & Hyear & Hw).
  split; [exact Hparity|].
  split; [apply parityPerField_parityOK; exact Hparity|].
  rewrite decodeBits_eq. cbv zeta. cbn [tm_wday].
  rewrite Hmin, Hhour, Hday, Hwday, Hmon, Hyear, Hzone.
  rewrite weekDayAt_in_range by exact Hw. cbn [bind].
  eexists. split; [reflexivity|]. fields.
  destruct dst; split; reflexivity.
Qed.

Lemma encoded_time_is_decoded_witness :
  parityPerField (holding EXAMPLE) = true
  /\ parityOK (holding EXAMPLE) = true
  /\ exists d', decodeBits (holding EXAMPLE) = Ok d'
       /\ _dcf77Time d' = mk_tm 0 39 9 5 (3 - 1) (16 + 100) 6 0 0
       /\ timeZoneAt (_z12 d') = "MEZ"%string.
Proof.
  apply (encoded_time_is_decoded (holding EXAMPLE) false 39 9 5 6 3 16);
    reflexivity.
Defined.

(** ** A clean signal *)

Lemma run_app (es1 es2 : list edge) (d : DCF77Decoder) :
  run d (es1 ++ es2) = let? d1 := run d es1 in run d1 es2.
Proof.
  revert d. induction es1 as [|e es1 IH]; intros d; [reflexivity|].
  cbn [app run]. destruct (step d e) as [d1|u]; cbn [bind]; [apply IH | reflexivity].
Qed.

Lemma pulses_cons (b : ascii) (bs : list ascii) (t : Z) :
  pulses (b :: bs) t
  = mk_edge HIGH t :: mk_edge LOW (t + pulseWidth b) :: pulses bs (t + 1000).
Proof. reflexivity. Qed.

Lemma pulseWidth_cases (b : ascii) : pulseWidth b = 100 \/ pulseWidth b = 200.
Proof. unfold pulseWidth. destruct (Ascii.eqb b "1"); [right | left]; reflexivity. Qed.

(** The pulse sent for a bit is taken for that bit. *)
Lemma classify_pulseWidth (b : ascii) (t : Z) :
  isBit b = true ->
  classify (to_int (to_uint32 (t + pulseWidth b - t))) = Some b.
Proof.
  intros H. replace (t + pulseWidth b - t) with (pulseWidth b) by lia.
  apply isBit_cases in H. destruct H as [-> | ->]; reflexivity.
Qed.

(** The falling edge of the pulse of a bit, while synchronized. *)
Lemma step_bit (d : DCF77Decoder) (t : Z) (b : ascii) :
  _synchronized d = true ->
  _startPulse d = t ->
  0 <= _seconds d < DCF77BITS_SIZE ->
  tm_sec (_dcf77Time d) = _seconds d ->
  isBit b = true ->
  exists d1, step d (mk_edge LOW (t + pulseWidth b)) = Ok d1
    /\ _dcf77Bits d1 = <[Z.to_nat (_seconds d) := b]> (_dcf77Bits d)
    /\ _seconds d1 = _seconds d + 1
    /\ tm_sec (_dcf77Time d1) = _seconds d1
    /\ _synchronized d1 = true
    /\ _endPulse d1 = t + pulseWidth b
    /\ decoded d1 = decoded d
    /\ _verbose d1 = _verbose d.
Proof.
  intros Hs Ht Hsec Htm Hb.
  pose proof (collectBits_falling_synchronized (t + pulseWidth b)
                (handleInterrupt LOW d) eq_refl eq_refl Hs) as Hc.
  cbv zeta in Hc. unfold handleInterrupt in Hc. fields.
  rewrite Ht, (classify_pulseWidth b t Hb) in Hc.
  assert (Hmax : _seconds d < INT_MAX)
    by (change DCF77BITS_SIZE with 62 in Hsec; change INT_MAX with 32767; lia).
  specialize (Hc (or_intror Hsec) Hmax ltac:(lia)).
  eexists. split.
  - unfold step. rewrite loop_eq. cbn [edge_level edge_millis].
    unfold handleInterrupt. rewrite Hc. reflexivity.
  - cbn [snd]. destruct (_verbose d) eqn:Hv; fields; repeat split; auto; lia.
Qed.

(** The rising edge of the next second, 1000 ms after the last one: the
    pause is no sync gap and nothing but the time stamps changes. *)
Lemma step_next_second (d : DCF77Decoder) (t : Z) (b : ascii) :
  _endPulse d = t + pulseWidth b ->
  exists d2, step d (mk_edge HIGH (t + 1000)) = Ok d2
    /\ _startPulse d2 = t + 1000
    /\ _dcf77Bits d2 = _dcf77Bits d
    /\ _seconds d2 = _seconds d
    /\ _dcf77Time d2 = _dcf77Time d
    /\ _synchronized d2 = _synchronized d
    /\ _endPulse d2 = _endPulse d
    /\ decoded d2 = decoded d
    /\ _verbose d2 = _verbose d.
Proof.
  intros He.
  assert (Hc : collectBits (t + 1000) (handleInterrupt HIGH d)
               = Ok (false,
                     set_widthPause (1000 - pulseWidth b)
                       (set_startPulse (t + 1000)
                          (set_newEdge false (handleInterrupt HIGH d))))).
  { rewrite collectBits_rising by reflexivity. rewrite pulseBegins_eq. cbv zeta.
    unfold handleInterrupt. fields. rewrite He.
    replace (t + 1000 - (t + pulseWidth b)) with (1000 - pulseWidth b) by lia.
    destruct (pulseWidth_cases b) as [-> | ->]; reflexivity. }
  eexists. split.
  - unfold step. rewrite loop_eq. cbn [edge_level edge_millis].
    rewrite Hc. reflexivity.
  - cbn [snd]. unfold handleInterrupt. fields. repeat split.
Qed.

Lemma take_S_insert {A : Type} (l : list A) (i : nat) (x : A) :
  (i < length l)%nat -> take (S i) (<[i := x]> l) = take i l ++ [x].
Proof.
  intros H.
  rewrite (take_S_r (<[i := x]> l) i x) by (apply list_lookup_insert_eq; exact H).
  rewrite take_insert_ge by lia. reflexivity.
Qed.

(** The pulses of the bits [b :: bs], one per second, fed to a synchronized
    decoder right after the rising edge of the first of them: the bits go
    to the slots from [_seconds] on, in order. *)
Lemma run_clean_pulses (bs : list ascii) :
  forall (b : ascii) (t : Z) (d : DCF77Decoder),
    forallb isBit (b :: bs) = true ->
    _synchronized d = true ->
    _startPulse d = t ->
    0 <= _seconds d ->
    _seconds d + 1 + Z.of_nat (length bs) <= DCF77BITS_SIZE ->
    tm_sec (_dcf77Time d) = _seconds d ->
    length (_dcf77Bits d) = 62%nat ->
    exists d',
      run d (mk_edge LOW (t + pulseWidth b) :: pulses bs (t + 1000)) = Ok d'
      /\ take (Z.to_nat (_seconds d) + 1 + length bs) (_dcf77Bits d')
         = take (Z.to_nat (_seconds d)) (_dcf77Bits d) ++ b :: bs
      /\ drop (Z.to_nat (_seconds d) + 1 + length bs) (_dcf77Bits d')
         = drop (Z.to_nat (_seconds d) + 1 + length bs) (_dcf77Bits d)
      /\ length (_dcf77Bits d') = 62%nat
      /\ _seconds d' = _seconds d + 1 + Z.of_nat (length bs)
      /\ tm_sec (_dcf77Time d') = _seconds d'
      /\ _synchronized d' = true
      /\ (exists c, _endPulse d' = t + 1000 * Z.of_nat (length bs) + pulseWidth c)
      /\ decoded d' = decoded d
      /\ _verbose d' = _verbose d.
Proof.
  change DCF77BITS_SIZE with 62.
  induction bs as [|b2 bs IH]; intros b t d Hbits Hs Ht Hpos Hroom Htm Hlen;
    cbn [forallb] in Hbits; apply andb_true_iff in Hbits; destruct Hbits as [Hb Hbits];
    cbn [length] in *;
    destruct (step_bit d t b Hs Ht ltac:(change DCF77BITS_SIZE with 62; lia) Htm Hb)
      as (d1 & Hstep & Hbuf & Hsec1 & Htm1 & Hs1 & Hend1 & Hdec1 & Hv1).
  - exists d1. cbn [run pulses]. rewrite Hstep. cbn [bind].
    split; [reflexivity|]. rewrite Hbuf, Nat.add_0_r, Nat.add_1_r.
    repeat split; auto.
    + apply take_S_insert. lia.
    + apply drop_insert_lt. lia.
    + rewrite length_insert. exact Hlen.
    + lia.
    + exists b. lia.
  - destruct (step_next_second d1 t b Hend1)
      as (d2 & Hstep2 & Hstart2 & Hbuf2 & Hsec2 & Htm2 & Hs2 & Hend2 & Hdec2 & Hv2).
    destruct (IH b2 (t + 1000) d2 Hbits) as
      (d' & Hrun & Htake & Hdrop & Hlen' & Hsec' & Htm' & Hs' & (c & Hend') & Hdec' & Hv');
      try congruence; try lia.
    { rewrite Hbuf2, Hbuf, length_insert. exact Hlen. }
    exists d'. rewrite pulses_cons. cbn [run]. rewrite Hstep. cbn [bind].
    rewrite Hstep2. cbn [bind].
    split; [exact Hrun|].
    rewrite Hsec2, Hsec1 in *. rewrite Hbuf2, Hbuf in *.
    replace (Z.to_nat (_seconds d + 1)) with (S (Z.to_nat (_seconds d))) in * by lia.
    replace (Z.to_nat (_seconds d) + 1 + S (length bs))%nat
      with (S (Z.to_nat (_seconds d)) + 1 + length bs)%nat by lia.
    repeat split; auto.
    + rewrite Htake, take_S_insert by lia. rewrite <- app_assoc. reflexivity.
    + rewrite Hdrop. apply drop_insert_lt. lia.
    + lia.
    + exists c. lia.
    + congruence.
    + congruence.
Qed.

Lemma run_to_atSecond0 :
  run DCF77Decoder_init [mk_edge LOW 100; mk_edge HIGH 2000] = Ok atSecond0.
Proof. vm_compute. reflexivity. Qed.

(** The first minute after power-up, received cleanly. *)
Lemma power_up_minute (b : ascii) (bs : list ascii) :
  forallb isBit (b :: bs) = true ->
  (length (b :: bs) <= 62)%nat ->
  exists d',
    run DCF77Decoder_init (mk_edge LOW 100 :: pulses (b :: bs) 2000) = Ok d'
    /\ take (length (b :: bs)) (_dcf77Bits d') = b :: bs
    /\ drop (length (b :: bs)) (_dcf77Bits d')
       = drop (length (b :: bs)) (_dcf77Bits DCF77Decoder_init)
    /\ _seconds d' = Z.of_nat (length (b :: bs))
    /\ tm_sec (_dcf77Time d') = _seconds d'
    /\ _synchronized d' = true
    /\ (exists c, _endPulse d' = 2000 + 1000 * Z.of_nat (length bs) + pulseWidth c)
    /\ decoded d' = decoded DCF77Decoder_init
    /\ _verbose d' = true.
Proof.
  intros Hbits Hlen. cbn [length] in *.
  assert (Hpos : 0 <= _seconds atSecond0) by (apply Z.leb_le; reflexivity).
  assert (Hroom : _seconds atSecond0 + 1 + Z.of_nat (length bs) <= DCF77BITS_SIZE)
    by (change (_seconds atSecond0) with 0; change DCF77BITS_SIZE with 62; lia).
  destruct (run_clean_pulses bs b 2000 atSecond0 Hbits
              eq_refl eq_refl Hpos Hroom eq_refl eq_refl)
    as (d' & Hrun & Htake & Hdrop & _ & Hsec & Htm & Hs & Hend & Hdec & Hv).
  exists d'. rewrite pulses_cons.
  change (mk_edge LOW 100 :: mk_edge HIGH 2000
          :: mk_edge LOW (2000 + pulseWidth b) :: pulses bs (2000 + 1000))
    with ([mk_edge LOW 100; mk_edge HIGH 2000]
          ++ mk_edge LOW (2000 + pulseWidth b) :: pulses bs (2000 + 1000)).
  rewrite run_app, run_to_atSecond0. cbn [bind].
  split; [exact Hrun|].
  change (Z.to_nat (_seconds atSecond0)) with 0%nat in *.
  change (_seconds atSecond0) with 0 in *.
  change (0 + 1 + length bs)%nat with (S (length bs)) in *.
  repeat split; auto.
  - rewrite Hsec. lia.
Qed.

(** X4. A clean signal fills the buffer in order. From power-up, after the
    first sync gap, the pulses of up to 59 bits (100 ms for a 0, 200 ms for
    a 1, one per second) leave exactly these bits in slots 0, 1, 2, ... of
    the buffer, the slots behind them as they were, and the second counter
    at their number; [isReady] answers true exactly when all 59 bits of a
    telegram have been received. *)
Theorem clean_pulses_fill_the_buffer (bits : string) :
  forallb isBit (list_ascii_of_string bits) = true ->
  (1 <= String.length bits <= 59)%nat ->
  exists d',
    run DCF77Decoder_init (minuteOf bits) = Ok d'
    /\ take (String.length bits) (_dcf77Bits d') = list_ascii_of_string bits
    /\ drop (String.length bits) (_dcf77Bits d')
       = drop (String.length bits) (_dcf77Bits DCF77Decoder_init)
    /\ _seconds d' = Z.of_nat (String.length bits)
    /\ _synchronized d' = true
    /\ isReady d' = (String.length bits =? 59)%nat.
Proof.
  intros Hbits Hlen. unfold minuteOf.
  assert (Hl : String.length bits = length (list_ascii_of_string bits)).
  { clear. induction bits as [|c s IH]; [reflexivity|]. cbn. rewrite IH. reflexivity. }
  rewrite Hl in *.
  destruct (list_ascii_of_string bits) as [|b bs] eqn:E; [cbn in Hlen; lia|].
  destruct (power_up_minute b bs Hbits ltac:(lia))
    as (d' & Hrun & Htake & Hdrop & Hsec & _ & Hs & _ & _ & _).
  exists d'. repeat split; auto.
  destruct (length (b :: bs) =? 59)%nat eqn:E59.
  - apply Nat.eqb_eq in E59. rewrite E59 in Htake.
    apply isReady_spec. unfold bitsAt.
    rewrite <- (lookup_take_lt (_dcf77Bits d') 59) by (change (Z.to_nat 58) with 58%nat; lia).
    rewrite Htake.
    destruct ((b :: bs) !! Z.to_nat 58) as [c|] eqn:Ec.
    + apply isBit_not_P.
      rewrite forallb_forall in Hbits. apply Hbits.
      apply list_elem_of_In. apply (list_elem_of_lookup_2 _ _ _ Ec).
    + apply lookup_ge_None in Ec. change (Z.to_nat 58) with 58%nat in Ec. lia.
  - apply Nat.eqb_neq in E59.
    apply not_true_is_false. rewrite isReady_spec. intros Hne. apply Hne.
    unfold bitsAt. change (Z.to_nat 58) with 58%nat.
    replace 58%nat with (length (b :: bs) + (58 - length (b :: bs)))%nat by lia.
    rewrite <- lookup_drop, Hdrop, lookup_drop.
    replace (length (b :: bs) + (58 - length (b :: bs)))%nat with 58%nat by lia.
    reflexivity.
Qed.

Lemma clean_pulses_fill_the_buffer_witness :
  exists d',
    run DCF77Decoder_init (minuteOf EXAMPLE) = Ok d'
    /\ take (String.length EXAMPLE) (_dcf77Bits d') = list_ascii_of_string EXAMPLE
    /\ drop (String.length EXAMPLE) (_dcf77Bits d')
       = drop (String.length EXAMPLE) (_dcf77Bits DCF77Decoder_init)
    /\ _seconds d' = Z.of_nat (String.length EXAMPLE)
    /\ _synchronized d' = true
    /\ isReady d' = (String.length EXAMPLE =? 59)%nat.
Proof.
  apply (clean_pulses_fill_the_buffer EXAMPLE).
  - reflexivity.
  - split; apply Nat.leb_le; reflexivity.
Defined.

(** ** Telegram overrun *)

Lemma pulses_app (l1 l2 : list ascii) (t : Z) :
  pulses (l1 ++ l2) t
  = pulses l1 t ++ pulses l2 (t + 1000 * Z.of_nat (length l1)).
Proof.
  revert t. induction l1 as [|b l1 IH]; intros t.
  - cbn [app pulses length Z.of_nat]. f_equal. lia.
  - cbn [app pulses length]. rewrite IH. cbn [app].
    replace (t + 1000 * Z.of_nat (S (length l1)))
      with (t + 1000 + 1000 * Z.of_nat (length l1)) by lia.
    reflexivity.
Qed.

(** The falling edge of the pulse of a bit, while synchronized, with the
    second counter outside the array. *)
Lemma step_overrun (d : DCF77Decoder) (t : Z) (b : ascii) :
  _synchronized d = true ->
  _startPulse d = t ->
  ~ 0 <= _seconds d < DCF77BITS_SIZE ->
  isBit b = true ->
  step d (mk_edge LOW (t + pulseWidth b))
  = Undefined (IndexOutOfRange "_dcf77Bits" (_seconds d)).
Proof.
  intros Hs Ht Hout Hb.
  unfold step. rewrite loop_eq. cbn [edge_level edge_millis].
  rewrite (collectBits_falling _ (handleInterrupt LOW d) eq_refl eq_refl).
  rewrite pulseEnds_synchronized by exact Hs. cbv zeta.
  unfold handleInterrupt. fields.
  rewrite Ht, (classify_pulseWidth b t Hb).
  unfold store_dcf77Bits. fields.
  destruct ((0 <=? _seconds d) && (_seconds d <? DCF77BITS_SIZE)) eqn:Ei.
  - exfalso. apply Hout. zbool. lia.
  - reflexivity.
Qed.

(** C3. The code has no overrun guard: the bit of every clean pulse is
    stored in the slot the second counter names. For a pulse train of 60
    or more bits without a sync gap after power-up (a leap second, or a
    gap bridged by a noise pulse) the bits from the 60th on are written at
    the indices 59, 60 and 61, and the decoder stays synchronized instead
    of awaiting a resync; with the 63rd pulse the store is at index 62,
    outside of [char _dcf77Bits[62]]. *)
Theorem overrun_bits_are_stored (bits : string) :
  forallb isBit (list_ascii_of_string bits) = true ->
  (60 <= String.length bits)%nat ->
  if (String.length bits <=? 62)%nat
  then exists d',
         run DCF77Decoder_init (minuteOf bits) = Ok d'
         /\ take (String.length bits) (_dcf77Bits d') = list_ascii_of_string bits
         /\ _seconds d' = Z.of_nat (String.length bits)
         /\ _synchronized d' = true
  else run DCF77Decoder_init (minuteOf bits)
       = Undefined (IndexOutOfRange "_dcf77Bits" 62).
Proof.
  intros Hbits Hlen. unfold minuteOf.
  assert (Hl : String.length bits = length (list_ascii_of_string bits)).
  { clear. induction bits as [|c s IH]; [reflexivity|]. cbn. rewrite IH. reflexivity. }
  rewrite Hl in *. set (l := list_ascii_of_string bits) in *. clearbody l.
  destruct (length l <=? 62)%nat eqn:E62.
  - apply Nat.leb_le in E62.
    destruct l as [|b bs]; [cbn in Hlen; lia|].
    destruct (power_up_minute b bs Hbits E62)
      as (d' & Hrun & Htake & _ & Hsec & _ & Hs & _).
    exists d'. repeat split; assumption.
  - apply Nat.leb_gt in E62.
    rewrite <- (take_drop 62 l) in Hbits |- *.
    rewrite forallb_app in Hbits. apply andb_true_iff in Hbits.
    destruct Hbits as [Hhead Htail].
    assert (Lhead : length (take 62 l) = 62%nat) by (rewrite length_take; lia).
    destruct (take 62 l) as [|b bs] eqn:Ehead; [discriminate Lhead|].
    destruct (drop 62 l) as [|b' rest] eqn:Etail.
    { apply (f_equal length) in Etail. rewrite length_drop in Etail.
      cbn [length] in Etail. lia. }
    cbn [forallb] in Htail. apply andb_true_iff in Htail. destruct Htail as [Hb' _].
    destruct (power_up_minute b bs Hhead ltac:(lia))
      as (d1 & Hrun & _ & _ & Hsec & _ & Hs & (c & Hend) & _).
    rewrite pulses_app, app_comm_cons, run_app, Hrun. cbn [bind].
    rewrite Lhead, pulses_cons.
    cbn [length] in Lhead, Hsec, Hend.
    assert (Lbs : length bs = 61%nat) by lia.
    rewrite Lbs in Hend, Hsec.
    destruct (step_next_second d1 63000 c ltac:(rewrite Hend; reflexivity))
      as (d2 & Hstep2 & Hstart2 & _ & Hsec2 & _ & Hs2 & _).
    change (2000 + 1000 * Z.of_nat 62) with (63000 + 1000).
    cbn [run]. rewrite Hstep2. cbn [bind].
    rewrite (step_overrun d2 (63000 + 1000) b').
    + cbn [bind]. rewrite Hsec2, Hsec. reflexivity.
    + congruence.
    + exact Hstart2.
    + rewrite Hsec2, Hsec. change DCF77BITS_SIZE with 62.
      change (Z.of_nat 62) with 62. lia.
    + exact Hb'.
Qed.

Lemma overrun_bits_are_stored_witness :
  exists d',
    run DCF77Decoder_init (minuteOf LEAP_SECOND_MINUTE) = Ok d'
    /\ take (String.length LEAP_SECOND_MINUTE) (_dcf77Bits d')
       = list_ascii_of_string LEAP_SECOND_MINUTE
    /\ _seconds d' = Z.of_nat (String.length LEAP_SECOND_MINUTE)
    /\ _synchronized d' = true.
Proof.
  apply (overrun_bits_are_stored LEAP_SECOND_MINUTE).
  - reflexivity.
  - apply Nat.leb_le. reflexivity.
Defined.

Lemma forallb_isBit_bitChar (tg : list bool) :
  forallb isBit (map bitChar tg) = true.
Proof.
  induction tg as [|b tg IH]; [reflexivity|].
  cbn [map forallb]. rewrite IH. destruct b; reflexivity.
Qed.

Lemma length_encodeTelegram (other : list bool) (dst : bool)
    (minute hour day wday month year : Z) :
  length (encodeTelegram other dst minute hour day wday month year) = 59%nat.
Proof.
  unfold encodeTelegram. rewrite length_app, length_take, length_app, repeat_length.
  change (length (timeBits dst minute hour day wday month year)) with 42%nat. lia.
Qed.

(** The time bits of a buffer that holds an encoded telegram. *)
Lemma timeBits_of_telegram (d : DCF77Decoder) (other : list bool) (dst : bool)
    (minute hour day wday month year : Z) :
  take 59 (_dcf77Bits d)
  = map bitChar (encodeTelegram other dst minute hour day wday month year) ->
  take 42 (drop 17 (_dcf77Bits d))
  = map bitChar (timeBits dst minute hour day wday month year).
Proof.
  intros H.
  change 42%nat with (59 - 17)%nat. rewrite <- skipn_firstn_comm, H.
  unfold encodeTelegram. rewrite map_app.
  apply drop_app_length'.
  rewrite length_map, length_take, length_app, repeat_length. lia.
Qed.

(** A buffer whose first 59 slots hold bits is ready. *)
Lemma isReady_of_bits (d : DCF77Decoder) (cs : list ascii) :
  take 59 (_dcf77Bits d) = cs ->
  length cs = 59%nat ->
  forallb isBit cs = true ->
  isReady d = true.
Proof.
  intros Htake Hlen Hbits. apply isReady_spec. unfold bitsAt.
  change (Z.to_nat 58) with 58%nat.
  rewrite <- (lookup_take_lt (_dcf77Bits d) 59) by lia. rewrite Htake.
  destruct (cs !! 58%nat) as [c|] eqn:Ec.
  - apply isBit_not_P. rewrite forallb_forall in Hbits. apply Hbits.
    apply list_elem_of_In. apply (list_elem_of_lookup_2 _ _ _ Ec).
  - apply lookup_ge_None in Ec. lia.
Qed.

(** X13. From the antenna to the caller's record. After power-up and the
    first sync gap, the 59 clean pulses of the DCF77 encoding of a time,
    followed by the first rising edge of the next minute, leave that time
    in the caller's record (month minus 1, year plus 100, seconds 0), the
    second counter at 0 and [isReady] true, and the decoded time is the
    last line printed. *)
Theorem clean_minute_is_decoded (other : list bool) (dst : bool)
    (minute hour day wday month year : Z) :
  encodable minute hour day wday month year = true ->
  exists d',
    run DCF77Decoder_init
      (minuteOf (string_of_list_ascii
                   (map bitChar
                      (encodeTelegram other dst minute hour day wday month year)))
       ++ [nextMinute])
    = Ok d'
    /\ _dcf77Time d'
       = mk_tm 0 minute hour day (month - 1) (year + 100) wday 0 (if dst then 1 else 0)
    /\ _seconds d' = 0
    /\ isReady d' = true
    /\ List.last (Serial d') EmptyString = (_dcf77TimeString d' ++ CRLF)%string.
Proof.
  intros Hfit. unfold minuteOf. rewrite list_ascii_of_string_of_list_ascii.
  pose proof (length_encodeTelegram other dst minute hour day wday month year) as Hlen.
  pose proof (forallb_isBit_bitChar
                (encodeTelegram other dst minute hour day wday month year)) as Hbits.
  rewrite <- (length_map bitChar) in Hlen.
  remember (map bitChar (encodeTelegram other dst minute hour day wday month year))
    as cs eqn:Ecs.
  destruct cs as [|b bs]; [discriminate Hlen|].
  destruct (power_up_minute b bs Hbits ltac:(lia))
    as (d1 & Hrun & Htake & _ & _ & _ & _ & (c & Hend) & Hdec & Hv).
  rewrite Hlen in Htake.
  assert (Hbs : Z.of_nat (length bs) = 58) by (cbn [length] in Hlen; lia).
  rewrite Hbs in Hend.
  change (mk_edge LOW 100 :: pulses (b :: bs) 2000)
    with ([mk_edge LOW 100] ++ pulses (b :: bs) 2000).
  rewrite <- app_assoc. cbn [app]. rewrite app_comm_cons.
  rewrite run_app, Hrun. cbn [bind run].
  (* the rising edge of the next minute *)
  assert (Hc : exists dc,
             collectBits 62000 (handleInterrupt HIGH d1) = Ok (true, dc)
             /\ _dcf77Bits dc = _dcf77Bits d1
             /\ _verbose dc = true
             /\ _seconds dc = 0
             /\ tm_yday (_dcf77Time dc) = 0
             /\ Serial dc = Serial d1).
  { rewrite collectBits_rising by reflexivity. rewrite pulseBegins_eq. cbv zeta.
    unfold handleInterrupt. fields. rewrite Hend.
    assert (Hy : tm_yday (_dcf77Time d1) = 0).
    { apply (f_equal (fun p => nth 6 (fst p) 0)) in Hdec. exact Hdec. }
    destruct (pulseWidth_cases c) as [-> | ->];
      (eexists; split; [reflexivity|]); fields; repeat split; auto. }
  destruct Hc as (dc & Hc & Hbuf & Hvc & Hsec & Hy & Hser).
  assert (Htg : take 42 (drop 17 (_dcf77Bits dc))
                = map bitChar (timeBits dst minute hour day wday month year))
    by (apply (timeBits_of_telegram dc other); rewrite Hbuf, Htake; exact Ecs).
  destruct (timeBits_fields dc dst minute hour day wday month year Hfit Htg)
    as (Hzone & Hmin & Hhour & Hday & Hwday & Hmon & Hyear & Hw).
  unfold step, nextMinute. rewrite loop_eq. cbn [edge_level edge_millis].
  rewrite Hc. cbn [bind fst snd].
  rewrite (parityPerField_parityOK dc (timeBits_parity dc _ _ _ _ _ _ _ Htg)).
  rewrite decodeBits_eq. cbv zeta. cbn [tm_wday].
  rewrite Hmin, Hhour, Hday, Hwday, Hmon, Hyear, Hzone, Hy.
  rewrite weekDayAt_in_range by exact Hw. cbn [bind]. fields. rewrite Hvc.
  eexists. split; [reflexivity|].
  unfold printDateTime. fields.
  split; [destruct dst; reflexivity|].
  split; [exact Hsec|].
  split.
  - apply (isReady_of_bits _ (b :: bs)); auto.
    fields. rewrite Hbuf. exact Htake.
  - apply last_last.
Qed.

Lemma clean_minute_is_decoded_witness :
  exists d',
    run DCF77Decoder_init
      (minuteOf (string_of_list_ascii
                   (map bitChar (encodeTelegram [] true 59 23 31 7 12 99)))
       ++ [nextMinute])
    = Ok d'
    /\ _dcf77Time d' = mk_tm 0 59 23 31 (12 - 1) (99 + 100) 7 0 1
    /\ _seconds d' = 0
    /\ isReady d' = true
    /\ List.last (Serial d') EmptyString = (_dcf77TimeString d' ++ CRLF)%string.
Proof.
  apply (clean_minute_is_decoded [] true 59 23 31 7 12 99). reflexivity.
Defined.

(** ** [decodeBits] on any filled buffer *)

Lemma getValueFromBits_zone (d : DCF77Decoder) :
  getValueFromBits d 17 2 = 0 + bitValue d 17 * 1 + bitValue d 18 * 2.
Proof. reflexivity. Qed.

Lemma getValueFromBits_min (d : DCF77Decoder) :
  getValueFromBits d 21 7
  = 0 + bitValue d 21 * 1 + bitValue d 22 * 2 + bitValue d 23 * 4
    + bitValue d 24 * 8 + bitValue d 25 * 10 + bitValue d 26 * 20
    + bitValue d 27 * 40.
Proof. reflexivity. Qed.

Lemma getValueFromBits_hour (d : DCF77Decoder) :
  getValueFromBits d 29 6
  = 0 + bitValue d 29 * 1 + bitValue d 30 * 2 + bitValue d 31 * 4
    + bitValue d 32 * 8 + bitValue d 33 * 10 + bitValue d 34 * 20.
Proof. reflexivity. Qed.

Lemma getValueFromBits_mday (d : DCF77Decoder) :
  getValueFromBits d 36 6
  = 0 + bitValue d 36 * 1 + bitValue d 37 * 2 + bitValue d 38 * 4
    + bitValue d 39 * 8 + bitValue d 40 * 10 + bitValue d 41 * 20.
Proof. reflexivity. Qed.

(** The ranges of what [getValueFromBits] reads in a filled buffer. *)
Lemma filled_field_ranges (d : DCF77Decoder) :
  filled d = true ->
  0 <= getValueFromBits d 17 2 <= 3
  /\ 0 <= getValueFromBits d 21 7 <= 85
  /\ 0 <= getValueFromBits d 29 6 <= 45
  /\ 0 <= getValueFromBits d 36 6 <= 45
  /\ 0 <= getValueFromBits d 42 3 <= 7
  /\ 0 <= getValueFromBits d 45 5 <= 25
  /\ 0 <= getValueFromBits d 50 8 <= 165.
Proof.
  intros Hf. rewrite filled_spec in Hf.
  assert (Hb : forall i, 0 <= i < 59 -> 0 <= bitValue d i <= 1).
  { intros i Hi. destruct (bitValue_bit d i (Hf i Hi)) as [-> | ->]; lia. }
  rewrite getValueFromBits_zone, getValueFromBits_min, getValueFromBits_hour,
    getValueFromBits_mday, getValueFromBits_wday, getValueFromBits_mon,
    getValueFromBits_year.
  pose proof (Hb 17 ltac:(lia)); pose proof (Hb 18 ltac:(lia)).
  pose proof (Hb 21 ltac:(lia)); pose proof (Hb 22 ltac:(lia));
    pose proof (Hb 23 ltac:(lia)); pose proof (Hb 24 ltac:(lia));
    pose proof (Hb 25 ltac:(lia)); pose proof (Hb 26 ltac:(lia));
    pose proof (Hb 27 ltac:(lia)).
  pose proof (Hb 29 ltac:(lia)); pose proof (Hb 30 ltac:(lia));
    pose proof (Hb 31 ltac:(lia)); pose proof (Hb 32 ltac:(lia));
    pose proof (Hb 33 ltac:(lia)); pose proof (Hb 34 ltac:(lia)).
  pose proof (Hb 36 ltac:(lia)); pose proof (Hb 37 ltac:(lia));
    pose proof (Hb 38 ltac:(lia)); pose proof (Hb 39 ltac:(lia));
    pose proof (Hb 40 ltac:(lia)); pose proof (Hb 41 ltac:(lia)).
  pose proof (Hb 42 ltac:(lia)); pose proof (Hb 43 ltac:(lia));
    pose proof (Hb 44 ltac:(lia)).
  pose proof (Hb 45 ltac:(lia)); pose proof (Hb 46 ltac:(lia));
    pose proof (Hb 47 ltac:(lia)); pose proof (Hb 48 ltac:(lia));
    pose proof (Hb 49 ltac:(lia)).
  pose proof (Hb 50 ltac:(lia)); pose proof (Hb 51 ltac:(lia));
    pose proof (Hb 52 ltac:(lia)); pose proof (Hb 53 ltac:(lia));
    pose proof (Hb 54 ltac:(lia)); pose proof (Hb 55 ltac:(lia));
    pose proof (Hb 56 ltac:(lia)); pose proof (Hb 57 ltac:(lia)).
  repeat split; lia.
Qed.

Lemma string_length_app (s1 s2 : string) :
  String.length (s1 ++ s2) = (String.length s1 + String.length s2)%nat.
Proof. induction s1 as [|c s1 IH]; [reflexivity|]. cbn. rewrite IH. reflexivity. Qed.

Lemma substring_all (s : string) (n : nat) :
  (String.length s <= n)%nat -> String.substring 0 n s = s.
Proof.
  revert n. induction s as [|c s IH]; intros n H.
  - destruct n; reflexivity.
  - destruct n as [|n]; [cbn in H; lia|]. cbn in *. rewrite IH by lia. reflexivity.
Qed.

(** [%02d] prints two characters up to 99 and three from 100 on. *)
Lemma length_fmt_02d (z : Z) :
  0 <= z < 1000 ->
  String.length (fmt_02d z) = if z <? 100 then 2%nat else 3%nat.
Proof.
  intros Hz.
  assert (Hall :
    forallb (fun m => Nat.eqb (String.length (fmt_02d (Z.of_nat m)))
                        (if Z.of_nat m <? 100 then 2 else 3))
            (seq 0 1000) = true) by (vm_compute; reflexivity).
  rewrite forallb_forall in Hall.
  specialize (Hall (Z.to_nat z) ltac:(apply in_seq; lia)).
  rewrite Z2Nat.id in Hall by lia. apply Nat.eqb_eq. exact Hall.
Qed.

Lemma length_weekDay (i : Z) :
  0 <= i < 8 ->
  String.length (fmt_s 3 (default EmptyString (_weekDay !! Z.to_nat i))) = 3%nat.
Proof.
  intros Hi.
  assert (Hall :
    forallb (fun m => Nat.eqb (String.length
                                 (fmt_s 3 (default EmptyString (_weekDay !! m)))) 3)
            (seq 0 8) = true) by (vm_compute; reflexivity).
  rewrite forallb_forall in Hall.
  apply Nat.eqb_eq. apply Hall. apply in_seq. lia.
Qed.

(** The length of the formatted time for values in the ranges of a filled
    buffer. *)
Lemma length_DCF77TIMEFORMAT (wd yy mo dd hh mi z12 : Z) :
  0 <= wd < 8 -> 0 <= yy < 1000 -> 0 <= mo < 100 -> 0 <= dd < 100 ->
  0 <= hh < 100 -> 0 <= mi < 100 -> 0 <= z12 <= 2 ->
  String.length
    (DCF77TIMEFORMAT (default EmptyString (_weekDay !! Z.to_nat wd))
       yy mo dd hh mi 0 (timeZoneAt z12))
  = if yy <? 100 then 34%nat else 35%nat.
Proof.
  intros Hwd Hyy Hmo Hdd Hhh Hmi Hz.
  unfold DCF77TIMEFORMAT. rewrite !string_length_app.
  rewrite length_weekDay by exact Hwd.
  rewrite !length_fmt_02d by lia.
  assert (Htz : String.length (fmt_s 4 (timeZoneAt z12)) = 4%nat).
  { assert (E : z12 = 0 \/ z12 = 1 \/ z12 = 2) by lia.
    destruct E as [-> | [-> | ->]]; reflexivity. }
  rewrite Htz.
  replace (mo <? 100) with true by (symmetry; apply Z.ltb_lt; lia).
  replace (dd <? 100) with true by (symmetry; apply Z.ltb_lt; lia).
  replace (hh <? 100) with true by (symmetry; apply Z.ltb_lt; lia).
  replace (mi <? 100) with true by (symmetry; apply Z.ltb_lt; lia).
  change (0 <? 100) with true.
  destruct (yy <? 100); reflexivity.
Qed.

(** X7. On every filled buffer [decodeBits] returns: the weekday it reads
    is a valid index of [_weekDay]. It does not check the calendar: the
    fields are only bounded by what their bits can carry (minutes up to 85,
    hours and days up to 45, months up to 25, years up to 165). The
    formatted time has 34 or 35 characters, so [snprintf] never cuts it to
    fit [_dcf77TimeString]. *)
Theorem decodeBits_on_filled_buffer (d : DCF77Decoder) :
  filled d = true ->
  exists d', decodeBits d = Ok d'
    /\ tm_sec (_dcf77Time d') = 0
    /\ 0 <= tm_min (_dcf77Time d') <= 85
    /\ 0 <= tm_hour (_dcf77Time d') <= 45
    /\ 0 <= tm_mday (_dcf77Time d') <= 45
    /\ 0 <= tm_wday (_dcf77Time d') <= 7
    /\ -1 <= tm_mon (_dcf77Time d') <= 24
    /\ 100 <= tm_year (_dcf77Time d') <= 265
    /\ _dcf77TimeString d'
       = DCF77TIMEFORMAT
           (default EmptyString (_weekDay !! Z.to_nat (tm_wday (_dcf77Time d'))))
           (tm_year (_dcf77Time d') - 100) (tm_mon (_dcf77Time d') + 1)
           (tm_mday (_dcf77Time d')) (tm_hour (_dcf77Time d'))
           (tm_min (_dcf77Time d')) 0 (timeZoneAt (_z12 d'))
    /\ (34 <= String.length (_dcf77TimeString d') <= 35)%nat.
Proof.
  intros Hf.
  destruct (filled_field_ranges d Hf) as (Hz & Hmi & Hh & Hd & Hw & Hmo & Hy).
  rewrite decodeBits_eq. cbv zeta. cbn [tm_wday].
  rewrite weekDayAt_in_range by lia. cbn [bind].
  eexists. split; [reflexivity|]. fields.
  set (z12 := if getValueFromBits d 17 2 =? 2 then 2
              else if getValueFromBits d 17 2 =? 1 then 1 else 0).
  assert (Hz12 : 0 <= z12 <= 2)
    by (subst z12; destruct (_ =? 2); [lia|]; destruct (_ =? 1); lia).
  pose proof (length_DCF77TIMEFORMAT (getValueFromBits d 42 3)
                (getValueFromBits d 50 8 + 100 - 100)
                (getValueFromBits d 45 5 - 1 + 1)
                (getValueFromBits d 36 6) (getValueFromBits d 29 6)
                (getValueFromBits d 21 7) z12
                ltac:(lia) ltac:(lia) ltac:(lia) ltac:(lia) ltac:(lia) ltac:(lia) Hz12)
    as Hlen.
  assert (Hcut : forall s, (String.length s <= 39)%nat -> snprintf 40 s = s)
    by (intros s Hs; apply substring_all; exact Hs).
  rewrite Hcut by (rewrite Hlen; destruct (_ <? 100); lia).
  repeat split; try lia.
  - rewrite Hlen. destruct (_ <? 100); lia.
  - rewrite Hlen. destruct (_ <? 100); lia.
Qed.

Lemma decodeBits_on_filled_buffer_witness :
  exists d', decodeBits (holding EXAMPLE) = Ok d'
    /\ tm_sec (_dcf77Time d') = 0
    /\ 0 <= tm_min (_dcf77Time d') <= 85
    /\ 0 <= tm_hour (_dcf77Time d') <= 45
    /\ 0 <= tm_mday (_dcf77Time d') <= 45
    /\ 0 <= tm_wday (_dcf77Time d') <= 7
    /\ -1 <= tm_mon (_dcf77Time d') <= 24
    /\ 100 <= tm_year (_dcf77Time d') <= 265
    /\ _dcf77TimeString d'
       = DCF77TIMEFORMAT
           (default EmptyString (_weekDay !! Z.to_nat (tm_wday (_dcf77Time d'))))
           (tm_year (_dcf77Time d') - 100) (tm_mon (_dcf77Time d') + 1)
           (tm_mday (_dcf77Time d')) (tm_hour (_dcf77Time d'))
           (tm_min (_dcf77Time d')) 0 (timeZoneAt (_z12 d'))
    /\ (34 <= String.length (_dcf77TimeString d') <= 35)%nat.
Proof.
  apply (decodeBits_on_filled_buffer (holding EXAMPLE)). reflexivity.
Defined.

(** X8. The zone bits of seconds 17 and 18 of a filled buffer: 0,1 gives
    standard time ([tm_isdst] 0, zone MEZ), 1,0 daylight saving time
    ([tm_isdst] 1, zone MESZ); the two patterns without information, 0,0
    and 1,1, give [tm_isdst] -1 and the zone "---". *)
Theorem zone_bits_decoded (d : DCF77Decoder) :
  filled d = true ->
  exists d', decodeBits d = Ok d'
    /\ (tm_isdst (_dcf77Time d'), timeZoneAt (_z12 d'))
       = if Ascii.eqb (bitsAt d 17) "1"
         then (if Ascii.eqb (bitsAt d 18) "1" then (-1, "---") else (1, "MESZ"))%string
         else (if Ascii.eqb (bitsAt d 18) "1" then (0, "MEZ") else (-1, "---"))%string.
Proof.
  intros Hf.
  destruct (filled_field_ranges d Hf) as (_ & _ & _ & _ & Hw & _).
  rewrite decodeBits_eq. cbv zeta. cbn [tm_wday].
  rewrite weekDayAt_in_range by lia. cbn [bind].
  eexists. split; [reflexivity|]. fields.
  rewrite filled_spec in Hf.
  pose proof (Hf 17 ltac:(lia)) as H17. pose proof (Hf 18 ltac:(lia)) as H18.
  rewrite getValueFromBits_zone. unfold bitValue.
  apply isBit_cases in H17, H18.
  destruct H17 as [-> | ->], H18 as [-> | ->]; reflexivity.
Qed.

Lemma zone_bits_decoded_witness :
  exists d', decodeBits (flipBit 17 (holding EXAMPLE)) = Ok d'
    /\ (tm_isdst (_dcf77Time d'), timeZoneAt (_z12 d'))
       = if Ascii.eqb (bitsAt (flipBit 17 (holding EXAMPLE)) 17) "1"
         then (if Ascii.eqb (bitsAt (flipBit 17 (holding EXAMPLE)) 18) "1"
               then (-1, "---") else (1, "MESZ"))%string
         else (if Ascii.eqb (bitsAt (flipBit 17 (holding EXAMPLE)) 18) "1"
               then (0, "MEZ") else (-1, "---"))%string.
Proof.
  apply (zone_bits_decoded (flipBit 17 (holding EXAMPLE))). reflexivity.
Defined.

(** ** A minute that passes the parity check *)

(** The state in which [collectBits] returns true. *)
Lemma collectBits_true_eq (now : Z) (d dc : DCF77Decoder) :
  collectBits now d = Ok (true, dc) ->
  dc = set_dcf77Time (set_tm_sec 0 (_dcf77Time d))
         (set_seconds 0
            (set_synchronized true
               (set_widthPause (to_int (to_uint32 (now - _endPulse d)))
                  (set_startPulse now (set_newEdge false d))))).
Proof.
  destruct (_newEdge d) eqn:Hn;
    [|rewrite collectBits_idle by exact Hn; discriminate].
  destruct (Z.eq_dec (_edgeMode d) EDGE_RISING) as [Hr | Hr].
  - rewrite (collectBits_rising now d Hn Hr), pulseBegins_eq. cbv zeta.
    destruct (_ && _); intros H; inversion H; subst. reflexivity.
  - destruct (Z.eq_dec (_edgeMode d) EDGE_FALLING) as [Hf | Hf].
    + rewrite (collectBits_falling now d Hn Hf).
      destruct (pulseEnds now (set_newEdge false d)); discriminate.
    + rewrite (collectBits_other now d Hn Hr Hf). discriminate.
Qed.

(** X6. When an edge completes a minute with a filled buffer that passes
    the parity check, [loop] decodes it in the same call: the record holds
    the BCD values of the fields with the seconds at 0, the second counter
    restarts at 0, the buffer is kept, and exactly one line, the time
    string, is printed when verbose (none otherwise). *)
Theorem validated_minute_is_decoded (d : DCF77Decoder) (e : edge) :
  filled d = true ->
  minuteValidated d e = true ->
  exists d', step d e = Ok d'
    /\ _dcf77Bits d' = _dcf77Bits d
    /\ _synchronized d' = true
    /\ _seconds d' = 0
    /\ _dcf77Time d'
       = mk_tm 0 (bcd (fieldBits d 21 7)) (bcd (fieldBits d 29 6))
           (bcd (fieldBits d 36 6)) (bcd (fieldBits d 45 5) - 1)
           (bcd (fieldBits d 50 8) + 100) (bcd (fieldBits d 42 3))
           (tm_yday (_dcf77Time d)) (tm_isdst (_dcf77Time d'))
    /\ Serial d'
       = Serial d ++ (if _verbose d then [(_dcf77TimeString d' ++ CRLF)%string] else []).
Proof.
  intros Hf Hv. unfold minuteValidated in Hv.
  destruct (collectBits (edge_millis e) (handleInterrupt (edge_level e) d))
    as [[r dc]|u] eqn:Hc; [|discriminate].
  destruct r; [|discriminate].
  pose proof (collectBits_true_eq _ _ dc Hc) as Hdc.
  unfold handleInterrupt in Hdc. fields.
  assert (Hbits : forall i, bitsAt dc i = bitsAt d i) by (subst dc; reflexivity).
  assert (Hg : forall firstBit nbrBits,
             getValueFromBits dc firstBit nbrBits = getValueFromBits d firstBit nbrBits)
    by (intros; apply getValueFromBits_ext; intros; apply Hbits).
  destruct (filled_field_ranges d Hf) as (_ & _ & _ & _ & Hw & _).
  unfold step. rewrite loop_eq, Hc. cbn [bind fst snd]. rewrite Hv.
  rewrite decodeBits_eq. cbv zeta. cbn [tm_wday]. rewrite !Hg.
  rewrite weekDayAt_in_range by lia. cbn [bind].
  eexists. split; [reflexivity|].
  assert (Hvd : _verbose dc = _verbose d) by (subst dc; reflexivity).
  fields. rewrite Hvd.
  pose proof (getValueFromBits_bcd d 21 7 ltac:(lia)) as E1.
  pose proof (getValueFromBits_bcd d 29 6 ltac:(lia)) as E2.
  pose proof (getValueFromBits_bcd d 36 6 ltac:(lia)) as E3.
  pose proof (getValueFromBits_bcd d 42 3 ltac:(lia)) as E4.
  pose proof (getValueFromBits_bcd d 45 5 ltac:(lia)) as E5.
  pose proof (getValueFromBits_bcd d 50 8 ltac:(lia)) as E6.
  cbn [Z.of_nat Pos.of_succ_nat Pos.succ] in E1, E2, E3, E4, E5, E6.
  destruct (_verbose d) eqn:Ev; unfold printDateTime; fields; subst dc; fields;
    rewrite ?app_nil_r, <- ?E1, <- ?E2, <- ?E3, <- ?E4, <- ?E5, <- ?E6;
    repeat split.
Qed.

Lemma validated_minute_is_decoded_witness :
  exists d', step afterExampleMinute nextMinute = Ok d'
    /\ _dcf77Bits d' = _dcf77Bits afterExampleMinute
    /\ _synchronized d' = true
    /\ _seconds d' = 0
    /\ _dcf77Time d'
       = mk_tm 0 (bcd (fieldBits afterExampleMinute 21 7))
           (bcd (fieldBits afterExampleMinute 29 6))
           (bcd (fieldBits afterExampleMinute 36 6))
           (bcd (fieldBits afterExampleMinute 45 5) - 1)
           (bcd (fieldBits afterExampleMinute 50 8) + 100)
           (bcd (fieldBits afterExampleMinute 42 3))
           (tm_yday (_dcf77Time afterExampleMinute)) (tm_isdst (_dcf77Time d'))
    /\ Serial d'
       = Serial afterExampleMinute
         ++ (if _verbose afterExampleMinute
             then [(_dcf77TimeString d' ++ CRLF)%string] else []).
Proof.
  apply (validated_minute_is_decoded afterExampleMinute nextMinute);
    vm_compute; reflexivity.
Defined.

(** * Properties of the sketch *)

Ltac sketch :=
  cbn [myDCF77 timeFromStruct_tm msEvery msPrevious
       on_myDCF77 set_timeFromStruct_tm set_msEvery set_msPrevious] in *.

Lemma to_uint32_difference (p e : Z) :
  0 <= e < 2 ^ 32 -> to_uint32 (to_uint32 (p + e) - p) = e.
Proof.
  intros He. unfold to_uint32.
  rewrite Zminus_mod_idemp_l.
  replace (p + e - p) with e by lia.
  apply Z.mod_small. exact He.
Qed.

(** X14.  [waitIsOver] decides by the time that really passed since
    [msPrevious], also when [millis()] has wrapped around in between: with
    [elapsed] milliseconds passed (less than [2^32]) it answers true and
    restarts the timer at the second clock reading exactly when
    [msWait <= elapsed], and otherwise answers false and leaves
    [msPrevious] alone. *)
Theorem waitIsOver_measures_elapsed_time (prev elapsed msWait now' : Z) :
  0 <= elapsed < 2 ^ 32 ->
  waitIsOver (to_uint32 (prev + elapsed)) now' prev msWait
  = if msWait <=? elapsed then (true, now') else (false, prev).
Proof.
  intros He. unfold waitIsOver.
  rewrite to_uint32_difference by exact He. reflexivity.
Qed.

Lemma waitIsOver_measures_elapsed_time_witness :
  waitIsOver (to_uint32 (4294967000 + 5000)) 4705 4294967000 5000
  = if 5000 <=? 5000 then (true, 4705) else (false, 4294967000).
Proof.
  apply (waitIsOver_measures_elapsed_time 4294967000 5000 5000 4705).
  split; [apply Z.leb_le | apply Z.ltb_lt]; reflexivity.
Defined.

Lemma fold_left_last (parsed : list Z) (v : Z) :
  fold_left (fun _ w => w) parsed v = List.last parsed v.
Proof.
  revert v. induction parsed as [|a l IH]; intros v; [reflexivity|].
  cbn [fold_left]. rewrite IH. destruct l as [|b l]; [reflexivity|].
  change (List.last (a :: b :: l) v) with (List.last (b :: l) v).
  clear IH. revert b. induction l as [|c l IHl]; intros b; [reflexivity|].
  change (List.last (b :: c :: l) a) with (List.last (c :: l) a).
  change (List.last (b :: c :: l) v) with (List.last (c :: l) v).
  apply IHl.
Qed.

Lemma setPrintInterval_eq (parsed : list Z) (s : RadioClock) :
  List.last parsed 0 <= 2147483 ->
  setPrintInterval parsed s
  = Ok (CLEAR_LINE
          (on_myDCF77 (Serial_print " sec")
             (on_myDCF77 (Serial_print (decimal (Z.max 1 (List.last parsed 0))))
                (on_myDCF77 (Serial_print "Interval set to ")
                   (set_msEvery (1000 * Z.max 1 (List.last parsed 0)) s))))).
Proof.
  intros Hv. unfold setPrintInterval. rewrite fold_left_last.
  set (v := List.last parsed 0) in *.
  assert (Hms : (if v <? 1 then Ok 1000
                 else if v * 1000 <=? INT32_MAX then Ok (v * 1000)
                      else Undefined SignedOverflow)
                = Ok (1000 * Z.max 1 v)).
  { unfold INT32_MAX.
    destruct (v <? 1) eqn:E1; zbool.
    - rewrite Z.max_l by lia. reflexivity.
    - destruct (v * 1000 <=? 2 ^ 31 - 1) eqn:E2; zbool; [|lia].
      rewrite Z.max_r by lia. f_equal. lia. }
  rewrite Hms. cbn [bind].
  assert (Hu : to_uint32 (1000 * Z.max 1 v) = 1000 * Z.max 1 v).
  { unfold to_uint32. apply Z.mod_small. lia. }
  rewrite Hu. sketch.
  replace (1000 * Z.max 1 v / 1000) with (Z.max 1 v)
    by (rewrite Z.mul_comm, Z.div_mul; lia).
  reflexivity.
Qed.

(** X15.  [setPrintInterval] takes the last number parsed (0 when there is
    none); up to 2147483 it sets the interval to that many whole seconds,
    and to one second for anything below 1.  The mode flags, the timer and
    the decoder are left alone, and the reply names the interval in
    seconds before the line is cleared. *)
Theorem print_interval_in_whole_seconds (parsed : list Z) (s : RadioClock) :
  List.last parsed 0 <= 2147483 ->
  exists s',
    setPrintInterval parsed s = Ok s'
    /\ msEvery s' = 1000 * Z.max 1 (List.last parsed 0)
    /\ 1000 <= msEvery s' <= INT32_MAX
    /\ timeFromStruct_tm s' = timeFromStruct_tm s
    /\ msPrevious s' = msPrevious s
    /\ myDCF77 s'
       = fold_left (fun d x => Serial_print x d)
           ["Interval set to "; decimal (Z.max 1 (List.last parsed 0)); " sec";
            CR ++ repeat_char 120 " " ++ CR]%string
           (myDCF77 s).
Proof.
  intros Hv. eexists. split; [apply setPrintInterval_eq; exact Hv|].
  unfold CLEAR_LINE, INT32_MAX. sketch.
  repeat split; try reflexivity; lia.
Qed.

Lemma print_interval_in_whole_seconds_witness :
  exists s',
    setPrintInterval [12; 0; -3] dateTimeMode = Ok s'
    /\ msEvery s' = 1000 * Z.max 1 (List.last [12; 0; -3] 0)
    /\ 1000 <= msEvery s' <= INT32_MAX
    /\ timeFromStruct_tm s' = timeFromStruct_tm dateTimeMode
    /\ msPrevious s' = msPrevious dateTimeMode
    /\ myDCF77 s'
       = fold_left (fun d x => Serial_print x d)
           ["Interval set to "; decimal (Z.max 1 (List.last [12; 0; -3] 0)); " sec";
            CR ++ repeat_char 120 " " ++ CR]%string
           (myDCF77 dateTimeMode).
Proof.
  apply (print_interval_in_whole_seconds [12; 0; -3] dateTimeMode).
  apply Z.leb_le. reflexivity.
Defined.

(** X16.  A parsed number above 2147483 makes the product [value * 1000]
    leave the range of [int32_t]: [setPrintInterval] then has no defined
    result. *)
Theorem print_interval_overflows (parsed : list Z) (s : RadioClock) :
  2147483 < List.last parsed 0 ->
  setPrintInterval parsed s = Undefined SignedOverflow.
Proof.
  intros Hv. unfold setPrintInterval, INT32_MAX. rewrite fold_left_last.
  destruct (List.last parsed 0 <? 1) eqn:E1; zbool; [lia|].
  destruct (List.last parsed 0 * 1000 <=? 2 ^ 31 - 1) eqn:E2; zbool; [lia|].
  reflexivity.
Qed.

Lemma print_interval_overflows_witness :
  setPrintInterval [2147484] RadioClock_init = Undefined SignedOverflow.
Proof.
  apply (print_interval_overflows [2147484] RadioClock_init).
  apply Z.ltb_lt. reflexivity.
Defined.

Lemma loop_verbose (now : Z) (d d' : DCF77Decoder) :
  loop now d = Ok d' -> _verbose d' = _verbose d.
Proof.
  rewrite loop_eq. intros H.
  apply bind_Ok in H. destruct H as ([r dc] & Hc & H). cbn [fst snd] in H.
  destruct (collectBits_frame _ _ r dc Hc) as (Hv & _).
  destruct r.
  - destruct (parityOK dc).
    + apply bind_Ok in H. destruct H as (d2 & Hd & H).
      apply decodeBits_frame in Hd. destruct Hd as (x & t & z & -> & _).
      fields. destruct (_verbose dc) eqn:Ev; inversion H; subst;
        unfold printDateTime; fields; congruence.
    + inversion H; subst. unfold parityFailureReported. fields. exact Hv.
  - inversion H; subst. exact Hv.
Qed.

Lemma isr_fold_frame (levels : list Z) (s : RadioClock) :
  let s' := fold_left (fun s level => isr level s) levels s in
  _verbose (myDCF77 s') = _verbose (myDCF77 s)
  /\ timeFromStruct_tm s' = timeFromStruct_tm s
  /\ msEvery s' = msEvery s
  /\ msPrevious s' = msPrevious s.
Proof.
  revert s. induction levels as [|l ls IH]; intros s; cbn [fold_left].
  - repeat split.
  - destruct (IH (isr l s)) as (H1 & H2 & H3 & H4).
    cbv zeta. rewrite H1, H2, H3, H4.
    unfold isr, handleInterrupt. sketch. fields. repeat split.
Qed.

Lemma showMenu_frame (s : RadioClock) :
  _verbose (myDCF77 (showMenu s)) = _verbose (myDCF77 s)
  /\ timeFromStruct_tm (showMenu s) = timeFromStruct_tm s
  /\ msEvery (showMenu s) = msEvery s
  /\ msPrevious (showMenu s) = msPrevious s.
Proof.
  unfold showMenu, menu. cbn [fold_left]. sketch. fields. repeat split.
Qed.

Lemma call_invariants (a : Action) (parsed : list Z) (s s' : RadioClock) :
  call a parsed s = Ok s' ->
  (oneMode s -> oneMode s') /\ (wholeSeconds s -> wholeSeconds s').
Proof.
  unfold oneMode, wholeSeconds.
  destruct a; cbn [call]; intros H.
  - inversion H; subst. unfold showTelegram, setVerbose. sketch. fields. auto.
  - inversion H; subst. unfold showDateTime, setVerbose. sketch. fields. auto.
  - destruct (Z_le_gt_dec (List.last parsed 0) 2147483) as [Hv|Hv].
    + rewrite (setPrintInterval_eq parsed s Hv) in H. inversion H; subst.
      unfold CLEAR_LINE, INT32_MAX. sketch. fields.
      split; [auto|]. intros _. split; [lia|].
      rewrite Z.mul_comm. apply Z.mod_mul. lia.
    + unfold setPrintInterval in H. rewrite fold_left_last in H.
      unfold INT32_MAX in H.
      destruct (List.last parsed 0 <? 1) eqn:E1; zbool; [lia|].
      destruct (List.last parsed 0 * 1000 <=? 2 ^ 31 - 1) eqn:E2; zbool; [lia|].
      discriminate.
  - inversion H; subst.
    destruct (showMenu_frame s) as (H1 & H2 & H3 & _).
    rewrite H1, H2, H3. auto.
Qed.

Lemma doMenu_from_invariants (items : list MenuItem) (k : ascii)
    (parsed : list Z) (s s' : RadioClock) :
  doMenu_from items k parsed s = Ok s' ->
  (oneMode s -> oneMode s') /\ (wholeSeconds s -> wholeSeconds s').
Proof.
  induction items as [|item rest IH]; cbn [doMenu_from]; intros H.
  - inversion H; subst. auto.
  - destruct (Ascii.eqb k (key item)).
    + eapply call_invariants; exact H.
    + apply IH; exact H.
Qed.

Lemma sketch_loop_invariants (s : RadioClock) (p : pass) (s' : RadioClock) :
  sketch_loop s p = Ok s' ->
  (oneMode s -> oneMode s') /\ (wholeSeconds s -> wholeSeconds s').
Proof.
  unfold sketch_loop.
  pose proof (isr_fold_frame (pass_isr p) s) as Hisr. cbv zeta in Hisr.
  set (s1 := fold_left (fun s level => isr level s) (pass_isr p) s) in *.
  destruct Hisr as (I1 & I2 & I3 & _).
  set (s2 := match msPrevious s1 with
             | Some _ => s1
             | None => set_msPrevious (ms_static p) s1
             end).
  assert (E2 : _verbose (myDCF77 s2) = _verbose (myDCF77 s1)
               /\ timeFromStruct_tm s2 = timeFromStruct_tm s1
               /\ msEvery s2 = msEvery s1).
  { subst s2. destruct (msPrevious s1); sketch; repeat split. }
  destruct E2 as (J1 & J2 & J3).
  intros H. apply bind_Ok in H. destruct H as (d & Hd & H).
  apply loop_verbose in Hd.
  destruct (waitIsOver _ _ _ _) as [over prev] in H.
  sketch.
  set (s3 := if over && isReady d && timeFromStruct_tm s2
             then mk_RadioClock (Serial_println (strftime_buf p) d)
                    (timeFromStruct_tm s2) (msEvery s2) (Some prev)
             else mk_RadioClock d (timeFromStruct_tm s2) (msEvery s2) (Some prev)) in *.
  assert (E3 : _verbose (myDCF77 s3) = _verbose (myDCF77 s)
               /\ timeFromStruct_tm s3 = timeFromStruct_tm s
               /\ msEvery s3 = msEvery s).
  { subst s3. destruct (over && isReady d && timeFromStruct_tm s2);
      sketch; fields; repeat split; congruence. }
  destruct E3 as (K1 & K2 & K3).
  assert (Hfrom : (oneMode s -> oneMode s3) /\ (wholeSeconds s -> wholeSeconds s3)).
  { unfold oneMode, wholeSeconds. rewrite K1, K2, K3. auto. }
  destruct (pass_key p) as [[k parsed]|].
  - unfold doMenu in H. apply doMenu_from_invariants in H.
    unfold oneMode, wholeSeconds, CLEAR_LINE in *. sketch. fields. tauto.
  - inversion H; subst. exact Hfrom.
Qed.

Lemma sketch_run_invariants (ps : list pass) (s s' : RadioClock) :
  sketch_run s ps = Ok s' ->
  (oneMode s -> oneMode s') /\ (wholeSeconds s -> wholeSeconds s').
Proof.
  revert s. induction ps as [|p ps IH]; intros s H; cbn [sketch_run] in H.
  - inversion H; subst. auto.
  - apply bind_Ok in H. destruct H as (s1 & H1 & H).
    apply sketch_loop_invariants in H1. apply IH in H. tauto.
Qed.

Lemma setup_invariants :
  oneMode (setup RadioClock_init) /\ wholeSeconds (setup RadioClock_init).
Proof.
  unfold oneMode, wholeSeconds. split; [reflexivity|].
  vm_compute. repeat split; discriminate.
Qed.

(** X17.  Whatever edges arrive and whatever keys are pressed after
    [setup], exactly one of the two print modes is on: the decoder prints
    the telegram ([_verbose]) if and only if the main loop does not print
    the time from [struct tm] ([timeFromStruct_tm]). *)
Theorem exactly_one_print_mode (ps : list pass) (s : RadioClock) :
  sketch_run (setup RadioClock_init) ps = Ok s ->
  _verbose (myDCF77 s) = negb (timeFromStruct_tm s).
Proof.
  intros H. apply sketch_run_invariants in H.
  destruct H as (H & _). apply H. apply setup_invariants.
Qed.

Lemma exactly_one_print_mode_witness :
  _verbose (myDCF77 dateTimeMode) = negb (timeFromStruct_tm dateTimeMode).
Proof.
  apply (exactly_one_print_mode [keyPass "t" []] dateTimeMode).
  vm_compute. reflexivity.
Defined.

(** X18.  Whatever edges arrive and whatever keys are pressed after
    [setup], the print interval stays a whole number of seconds between
    one second and [INT32_MAX] milliseconds. *)
Theorem print_interval_stays_whole_seconds (ps : list pass) (s : RadioClock) :
  sketch_run (setup RadioClock_init) ps = Ok s ->
  1000 <= msEvery s <= INT32_MAX /\ msEvery s mod 1000 = 0.
Proof.
  intros H. apply sketch_run_invariants in H.
  destruct H as (_ & H). apply H. apply setup_invariants.
Qed.

Lemma print_interval_stays_whole_seconds_witness :
  1000 <= msEvery dateTimeMode <= INT32_MAX /\ msEvery dateTimeMode mod 1000 = 0.
Proof.
  apply (print_interval_stays_whole_seconds [keyPass "t" []] dateTimeMode).
  vm_compute. reflexivity.
Defined.

Lemma doMenu_from_no_match (items : list MenuItem) (k : ascii)
    (parsed : list Z) (s : RadioClock) :
  (forall item, In item items -> key item <> k) ->
  doMenu_from items k parsed s = Ok s.
Proof.
  induction items as [|item rest IH]; intros Hk; cbn [doMenu_from]; [reflexivity|].
  destruct (Ascii.eqb k (key item)) eqn:E.
  - apply Ascii.eqb_eq in E. exfalso. apply (Hk item); [left; reflexivity | auto].
  - apply IH. intros it Hin. apply Hk. right. exact Hin.
Qed.

(** X19.  A key that no menu item carries (the keys are case sensitive)
    runs no action: [doMenu] only clears the line, and the modes, the
    interval, the timer and the decoder stay as they are. *)
Theorem unknown_key_only_clears_the_line (k : ascii) (parsed : list Z) (s : RadioClock) :
  (forall item, In item menu -> key item <> k) ->
  doMenu k parsed s = Ok (CLEAR_LINE s).
Proof.
  intros Hk. unfold doMenu. apply doMenu_from_no_match. exact Hk.
Qed.

Lemma unknown_key_only_clears_the_line_witness :
  doMenu "T" [7] dateTimeMode = Ok (CLEAR_LINE dateTimeMode).
Proof.
  apply (unknown_key_only_clears_the_line "T" [7] dateTimeMode).
  intros item Hin. cbn [menu In] in Hin.
  destruct Hin as [<-|[<-|[<-|[<-|[]]]]]; discriminate.
Defined.
